(** * letta-proxy: the webhook proxy of [proxy/src/index.ts]

    A shallow embedding of the request pipeline of the proxy
    (classification, header rewriting, body extraction, the upstream call,
    the webhook notification and the CORS short-circuit), together with the
    properties its specification states about it.

    JavaScript strings are modelled by [string]; the patterns and literals
    the program compares against are ASCII, so matching bytes of the UTF-8
    form gives the answer matching UTF-16 code units gives.

    The first part is the model: the classifier with its regular
    expressions, the values and effects of the runtime, [sendWebhook],
    [forwardRequest] and the application around them, the notions used to
    describe their runs, and a sample runtime and world for the examples.
    The second part proves what the model satisfies, first block by
    block, then claim by claim. The third part proves what the code
    shows besides: properties of the classifier, of [sendWebhook], of
    the handler and of the start-up of the module that the specification
    does not state. *)

From Stdlib Require Import Floats Ascii String ZArith Bool List DecimalString.
From Stdlib Require DecimalPos.
From stdpp Require Import gmap strings list fin_maps.
Set Warnings "-register-all".
Open Scope Z_scope.

(* ================================================================== *)
(** * Part I: the model *)

(* ================================================================== *)
(** ** Strings *)

Module Str.

(** [s.startsWith(p)]. *)
Fixpoint starts_with (p s : string) : bool :=
  match p with
  | EmptyString => true
  | String a p' =>
      match s with
      | EmptyString => false
      | String b s' => Ascii.eqb a b && starts_with p' s'
      end
  end.

(** [s.includes(sub)]: [sub] occurs in [s] as a substring. *)
Fixpoint includes (s sub : string) : bool :=
  starts_with sub s ||
  match s with
  | EmptyString => false
  | String _ s' => includes s' sub
  end.

(** Every character of [s] passes the test [p]. *)
Fixpoint all_chars (p : ascii -> bool) (s : string) : bool :=
  match s with
  | EmptyString => true
  | String c s' => p c && all_chars p s'
  end.

(** A string is truthy when it is not empty. *)
Definition truthy (s : string) : bool :=
  match s with EmptyString => false | String _ _ => true end.

End Str.

(* ================================================================== *)
(** ** Regular expressions

    The fragment of JavaScript's regular expressions the classifier uses:
    literal characters, a negated one-character class, grouping,
    [?], [+] and the end anchor. None of them is sensitive to the order in
    which a backtracking matcher explores its choices, so whether a pattern
    matches is a question about the language it denotes. *)

Module Regex.

Inductive regex : Type :=
| Void                          (* matches nothing *)
| Eps                           (* the empty pattern *)
| Chr (c : ascii)               (* a literal character *)
| NotChr (c : ascii)            (* [^c] *)
| Seq (r1 r2 : regex)           (* r1 r2 *)
| Alt (r1 r2 : regex)           (* r1|r2 *)
| Star (r : regex).             (* r* *)

(** [(?:r)?] *)
Definition Opt (r : regex) : regex := Alt r Eps.
(** [r+] *)
Definition Plus (r : regex) : regex := Seq r (Star r).
(** A run of literal characters. *)
Fixpoint Lit (s : string) : regex :=
  match s with
  | EmptyString => Eps
  | String c s' => Seq (Chr c) (Lit s')
  end.

Fixpoint nullable (r : regex) : bool :=
  match r with
  | Void => false
  | Eps => true
  | Chr _ => false
  | NotChr _ => false
  | Seq r1 r2 => nullable r1 && nullable r2
  | Alt r1 r2 => nullable r1 || nullable r2
  | Star _ => true
  end.

(** What is left of [r] once the character [a] has been read. *)
Fixpoint deriv (a : ascii) (r : regex) : regex :=
  match r with
  | Void => Void
  | Eps => Void
  | Chr c => if Ascii.eqb a c then Eps else Void
  | NotChr c => if Ascii.eqb a c then Void else Eps
  | Seq r1 r2 =>
      if nullable r1 then Alt (Seq (deriv a r1) r2) (deriv a r2)
      else Seq (deriv a r1) r2
  | Alt r1 r2 => Alt (deriv a r1) (deriv a r2)
  | Star r1 => Seq (deriv a r1) (Star r1)
  end.

(** [r] matches the whole of [s]. *)
Fixpoint matches_whole (r : regex) (s : string) : bool :=
  match s with
  | EmptyString => nullable r
  | String a s' => matches_whole (deriv a r) s'
  end.

(** [s.match(/r$/)] is not null: the pattern may start anywhere and must
    end where [s] ends. *)
Fixpoint test_to_end (r : regex) (s : string) : bool :=
  matches_whole r s ||
  match s with
  | EmptyString => false
  | String _ s' => test_to_end r s'
  end.

(** The language a pattern denotes. *)
Inductive lang : regex -> string -> Prop :=
| L_Eps : lang Eps ""
| L_Chr c : lang (Chr c) (String c "")
| L_NotChr c d : d <> c -> lang (NotChr c) (String d "")
| L_Seq r1 r2 s1 s2 : lang r1 s1 -> lang r2 s2 -> lang (Seq r1 r2) (s1 +:+ s2)
| L_AltL r1 r2 s : lang r1 s -> lang (Alt r1 r2) s
| L_AltR r1 r2 s : lang r2 s -> lang (Alt r1 r2) s
| L_Star0 r : lang (Star r) ""
| L_StarS r s1 s2 : lang r s1 -> lang (Star r) s2 -> lang (Star r) (s1 +:+ s2).

End Regex.

(* ================================================================== *)
(** ** The request classifier *)

Import Regex.

(** [/\/v1\/agents\/[^\/]+\/messages(?:\/stream)?\/?$/] without its anchor,
    which [test_to_end] accounts for. *)
Definition agent_messages_re : regex :=
  Seq (Lit "/v1/agents/")
   (Seq (Plus (NotChr "/"))
     (Seq (Lit "/messages")
       (Seq (Opt (Lit "/stream")) (Opt (Chr "/"))))).

(** [/\/v1\/groups\/[^\/]+\/messages(?:\/stream)?\/?$/] *)
Definition group_messages_re : regex :=
  Seq (Lit "/v1/groups/")
   (Seq (Plus (NotChr "/"))
     (Seq (Lit "/messages")
       (Seq (Opt (Lit "/stream")) (Opt (Chr "/"))))).

(** [/\/v1\/messages\/batches\/?$/] *)
Definition batch_messages_re : regex :=
  Seq (Lit "/v1/messages/batches") (Opt (Chr "/")).

(** Determines if the request is a message-sending request. *)
Definition isMessageSendRequest (path method : string) : bool :=
  (* Check for agent message endpoints (including stream) *)
  if test_to_end agent_messages_re path && String.eqb method "POST" then true
  (* Check for group message endpoints (including stream) *)
  else if test_to_end group_messages_re path && String.eqb method "POST" then true
  (* Check for batch message endpoints *)
  else if test_to_end batch_messages_re path && String.eqb method "POST" then true
  else false.

(** *** The patterns as the specification words them *)

(** [{id}]: a non-empty path segment, that is, one without ["/"]. *)
Definition path_segment (id : string) : Prop :=
  id <> "" /\ Str.all_chars (fun d => negb (Ascii.eqb d "/")) id = true.

(** The optional [/stream] and the optional trailing slash. *)
Definition stream_part (st : string) : Prop := st = "/stream" \/ st = "".
Definition slash_part (sl : string) : Prop := sl = "/" \/ sl = "".

(** The three rules of the classifier: the shapes a tracked path has. *)
Inductive tracked_pattern : string -> Prop :=
| agent_pattern id st sl :
    path_segment id -> stream_part st -> slash_part sl ->
    tracked_pattern ("/v1/agents/" +:+ id +:+ "/messages" +:+ st +:+ sl)
| group_pattern id st sl :
    path_segment id -> stream_part st -> slash_part sl ->
    tracked_pattern ("/v1/groups/" +:+ id +:+ "/messages" +:+ st +:+ sl)
| batch_pattern sl :
    slash_part sl ->
    tracked_pattern ("/v1/messages/batches" +:+ sl).

(* ================================================================== *)
(** ** Values of the runtime *)

(** How a call ends: with a value, or by throwing. A thrown value is
    represented by the text [error.message] (or [String(error)]) yields. *)
Inductive completion (A : Type) : Type :=
| Normal (a : A)
| Throw (message : string).
Arguments Normal {A} a.
Arguments Throw {A} message.

(** JSON values, as [JSON.parse] and [Response.json] produce them and
    [JSON.stringify] consumes them. An object lists its own properties in
    order; numbers are IEEE 754 doubles. *)
Inductive json : Type :=
| JNull
| JBool (b : bool)
| JNum (x : float)
| JStr (s : string)
| JArr (items : list json)
| JObj (fields : list (string * json)).

Module Js.

(** The value of the own property [name] in a list of properties. *)
Fixpoint assoc (name : string) (fields : list (string * json)) : option json :=
  match fields with
  | [] => None
  | (k, v) :: rest => if String.eqb k name then Some v else assoc name rest
  end.

(** [v.name] for a value [v] that is neither [null] nor [undefined] and a
    name that is neither an index nor [length] nor inherited: only an
    object can have it. [None] stands for [undefined]. *)
Definition member (name : string) (v : json) : option json :=
  match v with
  | JObj fields => assoc name fields
  | _ => None
  end.

(** [v[0]]: the property ["0"] of an object, the first element of an
    array, the first character of a string. *)
Definition index0 (v : json) : option json :=
  match v with
  | JObj fields => assoc "0" fields
  | JArr items => head items
  | JStr (String c _) => Some (JStr (String c EmptyString))
  | _ => None
  end.

(** Optional chaining [o?.f]: [undefined] when [o] is [null] or
    [undefined]. *)
Definition chain (o : option json) (f : json -> option json) : option json :=
  match o with
  | None | Some JNull => None
  | Some v => f v
  end.

(** JavaScript's truthiness, on JSON values. *)
Definition truthy (v : json) : bool :=
  match v with
  | JNull => false
  | JBool b => b
  | JNum x => negb (PrimFloat.is_zero x || PrimFloat.is_nan x)
  | JStr s => Str.truthy s
  | JArr _ | JObj _ => true
  end.

(** [o || ''] *)
Definition or_empty (o : option json) : json :=
  match o with
  | Some v => if truthy v then v else JStr ""
  | None => JStr ""
  end.

(** [typeof v === "string"] *)
Definition is_string (v : json) : bool :=
  match v with JStr _ => true | _ => false end.

(** Truthiness of a value that is a string or [undefined]. *)
Definition truthy_opt (o : option string) : bool :=
  match o with Some s => Str.truthy s | None => false end.

End Js.

(** ** Headers

    A [Headers] object: header names are case-insensitive and kept in
    lower case; the value under a name is the combined value [get]
    returns, which may be the empty string. [set] normalises the value it
    is given and throws when the result is no header value; [put] writes
    an entry as it is given, as the program does where it builds the
    headers of a call as a plain object. *)
Module Headers.

Definition lower_char (c : ascii) : ascii :=
  let n := nat_of_ascii c in
  if ((65 <=? n) && (n <=? 90))%nat then ascii_of_nat (n + 32) else c.

Fixpoint lower (s : string) : string :=
  match s with
  | EmptyString => EmptyString
  | String c s' => String (lower_char c) (lower s')
  end.

Definition get (h : gmap string string) (name : string) : option string :=
  h !! lower name.

Definition has (h : gmap string string) (name : string) : bool :=
  match h !! lower name with Some _ => true | None => false end.

Definition remove (h : gmap string string) (name : string) : gmap string string :=
  delete (lower name) h.

(** [headers[name] = value] on a plain object of headers. *)
Definition put (h : gmap string string) (name value : string) : gmap string string :=
  <[lower name := value]> h.

(** HTTP whitespace: TAB, LF, CR and the space. *)
Definition http_whitespace (a : ascii) : bool :=
  let n := nat_of_ascii a in
  ((n =? 9) || (n =? 10) || (n =? 13) || (n =? 32))%nat.

(** [v] without the HTTP whitespace it starts with, and without the HTTP
    whitespace it ends with. *)
Fixpoint strip_start (v : string) : string :=
  match v with
  | EmptyString => EmptyString
  | String a v' => if http_whitespace a then strip_start v' else v
  end.

Fixpoint strip_end (v : string) : string :=
  match v with
  | EmptyString => EmptyString
  | String a v' =>
      match strip_end v' with
      | EmptyString =>
          if http_whitespace a then EmptyString else String a EmptyString
      | rest => String a rest
      end
  end.

(** The normalisation of a value by [set]: leading and trailing HTTP
    whitespace is removed. *)
Definition normalize (v : string) : string := strip_end (strip_start v).

(** A header value: a string of bytes (no character above U+00FF, which
    is no byte from 196 on in UTF-8) without NUL, LF and CR. *)
Definition header_value (v : string) : bool :=
  Str.all_chars
    (fun a =>
       let n := nat_of_ascii a in
       (negb ((n =? 0) || (n =? 10) || (n =? 13)) && (n <? 196))%nat)
    v.

(** [headers.set(name, value)]: the entry is written with the normalised
    value; [None] when that is no header value, where [set] throws a
    [TypeError]. *)
Definition set (h : gmap string string) (name value : string)
  : option (gmap string string) :=
  let value := normalize value in
  if header_value value then Some (<[lower name := value]> h) else None.

(** [new Headers(init)] for an object literal [init] of header values. *)
Definition of_list (init : list (string * string)) : gmap string string :=
  fold_left (fun h kv => put h (fst kv) (snd kv)) init ∅.

End Headers.

(** ** Requests, responses and calls *)

Record Request := {
  req_method : string;
  req_origin : string;      (* scheme and authority of [req.url] *)
  req_rawpath : string;     (* its path, as the URL spells it *)
  req_pathname : string;    (* that path, percent-decoded *)
  req_search : string;      (* its query string: empty, or "?" and the query *)
  req_headers : gmap string string;
  req_body : string;
}.

(** [req.url] *)
Definition req_url (req : Request) : string :=
  req_origin req +:+ req_rawpath req +:+ req_search req.

(** Hono's context [c]. [c.req.raw] is the request and [c.req.method] its
    method; [c.req.path] is the path of its URL with what is
    percent-encoded in it decoded: the query string is not part of it
    (Hono gives it through [c.req.query()] and [c.req.url]). *)
Record Context := { c_req_raw : Request }.
Definition c_req_path (c : Context) : string := req_pathname (c_req_raw c).
Definition c_req_method (c : Context) : string := req_method (c_req_raw c).

Record Response := {
  status : Z;
  resp_headers : gmap string string;
  resp_body : string;
}.

(** [response.ok] *)
Definition ok (r : Response) : bool := (200 <=? status r) && (status r <=? 299).

(** The parts of a multipart form, as [req.formData()] decodes them. *)
Definition FormData : Type := list (string * string).

(** The [body] option of a [fetch] call. *)
Inductive BodyInit : Type :=
| body_undefined
| body_text (text : string)
| body_formData (form : FormData)
| body_arrayBuffer (bytes : string).

(** The arguments of a [fetch] call. *)
Record FetchCall := {
  call_url : string;
  call_method : string;
  call_headers : gmap string string;
  call_body : BodyInit;
}.

(** The functions of the JavaScript runtime the proxy calls. They are
    parameters of the model: what is proved holds whatever they compute. *)
Record Runtime := {
  JSON_parse : string -> completion json;
  JSON_stringify : json -> string;
  (** [new URL(input, base)], as the string [fetch] is given. *)
  new_URL : string -> string -> completion string;
  (** [req.formData()], of the headers and the body of [req]. *)
  Request_formData : gmap string string -> string -> completion FormData;
  (** The message of the [TypeError] that [headers.set(name, value)] throws
      when [value] is no header value. *)
  Headers_set_error : string -> string -> string;
}.

(** What is outside the proxy: the upstream API, the webhook target and
    the clock. A [fetch] that rejects (DNS, connection refused, timeout)
    is a [Throw]. [clock n] is the n-th reading of
    [new Date().toISOString()] during one request. *)
Record World := {
  upstream : FetchCall -> completion Response;
  webhook_target : FetchCall -> completion Response;
  clock : nat -> string;
}.

(** The configuration read from the process environment. The process does
    not start without [LETTA_API_URL]. *)
Record Config := {
  LETTA_API_URL : string;
  LETTA_API_KEY : option string;
  WEBHOOK_URL : option string;
  WEBHOOK_SECRET : option string;
}.

(* ================================================================== *)
(** ** Effects *)

(** What [console.log] and [console.error] are given. *)
Inductive log_message : Type :=
| RequestReceived (path method : string) (origin host : option string) (url : string)
| IsMessageRequest (isMessageRequest agentMessage groupMessage batchMessage : bool)
| WebhookNotConfigured
| WebhookFailed (status : Z) (text : string)
| WebhookSent (status : Z)
| ErrorSendingWebhook (error : string)
| ErrorProcessingWebhookData (error : string)
| ProxyRequestError (error : string).

(** What one request does that can be observed from outside. *)
Inductive event : Type :=
| EvLog (m : log_message)                (* console.log *)
| EvError (m : log_message)              (* console.error *)
| EvFetchUpstream (call : FetchCall)     (* the fetch of forwardRequest *)
| EvReadResponseBody                     (* responseClone.json() *)
| EvFetchWebhook (call : FetchCall).     (* the fetch of sendWebhook *)

(** A call that was started and not awaited. The proxy starts only
    [sendWebhook(payload)] this way. *)
Inductive task : Type :=
| task_sendWebhook (payload : json).

(** The state one request threads: the events so far (the latest first),
    how often the clock was read, and the calls started without [await]. *)
Record state := {
  trace : list event;
  clock_reads : nat;
  detached : list task;
}.

Definition initial_state : state :=
  {| trace := []; clock_reads := 0; detached := [] |}.

(** Asynchronous code, in sequence: a state transformer that returns or
    throws. What it did before it threw stays done. *)
Definition M (A : Type) : Type := state -> completion A * state.

Definition ret {A} (a : A) : M A := fun st => (Normal a, st).

Definition bind {A B} (m : M A) (k : A -> M B) : M B :=
  fun st =>
    match m st with
    | (Normal a, st') => k a st'
    | (Throw e, st') => (Throw e, st')
    end.

(** [try { m } catch (error) { handler error }] *)
Definition try_catch {A} (m : M A) (handler : string -> M A) : M A :=
  fun st =>
    match m st with
    | (Normal a, st') => (Normal a, st')
    | (Throw e, st') => handler e st'
    end.

(** A call of the runtime that returns or throws at once. *)
Definition lift {A} (c : completion A) : M A := fun st => (c, st).

Definition emit (e : event) : M unit :=
  fun st =>
    (Normal tt,
     {| trace := e :: trace st;
        clock_reads := clock_reads st;
        detached := detached st |}).

Definition console_log (m : log_message) : M unit := emit (EvLog m).
Definition console_error (m : log_message) : M unit := emit (EvError m).

(** Start [t] and go on without waiting for it. *)
Definition detach (t : task) : M unit :=
  fun st =>
    (Normal tt,
     {| trace := trace st;
        clock_reads := clock_reads st;
        detached := detached st ++ [t] |}).

Notation "'let*' x ':=' m 'in' k" := (bind m (fun x => k))
  (at level 10, x pattern, m at level 100, k at level 200, only parsing).
Notation "m ;; k" := (bind m (fun _ => k))
  (at level 100, k at level 200, right associativity, only parsing).

(** The events of a trace that are calls to the upstream API, and those
    that are calls to the webhook target. *)
Fixpoint upstream_calls (tr : list event) : list FetchCall :=
  match tr with
  | [] => []
  | EvFetchUpstream call :: rest => call :: upstream_calls rest
  | _ :: rest => upstream_calls rest
  end.

Fixpoint webhook_calls (tr : list event) : list FetchCall :=
  match tr with
  | [] => []
  | EvFetchWebhook call :: rest => call :: webhook_calls rest
  | _ :: rest => webhook_calls rest
  end.

(** Whether the body of the upstream response was read by the proxy. *)
Fixpoint body_read (tr : list event) : bool :=
  match tr with
  | [] => false
  | EvReadResponseBody :: _ => true
  | _ :: rest => body_read rest
  end.

(** The messages given to [console.error]. *)
Fixpoint errors_logged (tr : list event) : list log_message :=
  match tr with
  | [] => []
  | EvError m :: rest => m :: errors_logged rest
  | _ :: rest => errors_logged rest
  end.

(* ================================================================== *)
(** ** The proxy *)

(** The patterns of the debug log of [forwardRequest]. *)
Definition agent_plain_re : regex :=
  Seq (Lit "/v1/agents/")
   (Seq (Plus (NotChr "/")) (Seq (Lit "/messages") (Opt (Chr "/")))).
Definition group_plain_re : regex :=
  Seq (Lit "/v1/groups/")
   (Seq (Plus (NotChr "/")) (Seq (Lit "/messages") (Opt (Chr "/")))).

(** The options the proxy gives Hono's [cors] middleware. *)
Record CorsOptions := {
  origin : string;
  allowMethods : list string;
  allowHeaders : list string;
  exposeHeaders : list string;
  credentials : bool;
  maxAge : Z;
}.

Definition cors_options : CorsOptions :=
  {| origin := "*";
     allowMethods := ["GET"; "POST"; "PUT"; "DELETE"; "OPTIONS"; "PATCH"];
     allowHeaders := ["*"];
     exposeHeaders := ["*"];
     credentials := true;
     maxAge := 86400 |}.

(** [n.toString()] for an integer. *)
Definition Z_toString (n : Z) : string :=
  DecimalString.NilZero.string_of_int (Z.to_int n).

(** A variable of the environment that is set and not empty. *)
Definition env (o : option string) : option string :=
  match o with
  | Some s => if Str.truthy s then Some s else None
  | None => None
  end.

Section Proxy.

Variable rt : Runtime.
Variable cfg : Config.
Variable world : World.

(** [await fetch(targetUrl, ...)] of [forwardRequest]. *)
Definition fetch_upstream (call : FetchCall) : M Response :=
  emit (EvFetchUpstream call) ;; lift (upstream world call).

(** [await fetch(WEBHOOK_URL, ...)] of [sendWebhook]. *)
Definition fetch_webhook (call : FetchCall) : M Response :=
  emit (EvFetchWebhook call) ;; lift (webhook_target world call).

(** [new Date().toISOString()] *)
Definition now : M string :=
  fun st =>
    (Normal (clock world (clock_reads st)),
     {| trace := trace st;
        clock_reads := S (clock_reads st);
        detached := detached st |}).

(** [await response.json()] *)
Definition Response_json (r : Response) : M json :=
  emit EvReadResponseBody ;; lift (JSON_parse rt (resp_body r)).

(** Sends a webhook notification when a message is sent. *)
Definition sendWebhook (payload : json) : M unit :=
  match env (WEBHOOK_URL cfg) with
  | None => console_log WebhookNotConfigured
  | Some url =>
      try_catch
        (let headers := Headers.of_list [("Content-Type", "application/json")] in
         (* Add webhook secret if configured *)
         let headers :=
           match env (WEBHOOK_SECRET cfg) with
           | Some secret => Headers.put headers "X-Webhook-Secret" secret
           | None => headers
           end in
         let* response :=
           fetch_webhook
             {| call_url := url;
                call_method := "POST";
                call_headers := headers;
                call_body := body_text (JSON_stringify rt payload) |} in
         if negb (ok response)
         then console_error (WebhookFailed (status response) (resp_body response))
         else console_log (WebhookSent (status response)))
        (fun error => console_error (ErrorSendingWebhook error))
  end.

(** The headers of the upstream call (the "remove headers" block of
    [forwardRequest] and the API key after it). The block throws when
    [req.headers.set] does: for a key that no header can carry. *)
Definition forwardRequest_headers (h : gmap string string)
  : completion (gmap string string) :=
  let h := if Js.truthy_opt (Headers.get h "host")
           then Headers.remove h "host" else h in
  let h := if Js.truthy_opt (Headers.get h "connection")
           then Headers.remove h "connection" else h in
  let h := if Js.truthy_opt (Headers.get h "content-length")
           then Headers.remove h "content-length" else h in
  let h := if Headers.has h "Authorization"
           then Headers.remove h "Authorization" else h in
  (* Ensure API key is set if LETTA_API_KEY is present *)
  match env (LETTA_API_KEY cfg) with
  | Some key =>
      match Headers.set h "Authorization" ("Bearer " +:+ key) with
      | Some h' => Normal h'
      | None =>
          Throw (Headers_set_error rt "Authorization" ("Bearer " +:+ key))
      end
  | None => Normal h
  end.

(** The body of the upstream call and the text kept for the webhook
    ([body] and [bodyText] of [forwardRequest]). Reading the body has no
    effect the model records, so this part returns or throws at once. *)
Definition forwardRequest_body (req : Request) (headers : gmap string string)
  : completion (BodyInit * option string) :=
  if negb (String.eqb (req_method req) "GET") &&
     negb (String.eqb (req_method req) "HEAD")
  then
    let contentType := default "" (Headers.get headers "content-type") in
    if Str.includes contentType "application/json" then
      (* Store a copy of the original request body for the webhook *)
      let bodyText := req_body req in
      match JSON_parse rt bodyText with
      | Normal body => Normal (body_text (JSON_stringify rt body), Some bodyText)
      | Throw error => Throw error
      end
    else if Str.includes contentType "multipart/form-data" then
      match Request_formData rt headers (req_body req) with
      | Normal body => Normal (body_formData body, None)
      | Throw error => Throw error
      end
    else
      Normal (body_arrayBuffer (req_body req), None)
  else Normal (body_undefined, None).

(** [requestBody?.messages?.[0]?.content || ''] *)
Definition userMessage_of (requestBody : json) : json :=
  Js.or_empty
    (Js.chain
       (Js.chain (Js.chain (Some requestBody) (Js.member "messages")) Js.index0)
       (Js.member "content")).

(** The object handed to [sendWebhook]. *)
Definition webhook_payload (isStreamResponse : bool) (timestamp : string)
    (userMessage : json) (path method : string) (requestBody responseBody : json)
  : json :=
  JObj [("type", JStr (if isStreamResponse then "stream_started" else "message_sent"));
        ("timestamp", JStr timestamp);
        ("prompt", userMessage);
        ("request", JObj [("path", JStr path);
                          ("method", JStr method);
                          ("body", requestBody)]);
        ("response", responseBody)].

(** The [response] field of the payload of a streaming request. *)
Definition stream_started (timestamp : string) : json :=
  JObj [("type", JStr "stream_started"); ("timestamp", JStr timestamp)].

(** The webhook block of [forwardRequest]: what runs when the request is a
    message request, the upstream answered [ok] and [bodyText] is set. *)
Definition forwardRequest_notify (path method bodyText : string)
    (response : Response) : M unit :=
  try_catch
    ((* Check if this is a streaming response *)
     let isStreamResponse := Str.includes path "/stream" in
     let* responseBody :=
       if isStreamResponse then
         (* For streaming responses, just use the initial request data *)
         (let* timestamp := now in ret (stream_started timestamp))
       else
         (* For regular responses, parse the JSON as before *)
         Response_json response in
     (* Extract relevant information for the webhook *)
     let* requestBody := lift (JSON_parse rt bodyText) in
     (* Extract the prompt/message content from the request body *)
     let userMessage := userMessage_of requestBody in
     let* timestamp := now in
     (* Send webhook with combined information; the call is not awaited *)
     detach
       (task_sendWebhook
          (webhook_payload isStreamResponse timestamp userMessage
             path method requestBody responseBody)))
    (fun error => console_error (ErrorProcessingWebhookData error)).

(** The response of the [catch] of [forwardRequest]. *)
Definition proxy_error (details : string) : Response :=
  {| status := 500;
     resp_headers := Headers.of_list [("content-type", "application/json")];
     resp_body :=
       JSON_stringify rt
         (JObj [("error", JStr "Proxy error"); ("details", JStr details)]) |}.

Definition forwardRequest (c : Context) : M Response :=
  let req := c_req_raw c in
  let path := c_req_path c in
  let method := req_method req in
  (* Add debug logging *)
  console_log
    (RequestReceived path method
       (Headers.get (req_headers req) "origin")
       (Headers.get (req_headers req) "host")
       (req_url req)) ;;
  (* Flag to track if this is a message-sending request *)
  let isMessageRequest := isMessageSendRequest path method in
  console_log
    (IsMessageRequest isMessageRequest
       (test_to_end agent_plain_re path)
       (test_to_end group_plain_re path)
       (test_to_end batch_messages_re path)) ;;
  try_catch
    (let* targetUrl := lift (new_URL rt path (LETTA_API_URL cfg)) in
     let* headers := lift (forwardRequest_headers (req_headers req)) in
     let* extracted := lift (forwardRequest_body req headers) in
     let body := fst extracted in
     let bodyText := snd extracted in
     let* response :=
       fetch_upstream
         {| call_url := targetUrl;
            call_method := req_method req;
            call_headers := headers;
            call_body := body |} in
     (* If this was a message request and it was successful, trigger the
        webhook *)
     (match bodyText with
      | Some text =>
          if isMessageRequest && ok response && Str.truthy text
          then forwardRequest_notify path method text response
          else ret tt
      | None => ret tt
      end) ;;
     ret response)
    (fun error =>
       console_error (ProxyRequestError error) ;;
       ret (proxy_error error)).

(** Modelled from the spec: Hono's [cors] middleware (the package
    [hono/cors]), whose code is not among the sources of the repository.
    The specification has [OPTIONS] requests intercepted before they reach
    the forwarder and answered [204 No Content] with the CORS headers of
    the options (origin, methods, headers allowed and exposed,
    credentials, max-age); on any other request the middleware sets the
    origin, credentials and exposed-headers fields on the response of what
    follows. The model covers a wildcard origin and a list of allowed
    headers that is not empty, which is how the proxy configures it. *)
Definition cors (opts : CorsOptions) (c : Context) (next : M Response)
  : M Response :=
  let h := Headers.put ∅ "Access-Control-Allow-Origin" (origin opts) in
  let h := if credentials opts
           then Headers.put h "Access-Control-Allow-Credentials" "true" else h in
  let h := match exposeHeaders opts with
           | [] => h
           | l => Headers.put h "Access-Control-Expose-Headers" (String.concat "," l)
           end in
  if String.eqb (c_req_method c) "OPTIONS" then
    let h := Headers.put h "Access-Control-Max-Age" (Z_toString (maxAge opts)) in
    let h := match allowMethods opts with
             | [] => h
             | l => Headers.put h "Access-Control-Allow-Methods" (String.concat "," l)
             end in
    let h := match allowHeaders opts with
             | [] => h
             | l => Headers.put
                      (Headers.put h "Access-Control-Allow-Headers" (String.concat "," l))
                      "Vary" "Access-Control-Request-Headers"
             end in
    let h := Headers.remove (Headers.remove h "Content-Length") "Content-Type" in
    ret {| status := 204; resp_headers := h; resp_body := "" |}
  else
    let* response := next in
    ret {| status := status response;
           resp_headers := h ∪ resp_headers response;
           resp_body := resp_body response |}.

(** [app.all("*", ...)] *)
Definition handler (c : Context) : M Response :=
  if String.eqb (c_req_method c) "OPTIONS" then
    ret {| status := 204; resp_headers := ∅; resp_body := "" |}
  else forwardRequest c.

(** [app.fetch]: the middleware of [app.use("*", cors(...))], then the
    handler. *)
Definition app_fetch (req : Request) : M Response :=
  let c := {| c_req_raw := req |} in
  cors cors_options c (handler c).

Definition run_task (t : task) : M unit :=
  match t with
  | task_sendWebhook payload => sendWebhook payload
  end.

(** The calls started without [await] run to their end; what they return
    or throw goes nowhere. JavaScript runs such a call up to its first
    [await] before the caller goes on, and the rest once the caller has
    yielded; the model records all its events after those of the caller,
    which has no means to wait for them or to see their result. *)
Fixpoint run_detached (ts : list task) (st : state) : state :=
  match ts with
  | [] => st
  | t :: rest => run_detached rest (snd (run_task t st))
  end.

(** One request, served: the response the client receives and every
    event of the request, those of the detached calls included. *)
Record Outcome := {
  out_response : completion Response;
  out_events : list event;
}.

Definition serve (req : Request) : Outcome :=
  let '(r, st) := app_fetch req initial_state in
  {| out_response := r;
     out_events := trace (run_detached (detached st) st) |}.

End Proxy.

(* ================================================================== *)
(** ** The handler on its own *)

Section Handler.

Variable rt : Runtime.
Variable cfg : Config.
Variable world : World.

(** One request, given to the handler of [app.all("*", ...)] without the
    middleware before it: the response the handler returns and every
    event of the request, those of the calls it started and did not wait
    for included. *)
Definition respond (req : Request) : Outcome :=
  let '(r, st) := handler rt cfg world {| c_req_raw := req |} initial_state in
  {| out_response := r;
     out_events := trace (run_detached rt cfg world (detached st) st) |}.

End Handler.

(** The answer of the handler to [OPTIONS]:
    [new Response(null, { status: 204 })]. *)
Definition no_content : Response :=
  {| status := 204; resp_headers := ∅; resp_body := "" |}.

(* ================================================================== *)
(** ** The runs of the proxy, described

    The notions below say what a run of the proxy did; the lemmas of the
    second part show that every run is of one of the shapes they list. *)

(** The status the client receives, when it receives a response. *)
Definition status_received (o : Outcome) : option Z :=
  match out_response o with
  | Normal r => Some (status r)
  | Throw _ => None
  end.

(** The state after the events [evs] (the latest first). *)
Definition after (evs : list event) (st : state) : state :=
  {| trace := evs ++ trace st;
     clock_reads := clock_reads st;
     detached := detached st |}.

(** What the webhook block reads of the upstream response: its body,
    unless the path contains ["/stream"]. *)
Definition response_reads (path : string) : list event :=
  if Str.includes path "/stream" then [] else [EvReadResponseBody].

(** [if (h.get(name)) h.delete(name)], for a name in lower case. *)
Definition drop_if_truthy (name : string) (h : gmap string string)
  : gmap string string :=
  if Js.truthy_opt (h !! name) then delete name h else h.

(** [if (h.has(name)) h.delete(name)], for a name in lower case. *)
Definition drop_if_present (name : string) (h : gmap string string)
  : gmap string string :=
  if match h !! name with Some _ => true | None => false end
  then delete name h else h.

Section Runs.

Variable rt : Runtime.
Variable cfg : Config.
Variable world : World.

(** The call [sendWebhook] makes for [payload] when the webhook URL is
    [url]. *)
Definition webhook_request (url : string) (payload : json) : FetchCall :=
  {| call_url := url;
     call_method := "POST";
     call_headers :=
       match env (WEBHOOK_SECRET cfg) with
       | Some secret =>
           Headers.put (Headers.of_list [("Content-Type", "application/json")])
             "X-Webhook-Secret" secret
       | None => Headers.of_list [("Content-Type", "application/json")]
       end;
     call_body := body_text (JSON_stringify rt payload) |}.

(** What [sendWebhook payload] does, by what it meets: no webhook URL, a
    target that answers [ok], one that answers otherwise, one that cannot
    be reached. *)
Inductive webhook_sent (payload : json) : list event -> Prop :=
| sent_nowhere :
    env (WEBHOOK_URL cfg) = None ->
    webhook_sent payload [EvLog WebhookNotConfigured]
| sent_accepted url r :
    env (WEBHOOK_URL cfg) = Some url ->
    webhook_target world (webhook_request url payload) = Normal r ->
    ok r = true ->
    webhook_sent payload
      [EvLog (WebhookSent (status r));
       EvFetchWebhook (webhook_request url payload)]
| sent_refused url r :
    env (WEBHOOK_URL cfg) = Some url ->
    webhook_target world (webhook_request url payload) = Normal r ->
    ok r = false ->
    webhook_sent payload
      [EvError (WebhookFailed (status r) (resp_body r));
       EvFetchWebhook (webhook_request url payload)]
| sent_unreachable url e :
    env (WEBHOOK_URL cfg) = Some url ->
    webhook_target world (webhook_request url payload) = Throw e ->
    webhook_sent payload
      [EvError (ErrorSendingWebhook e);
       EvFetchWebhook (webhook_request url payload)].

(** The part of [forwardRequest] before [fetch]: the upstream call it
    prepares, with the text it keeps for the webhook. *)
Definition prepare (req : Request) : completion (FetchCall * option string) :=
  match new_URL rt (req_pathname req) (LETTA_API_URL cfg) with
  | Throw e => Throw e
  | Normal targetUrl =>
      match forwardRequest_headers rt cfg (req_headers req) with
      | Throw e => Throw e
      | Normal headers =>
          match forwardRequest_body rt req headers with
          | Throw e => Throw e
          | Normal (body, bodyText) =>
              Normal
                ({| call_url := targetUrl;
                    call_method := req_method req;
                    call_headers := headers;
                    call_body := body |},
                 bodyText)
          end
      end
  end.

(** The two debug logs [forwardRequest] starts with. *)
Definition debug_logs (req : Request) : list event :=
  [EvLog
     (IsMessageRequest
        (isMessageSendRequest (req_pathname req) (req_method req))
        (test_to_end agent_plain_re (req_pathname req))
        (test_to_end group_plain_re (req_pathname req))
        (test_to_end batch_messages_re (req_pathname req)));
   EvLog
     (RequestReceived (req_pathname req) (req_method req)
        (Headers.get (req_headers req) "origin")
        (Headers.get (req_headers req) "host")
        (req_url req))].

(** The condition under which [forwardRequest] enters its webhook block. *)
Definition notifies (req : Request) (response : Response)
    (bodyText : option string) : bool :=
  isMessageSendRequest (req_pathname req) (req_method req) &&
  ok response && Js.truthy_opt bodyText.

(** The headers the [cors] middleware sets on every response, and those of
    its answer to [OPTIONS]. *)
Definition cors_headers : gmap string string :=
  Headers.of_list
    [("Access-Control-Allow-Origin", "*");
     ("Access-Control-Allow-Credentials", "true");
     ("Access-Control-Expose-Headers", "*")].

Definition preflight_response : Response :=
  {| status := 204;
     resp_headers :=
       Headers.of_list
         [("Access-Control-Allow-Origin", "*");
          ("Access-Control-Allow-Credentials", "true");
          ("Access-Control-Expose-Headers", "*");
          ("Access-Control-Max-Age", "86400");
          ("Access-Control-Allow-Methods", "GET,POST,PUT,DELETE,OPTIONS,PATCH");
          ("Access-Control-Allow-Headers", "*");
          ("Vary", "Access-Control-Request-Headers")];
     resp_body := "" |}.

(** A response of the handler, as the middleware passes it on. *)
Definition with_cors (r : Response) : Response :=
  {| status := status r;
     resp_headers := cors_headers ∪ resp_headers r;
     resp_body := resp_body r |}.

(** The shapes a run of [forwardRequest] has: the response it returns, what
    happened on the way (the latest first), and the calls it started
    without waiting for them. *)
Inductive forwarded (req : Request)
  : Response -> list event -> list task -> Prop :=
| forwarded_rejected e :
    prepare req = Throw e ->
    forwarded req (proxy_error rt e)
      (EvError (ProxyRequestError e) :: debug_logs req) []
| forwarded_unreachable call bodyText e :
    prepare req = Normal (call, bodyText) ->
    upstream world call = Throw e ->
    forwarded req (proxy_error rt e)
      (EvError (ProxyRequestError e) :: EvFetchUpstream call :: debug_logs req)
      []
| forwarded_relayed call bodyText response :
    prepare req = Normal (call, bodyText) ->
    upstream world call = Normal response ->
    notifies req response bodyText = false ->
    forwarded req response (EvFetchUpstream call :: debug_logs req) []
| forwarded_unnotified call text response e :
    prepare req = Normal (call, Some text) ->
    upstream world call = Normal response ->
    notifies req response (Some text) = true ->
    (JSON_parse rt text = Throw e \/
     (Str.includes (req_pathname req) "/stream" = false /\
      JSON_parse rt (resp_body response) = Throw e)) ->
    forwarded req response
      (EvError (ErrorProcessingWebhookData e)
         :: response_reads (req_pathname req)
         ++ EvFetchUpstream call :: debug_logs req)
      []
| forwarded_notifying call text response requestBody responseBody timestamp :
    prepare req = Normal (call, Some text) ->
    upstream world call = Normal response ->
    notifies req response (Some text) = true ->
    JSON_parse rt text = Normal requestBody ->
    (if Str.includes (req_pathname req) "/stream"
     then responseBody = stream_started (clock world 0) /\
          timestamp = clock world 1
     else JSON_parse rt (resp_body response) = Normal responseBody /\
          timestamp = clock world 0) ->
    forwarded req response
      (response_reads (req_pathname req)
         ++ EvFetchUpstream call :: debug_logs req)
      [task_sendWebhook
         (webhook_payload (Str.includes (req_pathname req) "/stream")
            timestamp (userMessage_of requestBody)
            (req_pathname req) (req_method req) requestBody responseBody)].

(** The shapes a served request has: what the client receives and every
    event of the request. *)
Inductive served (req : Request) : Outcome -> Prop :=
| served_preflight :
    req_method req = "OPTIONS" ->
    served req
      {| out_response := Normal preflight_response; out_events := [] |}
| served_forwarded r evs :
    req_method req <> "OPTIONS" ->
    forwarded req r evs [] ->
    served req {| out_response := Normal (with_cors r); out_events := evs |}
| served_notified r evs payload sent :
    req_method req <> "OPTIONS" ->
    forwarded req r evs [task_sendWebhook payload] ->
    webhook_sent payload sent ->
    served req
      {| out_response := Normal (with_cors r); out_events := sent ++ evs |}.

End Runs.

Section HandlerRuns.

Variable rt : Runtime.
Variable cfg : Config.
Variable world : World.

(** The shapes a request given to the handler has: the response it
    returns and every event of the request. *)
Inductive responded (req : Request) : Outcome -> Prop :=
| responded_options :
    req_method req = "OPTIONS" ->
    responded req {| out_response := Normal no_content; out_events := [] |}
| responded_forwarded r evs :
    req_method req <> "OPTIONS" ->
    forwarded rt cfg world req r evs [] ->
    responded req {| out_response := Normal r; out_events := evs |}
| responded_notified r evs payload sent :
    req_method req <> "OPTIONS" ->
    forwarded rt cfg world req r evs [task_sendWebhook payload] ->
    webhook_sent rt cfg world payload sent ->
    responded req {| out_response := Normal r; out_events := sent ++ evs |}.

End HandlerRuns.

(* ================================================================== *)
(** ** The words of the specification *)

(** The upstream URL as the specification words it:
    [<upstream-base><original-path>?<original-query>]. *)
Definition spec_upstream_url (cfg : Config) (req : Request) : string :=
  LETTA_API_URL cfg +:+ req_pathname req +:+ req_search req.

(** The request [req] with another query string. *)
Definition with_search (search : string) (req : Request) : Request :=
  {| req_method := req_method req;
     req_origin := req_origin req;
     req_rawpath := req_rawpath req;
     req_pathname := req_pathname req;
     req_search := search;
     req_headers := req_headers req;
     req_body := req_body req |}.

(** The three conditions of the webhook, as the specification names them:
    the request is tracked, the upstream answered in the 2xx range, and a
    JSON request body was captured. *)
Definition tracked (req : Request) : Prop :=
  isMessageSendRequest (req_pathname req) (req_method req) = true.

Definition answered_2xx (rt : Runtime) (cfg : Config) (world : World)
    (req : Request) : Prop :=
  exists call bodyText response,
    prepare rt cfg req = Normal (call, bodyText) /\
    upstream world call = Normal response /\
    ok response = true.

Definition body_captured (rt : Runtime) (cfg : Config) (req : Request) : Prop :=
  exists call text,
    prepare rt cfg req = Normal (call, Some text) /\ Str.truthy text = true.

(** What the code asks for besides: a webhook URL, and an upstream
    response whose body parses as JSON unless the path contains
    ["/stream"]. *)
Definition webhook_configured (cfg : Config) : Prop :=
  exists url, env (WEBHOOK_URL cfg) = Some url.

Definition response_usable (rt : Runtime) (cfg : Config) (world : World)
    (req : Request) : Prop :=
  Str.includes (req_pathname req) "/stream" = true \/
  exists call bodyText response v,
    prepare rt cfg req = Normal (call, bodyText) /\
    upstream world call = Normal response /\
    JSON_parse rt (resp_body response) = Normal v.

(** A webhook notification is dispatched: the webhook target is called. *)
Definition dispatched (rt : Runtime) (cfg : Config) (world : World)
    (req : Request) : Prop :=
  webhook_calls (out_events (serve rt cfg world req)) <> [].

(** [request.messages[0].content], as the specification words the source of
    the prompt: [None] when a step of the path is absent. *)
Definition spec_content (requestBody : json) : option json :=
  match Js.member "messages" requestBody with
  | Some messages =>
      match Js.index0 messages with
      | Some first => Js.member "content" first
      | None => None
      end
  | None => None
  end.

(** The payloads of the calls a run of [forwardRequest] started. *)
Definition payloads (ts : list task) : list json :=
  map (fun t => match t with task_sendWebhook payload => payload end) ts.

(** Containment, as the specification words it: [sub] occurs somewhere
    in [s], whatever comes before it and after it. *)
Definition contains (s sub : string) : Prop :=
  exists before after, s = before +:+ sub +:+ after.

(** The content type a request declares: the value of its
    [content-type] header, and the empty string when it has none. *)
Definition declared_type (req : Request) : string :=
  default "" (Headers.get (req_headers req) "content-type").

(** The segments of a path: what follows each of its slashes, up to the
    next slash or to the end of the path. *)
Fixpoint segment_at (s : string) : string :=
  match s with
  | EmptyString => EmptyString
  | String c s' =>
      if Ascii.eqb c "/" then EmptyString else String c (segment_at s')
  end.

Fixpoint segments (path : string) : list string :=
  match path with
  | EmptyString => []
  | String c rest =>
      if Ascii.eqb c "/" then segment_at rest :: segments rest
      else segments rest
  end.

(** The path has a [/stream] segment, as the specification words the
    streaming case: one of its segments is [stream]. *)
Definition has_stream_segment (path : string) : bool :=
  existsb (String.eqb "stream") (segments path).

(* ================================================================== *)
(** ** Start-up

    What the module does when it is loaded: it reads its settings from
    the environment, refuses to go on without the URL of the upstream, and
    reports what it listens on once the server is up. *)

Module Number.

(** The white space and the line terminators of JavaScript that are one
    byte long: TAB, LF, VT, FF, CR and the space. *)
Definition white_space1 (a : nat) : bool :=
  ((9 <=? a) && (a <=? 13) || (a =? 32))%nat.

(** Those that are three bytes long in UTF-8: U+1680, U+2000 to U+200A,
    U+2028, U+2029, U+202F, U+205F, U+3000 and U+FEFF. *)
Definition white_space3 (a b c : nat) : bool :=
  ((a =? 225) && (b =? 154) && (c =? 128)
   || (a =? 226) && (b =? 128)
      && ((128 <=? c) && (c <=? 138) || (c =? 168) || (c =? 169) || (c =? 175))
   || (a =? 226) && (b =? 129) && (c =? 159)
   || (a =? 227) && (b =? 128) && (c =? 128)
   || (a =? 239) && (b =? 187) && (c =? 191))%nat.

(** [TrimString(s, start)]: [s] without the white space and the line
    terminators it starts with (U+00A0 is two bytes long). *)
Fixpoint trim_start (s : string) : string :=
  match s with
  | EmptyString => EmptyString
  | String a s1 =>
      let x := nat_of_ascii a in
      if white_space1 x then trim_start s1
      else if (x =? 194)%nat then
        match s1 with
        | String b s2 => if (nat_of_ascii b =? 160)%nat then trim_start s2 else s
        | EmptyString => s
        end
      else if ((x =? 225) || (x =? 226) || (x =? 227) || (x =? 239))%nat then
        match s1 with
        | String b (String c s3) =>
            if white_space3 x (nat_of_ascii b) (nat_of_ascii c)
            then trim_start s3 else s
        | _ => s
        end
      else s
  end.

(** A decimal digit. *)
Definition is_digit (a : ascii) : bool :=
  ((48 <=? nat_of_ascii a) && (nat_of_ascii a <=? 57))%nat.

Definition digit_value (a : ascii) : Z := Z.of_nat (nat_of_ascii a) - 48.

(** The integer the decimal digits at the start of [s] denote, after the
    digits that gave [acc]; what follows the digits is ignored. *)
Fixpoint digits_value (acc : Z) (s : string) : Z :=
  match s with
  | String a s' =>
      if is_digit a then digits_value (10 * acc + digit_value a) s' else acc
  | EmptyString => acc
  end.

(** Whether [s] starts with a decimal digit. *)
Definition starts_with_digit (s : string) : bool :=
  match s with
  | String a _ => is_digit a
  | EmptyString => false
  end.

(** [parseInt(input, 10)]: white space is skipped, then a sign is read,
    then the digits up to the first character that is none; without a
    digit there, the result is [NaN]. [None] stands for [NaN], and
    [Some n] for the Number of the integer [n]: [n] itself when it is a
    safe integer (below [2^53] in absolute value), the nearest double
    otherwise; the two zeros are not told apart. *)
Definition parseInt10 (input : string) : option Z :=
  let trimmed := trim_start input in
  let sign :=
    match trimmed with
    | String a _ => if Ascii.eqb a "-" then -1 else 1
    | EmptyString => 1
    end in
  let unsigned :=
    match trimmed with
    | String a rest =>
        if Ascii.eqb a "+" || Ascii.eqb a "-" then rest else trimmed
    | EmptyString => trimmed
    end in
  if starts_with_digit unsigned
  then Some (sign * digits_value 0 unsigned)
  else None.

End Number.

(** [parseInt(process.env.LETTA_PROXY_PORT || "8283", 10)], for the
    variables [process_env] of the environment ([process.env] once
    [dotenv.config()] has added those of the [.env] file). *)
Definition PORT (process_env : gmap string string) : option Z :=
  Number.parseInt10 (default "8283" (env (process_env !! "LETTA_PROXY_PORT"))).

(** The configuration block: the four settings, and the error thrown when
    [LETTA_API_URL] is not set. *)
Definition configuration (process_env : gmap string string) : completion Config :=
  match env (process_env !! "LETTA_API_URL") with
  | None => Throw "LETTA_API_URL is not set"
  | Some url =>
      Normal {| LETTA_API_URL := url;
                LETTA_API_KEY := process_env !! "LETTA_API_KEY";
                WEBHOOK_URL := process_env !! "WEBHOOK_URL";
                WEBHOOK_SECRET := process_env !! "WEBHOOK_SECRET" |}
  end.

(** What the callback of [serve] gives [console.log]. *)
Inductive startup_message : Type :=
| ProxyServerRunning (port : Z)
| ProxyingRequestsTo (url : string)
| WebhookNotificationsEnabled (url : string).

(** The callback of [serve], called with the port the server listens on:
    its messages, in the order they are logged. *)
Definition serve_callback (cfg : Config) (info_port : Z) : list startup_message :=
  [ProxyServerRunning info_port; ProxyingRequestsTo (LETTA_API_URL cfg)]
  ++ match env (WEBHOOK_URL cfg) with
     | Some url => [WebhookNotificationsEnabled url]
     | None => []
     end.

(* ================================================================== *)
(** ** A runtime and a world to run the proxy in

    The examples below run [serve] on concrete requests. They need values
    for the parameters of the model: the runtime is given by the JSON
    texts that occur in them, and the world by fixed answers. *)

Module Sample.

(** The double quote. *)
Definition q : string := String "034"%char EmptyString.

(** [{"messages":[{"content":"hi"}]}] *)
Definition hi_text : string :=
  "{" +:+ q +:+ "messages" +:+ q +:+ ":[{" +:+ q +:+ "content" +:+ q +:+ ":"
      +:+ q +:+ "hi" +:+ q +:+ "}]}".
Definition hi_value : json :=
  JObj [("messages", JArr [JObj [("content", JStr "hi")]])].

(** [{"messages":[{"content":[{"type":"text","text":"hi"}]}]}] *)
Definition parts_text : string :=
  "{" +:+ q +:+ "messages" +:+ q +:+ ":[{" +:+ q +:+ "content" +:+ q +:+ ":[{"
      +:+ q +:+ "type" +:+ q +:+ ":" +:+ q +:+ "text" +:+ q +:+ ","
      +:+ q +:+ "text" +:+ q +:+ ":" +:+ q +:+ "hi" +:+ q +:+ "}]}]}".
Definition parts_value : json :=
  JObj [("messages",
         JArr [JObj [("content",
                      JArr [JObj [("type", JStr "text"); ("text", JStr "hi")]])]])].

(** [{"messages":[{"content":null}]}] *)
Definition null_text : string :=
  "{" +:+ q +:+ "messages" +:+ q +:+ ":[{" +:+ q +:+ "content" +:+ q +:+ ":null}]}".
Definition null_value : json :=
  JObj [("messages", JArr [JObj [("content", JNull)]])].

(** [{"id":"m1"}] *)
Definition m1_text : string :=
  "{" +:+ q +:+ "id" +:+ q +:+ ":" +:+ q +:+ "m1" +:+ q +:+ "}".
Definition m1_value : json := JObj [("id", JStr "m1")].

(** The JSON texts of the examples and the values they denote. *)
Definition texts : list (string * json) :=
  [(hi_text, hi_value); (parts_text, parts_value);
   (null_text, null_value); (m1_text, m1_value)].

Fixpoint json_eqb (a b : json) : bool :=
  match a, b with
  | JNull, JNull => true
  | JBool x, JBool y => Bool.eqb x y
  | JNum x, JNum y => PrimFloat.eqb x y
  | JStr x, JStr y => String.eqb x y
  | JArr xs, JArr ys =>
      (fix go (xs ys : list json) : bool :=
         match xs, ys with
         | [], [] => true
         | x :: xs', y :: ys' => json_eqb x y && go xs' ys'
         | _, _ => false
         end) xs ys
  | JObj fs, JObj gs =>
      (fix go (fs gs : list (string * json)) : bool :=
         match fs, gs with
         | [], [] => true
         | (k, x) :: fs', (l, y) :: gs' =>
             String.eqb k l && json_eqb x y && go fs' gs'
         | _, _ => false
         end) fs gs
  | _, _ => false
  end.

(** [JSON.parse] on the texts of the examples; any other text, such as
    ["{oops"] or ["not json"], is taken not to be JSON. *)
Definition parse (s : string) : completion json :=
  match find (fun tv => String.eqb (fst tv) s) texts with
  | Some tv => Normal (snd tv)
  | None => Throw "Unexpected token"
  end.

(** [JSON.stringify] on the values of the examples. *)
Definition stringify (v : json) : string :=
  match find (fun tv => json_eqb (snd tv) v) texts with
  | Some tv => fst tv
  | None => EmptyString
  end.

(** [new URL(path, base)] for a base that is an origin and a path that
    starts with one slash and needs no encoding. *)
Definition url (path base : string) : completion string :=
  Normal (base +:+ path).

Definition runtime : Runtime :=
  {| JSON_parse := parse;
     JSON_stringify := stringify;
     new_URL := url;
     Request_formData := fun _ _ => Normal [];
     Headers_set_error := fun name value =>
       "Invalid value " +:+ value +:+ " in header " +:+ name |}.

Definition config : Config :=
  {| LETTA_API_URL := "http://letta:8283";
     LETTA_API_KEY := Some "sk-proxy";
     WEBHOOK_URL := Some "http://hooks:5005/webhook";
     WEBHOOK_SECRET := None |}.

Definition json_reply (code : Z) (text : string) : Response :=
  {| status := code;
     resp_headers := Headers.of_list [("content-type", "application/json")];
     resp_body := text |}.

(** An upstream that answers every call [200 {"id":"m1"}], a webhook
    target that answers [200], and a clock that stands still. *)
Definition world : World :=
  {| upstream := fun _ => Normal (json_reply 200 m1_text);
     webhook_target := fun _ => Normal (json_reply 200 "ok");
     clock := fun _ => "2024-01-01T00:00:00.000Z" |}.

(** The same world with a webhook target that cannot be reached. *)
Definition world_dead_webhook : World :=
  {| upstream := upstream world;
     webhook_target := fun _ => Throw "fetch failed";
     clock := clock world |}.

(** The same world with a clock that ticks between its readings. *)
Definition world_ticking : World :=
  {| upstream := upstream world;
     webhook_target := webhook_target world;
     clock := fun n => if (n =? 0)%nat then "2024-01-01T00:00:00.000Z"
                       else "2024-01-01T00:00:00.001Z" |}.

(** The same world with an upstream that answers [200] with a body that
    is not JSON. *)
Definition world_text_upstream : World :=
  {| upstream := fun _ => Normal (json_reply 200 "not json");
     webhook_target := webhook_target world;
     clock := clock world |}.

Definition request (method path search : string)
    (headers : list (string * string)) (body : string) : Request :=
  {| req_method := method;
     req_origin := "http://proxy:8283";
     req_rawpath := path;
     req_pathname := path;
     req_search := search;
     req_headers := Headers.of_list headers;
     req_body := body |}.

Definition post_json (path body : string) : Request :=
  request "POST" path "" [("content-type", "application/json")] body.

(** The same world with an upstream that cannot be reached. *)
Definition world_dead_upstream : World :=
  {| upstream := fun _ => Throw "fetch failed";
     webhook_target := webhook_target world;
     clock := clock world |}.

(** The same configuration with another key for the upstream. *)
Definition config_with_key (key : string) : Config :=
  {| LETTA_API_URL := LETTA_API_URL config;
     LETTA_API_KEY := Some key;
     WEBHOOK_URL := WEBHOOK_URL config;
     WEBHOOK_SECRET := WEBHOOK_SECRET config |}.

(** The same configuration without a key for the upstream. *)
Definition config_without_key : Config :=
  {| LETTA_API_URL := LETTA_API_URL config;
     LETTA_API_KEY := None;
     WEBHOOK_URL := WEBHOOK_URL config;
     WEBHOOK_SECRET := WEBHOOK_SECRET config |}.

(** An environment that sets the URL of the upstream and nothing else. *)
Definition process_env : gmap string string :=
  <["LETTA_API_URL" := "http://letta:8283"]> ∅.

End Sample.

(* ================================================================== *)
(** * Part II: what the model satisfies *)

(* ================================================================== *)
(** ** Strings *)

Module StrFacts.

Import Str.

(** The two equations of concatenation. *)
Lemma app_nil_l (s : string) : "" +:+ s = s.
Proof. reflexivity. Qed.

Lemma app_cons (c : ascii) (a b : string) :
  String c a +:+ b = String c (a +:+ b).
Proof. reflexivity. Qed.

Lemma app_nil_r (s : string) : s +:+ "" = s.
Proof.
  induction s as [|c s IH]; [reflexivity |].
  now rewrite app_cons, IH.
Qed.

Lemma app_assoc (a b c : string) : (a +:+ b) +:+ c = a +:+ (b +:+ c).
Proof.
  induction a as [|x a IH]; [reflexivity |].
  now rewrite !app_cons, IH.
Qed.

Lemma app_eq_nil (a b : string) : a +:+ b = "" -> a = "" /\ b = "".
Proof.
  destruct a as [|x a]; [rewrite app_nil_l; auto |].
  rewrite app_cons; discriminate.
Qed.

(** A non-empty concatenation starts in its first part, or the first part
    is empty and it is the second part. *)
Lemma app_eq_cons (a b : string) (c : ascii) (s : string) :
  a +:+ b = String c s ->
  (a = "" /\ b = String c s) \/ (exists a', a = String c a' /\ s = a' +:+ b).
Proof.
  destruct a as [|x a]; intros H.
  - left; auto.
  - right. rewrite app_cons in H. injection H as -> <-. eauto.
Qed.

Lemma starts_with_app (p s : string) :
  starts_with p s = true <-> exists r, s = p +:+ r.
Proof.
  revert s; induction p as [|c p IH]; intros s; simpl.
  - split; [intros _; exists s; reflexivity | reflexivity].
  - destruct s as [|d s].
    + split; [discriminate | intros [r Hr]; discriminate].
    + rewrite andb_true_iff, Ascii.eqb_eq, IH. split.
      * intros [-> [r ->]]. exists r. reflexivity.
      * intros [r Hr]. rewrite app_cons in Hr. injection Hr as -> ->. eauto.
Qed.

(** [includes] finds exactly the substrings. *)
Lemma includes_app (s sub : string) :
  includes s sub = true <-> exists a b, s = a +:+ sub +:+ b.
Proof.
  induction s as [|c s IH]; simpl; rewrite orb_true_iff, starts_with_app.
  - split.
    + intros [[r Hr] | H]; [| discriminate]. exists "", r. exact Hr.
    + intros (a & b & H). left. symmetry in H.
      apply app_eq_nil in H as [_ H]. exists b. now symmetry.
  - rewrite IH. split.
    + intros [[r Hr] | (a & b & ->)].
      * exists "", r. exact Hr.
      * exists (String c a), b. reflexivity.
    + intros (a & b & H). destruct a as [|x a].
      * left. exists b. exact H.
      * right. rewrite app_cons in H. injection H as -> ->. eauto.
Qed.

End StrFacts.

(** The test [s.includes(sub)] of the code decides containment. *)
Lemma contains_includes (s sub : string) :
  contains s sub <-> Str.includes s sub = true.
Proof. unfold contains. symmetry. apply StrFacts.includes_app. Qed.

(* ================================================================== *)
(** ** The matcher computes the language of a pattern *)

Module RegexFacts.

Import Regex.

#[local] Hint Constructors lang : core.

(** *** The language, constructor by constructor *)

Lemma lang_Void s : lang Void s <-> False.
Proof. split; [inversion 1 | tauto]. Qed.

Lemma lang_Eps s : lang Eps s <-> s = "".
Proof. split; [inversion 1; reflexivity | intros ->; constructor]. Qed.

Lemma lang_Chr c s : lang (Chr c) s <-> s = String c "".
Proof. split; [inversion 1; reflexivity | intros ->; constructor]. Qed.

Lemma lang_NotChr c s :
  lang (NotChr c) s <-> exists d, d <> c /\ s = String d "".
Proof.
  split.
  - inversion 1; subst; eauto.
  - intros (d & Hd & ->); now constructor.
Qed.

Lemma lang_Seq r1 r2 s :
  lang (Seq r1 r2) s <->
  exists s1 s2, s = s1 +:+ s2 /\ lang r1 s1 /\ lang r2 s2.
Proof.
  split.
  - inversion 1; subst; eauto.
  - intros (s1 & s2 & -> & H1 & H2); now constructor.
Qed.

Lemma lang_Alt r1 r2 s : lang (Alt r1 r2) s <-> lang r1 s \/ lang r2 s.
Proof.
  split.
  - inversion 1; subst; auto.
  - intros [H | H]; auto.
Qed.

Lemma lang_Opt r s : lang (Opt r) s <-> lang r s \/ s = "".
Proof. unfold Opt. now rewrite lang_Alt, lang_Eps. Qed.

Lemma lang_Lit w s : lang (Lit w) s <-> s = w.
Proof.
  revert s; induction w as [|c w IH]; intros s; simpl.
  - apply lang_Eps.
  - rewrite lang_Seq. split.
    + intros (s1 & s2 & -> & H1 & H2).
      apply lang_Chr in H1 as ->. apply IH in H2 as ->. reflexivity.
    + intros ->. exists (String c ""), w.
      repeat split; [constructor | now apply IH].
Qed.

(** A non-empty word of [r*] starts with a non-empty word of [r]. *)
Lemma lang_Star_cons r a s :
  lang (Star r) (String a s) ->
  exists s1 s2, s = s1 +:+ s2 /\ lang r (String a s1) /\ lang (Star r) s2.
Proof.
  intros H.
  remember (Star r) as r' eqn:Er. remember (String a s) as w eqn:Ew.
  revert s Ew.
  induction H as [| | | | | | |r0 s1 s2 H1 _ H2 IH2]; intros w Ew;
    try discriminate.
  injection Er as ->.
  apply StrFacts.app_eq_cons in Ew as [[-> ->] | (s1' & -> & ->)].
  - now apply IH2.
  - eauto.
Qed.

(** *** The matcher computes the language *)

Lemma nullable_lang r : nullable r = true <-> lang r "".
Proof.
  induction r as [| | c | c | r1 IH1 r2 IH2 | r1 IH1 r2 IH2 | r IH]; simpl.
  - rewrite lang_Void. split; [discriminate | tauto].
  - rewrite lang_Eps. tauto.
  - rewrite lang_Chr. split; discriminate.
  - rewrite lang_NotChr. split; [discriminate | intros (d & _ & H); discriminate].
  - rewrite andb_true_iff, IH1, IH2, lang_Seq. split.
    + intros [H1 H2]. exists "", "". auto.
    + intros (s1 & s2 & E & H1 & H2). symmetry in E.
      apply StrFacts.app_eq_nil in E as [-> ->]. auto.
  - rewrite orb_true_iff, IH1, IH2, lang_Alt. tauto.
  - split; [constructor | reflexivity].
Qed.

Lemma deriv_lang r a s : lang (deriv a r) s <-> lang r (String a s).
Proof.
  revert s.
  induction r as [| | c | c | r1 IH1 r2 IH2 | r1 IH1 r2 IH2 | r IH];
    intros s; simpl.
  - rewrite !lang_Void. tauto.
  - rewrite lang_Void, lang_Eps. split; [tauto | discriminate].
  - rewrite lang_Chr. destruct (Ascii.eqb_spec a c) as [->|Hne].
    + rewrite lang_Eps. split; [intros ->; reflexivity | now injection 1].
    + rewrite lang_Void. split; [tauto | intros H; injection H; congruence].
  - rewrite lang_NotChr. destruct (Ascii.eqb_spec a c) as [->|Hne].
    + rewrite lang_Void. split; [tauto |].
      intros (d & Hd & H); injection H; congruence.
    + rewrite lang_Eps. split.
      * intros ->. eauto.
      * intros (d & _ & H). now injection H.
  - assert (Hseq : lang (Seq (deriv a r1) r2) s ->
                   lang (Seq r1 r2) (String a s)).
    { rewrite lang_Seq. intros (s1 & s2 & -> & H1 & H2).
      apply IH1 in H1. rewrite <- StrFacts.app_cons. now constructor. }
    split.
    + destruct (nullable r1) eqn:N; [| exact Hseq].
      rewrite lang_Alt. intros [H | H]; [now apply Hseq |].
      apply IH2 in H. apply nullable_lang in N.
      rewrite <- (StrFacts.app_nil_l (String a s)). now constructor.
    + rewrite lang_Seq. intros (s1 & s2 & E & H1 & H2). symmetry in E.
      apply StrFacts.app_eq_cons in E as [[-> ->] | (s1' & -> & ->)].
      * apply nullable_lang in H1. rewrite H1.
        apply L_AltR. now apply IH2.
      * apply IH1 in H1.
        destruct (nullable r1); [apply L_AltL |]; now constructor.
  - rewrite !lang_Alt, IH1, IH2. tauto.
  - rewrite lang_Seq. split.
    + intros (s1 & s2 & -> & H1 & H2). apply IH in H1.
      rewrite <- StrFacts.app_cons. now constructor.
    + intros H. apply lang_Star_cons in H as (s1 & s2 & -> & H1 & H2).
      exists s1, s2. rewrite IH. auto.
Qed.

Lemma matches_whole_lang r s : matches_whole r s = true <-> lang r s.
Proof.
  revert r; induction s as [|a s IH]; intros r; simpl.
  - apply nullable_lang.
  - rewrite IH. apply deriv_lang.
Qed.

(** The search succeeds exactly when some suffix of the string is a word
    of the pattern. *)
Lemma test_to_end_lang r s :
  test_to_end r s = true <-> exists pre suf, s = pre +:+ suf /\ lang r suf.
Proof.
  induction s as [|a s IH]; cbn [test_to_end];
    rewrite orb_true_iff, matches_whole_lang.
  - split.
    + intros [H | H]; [| discriminate]. exists "", "". auto.
    + intros (pre & suf & E & H). symmetry in E.
      apply StrFacts.app_eq_nil in E as [_ ->]. auto.
  - rewrite IH. split.
    + intros [H | (pre & suf & -> & H)].
      * exists "", (String a s). auto.
      * exists (String a pre), suf. auto.
    + intros (pre & suf & E & H). destruct pre as [|x pre].
      * left. rewrite StrFacts.app_nil_l in E. now subst.
      * right. rewrite StrFacts.app_cons in E. injection E as -> ->. eauto.
Qed.

(** *** One or more characters other than [c] *)

Lemma lang_Star_NotChr c s :
  lang (Star (NotChr c)) s <->
  Str.all_chars (fun d => negb (Ascii.eqb d c)) s = true.
Proof.
  induction s as [|a s IH]; simpl.
  - split; [reflexivity | constructor].
  - rewrite andb_true_iff, negb_true_iff, <- IH. split.
    + intros H. apply lang_Star_cons in H as (s1 & s2 & -> & H1 & H2).
      apply lang_NotChr in H1 as (d & Hd & E). injection E as -> ->.
      split; [now apply Ascii.eqb_neq | exact H2].
    + intros [Hne H]. apply Ascii.eqb_neq in Hne.
      change (String a s) with (String a "" +:+ s). now repeat constructor.
Qed.

Lemma lang_Plus_NotChr c s :
  lang (Plus (NotChr c)) s <->
  s <> "" /\ Str.all_chars (fun d => negb (Ascii.eqb d c)) s = true.
Proof.
  unfold Plus. rewrite lang_Seq. split.
  - intros (s1 & s2 & -> & H1 & H2).
    apply lang_NotChr in H1 as (d & Hd & ->).
    split; [discriminate |].
    apply lang_Star_NotChr.
    apply L_StarS; [now constructor | exact H2].
  - intros [Hne H]. destruct s as [|a s]; [congruence |].
    apply lang_Star_NotChr, lang_Star_cons in H as (s1 & s2 & -> & H1 & H2).
    exists (String a s1), s2. split; [reflexivity |].
    apply lang_NotChr in H1 as (d & Hd & E). injection E as -> ->.
    split; [now constructor | exact H2].
Qed.

End RegexFacts.

Import RegexFacts.

(* ================================================================== *)
(** ** The classifier and the three patterns *)

(** The words of the agent and group patterns. *)
Lemma lang_messages_re (base s : string) :
  lang (Seq (Lit base)
         (Seq (Plus (NotChr "/"))
           (Seq (Lit "/messages")
             (Seq (Opt (Lit "/stream")) (Opt (Chr "/")))))) s <->
  exists id st sl,
    path_segment id /\ stream_part st /\ slash_part sl /\
    s = base +:+ id +:+ "/messages" +:+ st +:+ sl.
Proof.
  unfold path_segment, stream_part, slash_part. split.
  - intros H.
    apply lang_Seq in H as (b & s1 & -> & Hb & H).
    apply lang_Seq in H as (id & s2 & -> & Hid & H).
    apply lang_Seq in H as (m & s3 & -> & Hm & H).
    apply lang_Seq in H as (st & sl & -> & Hst & Hsl).
    apply lang_Lit in Hb as ->. apply lang_Lit in Hm as ->.
    apply lang_Plus_NotChr in Hid.
    apply lang_Opt in Hst. rewrite lang_Lit in Hst.
    apply lang_Opt in Hsl. rewrite lang_Chr in Hsl.
    exists id, st, sl. auto.
  - intros (id & st & sl & Hid & Hst & Hsl & ->).
    repeat (apply L_Seq).
    + now apply lang_Lit.
    + now apply lang_Plus_NotChr.
    + now apply lang_Lit.
    + apply lang_Opt. now rewrite lang_Lit.
    + apply lang_Opt. now rewrite lang_Chr.
Qed.

Lemma lang_batch_re (s : string) :
  lang batch_messages_re s <->
  exists sl, slash_part sl /\ s = "/v1/messages/batches" +:+ sl.
Proof.
  unfold batch_messages_re, slash_part. rewrite lang_Seq. split.
  - intros (b & sl & -> & Hb & Hsl).
    apply lang_Lit in Hb as ->. apply lang_Opt in Hsl. rewrite lang_Chr in Hsl.
    eauto.
  - intros (sl & Hsl & ->). exists "/v1/messages/batches", sl.
    repeat split; [now apply lang_Lit |].
    apply lang_Opt. now rewrite lang_Chr.
Qed.

(** A word of one of the three patterns is a path of one of the three
    shapes. *)
Lemma tracked_pattern_lang (s : string) :
  tracked_pattern s <->
  lang agent_messages_re s \/ lang group_messages_re s \/ lang batch_messages_re s.
Proof.
  unfold agent_messages_re, group_messages_re.
  rewrite !lang_messages_re, lang_batch_re. split.
  - intros [id st sl ? ? ? | id st sl ? ? ? | sl ?].
    + left. exists id, st, sl. auto.
    + right; left. exists id, st, sl. auto.
    + right; right. eauto.
  - intros [(id & st & sl & ? & ? & ? & ->)
           | [(id & st & sl & ? & ? & ? & ->) | (sl & ? & ->)]];
      now constructor.
Qed.

(** C1, as amended: for every path and method, [isMessageSendRequest]
    returns [true] if and only if the method is [POST] and the path ENDS
    in one of the three patterns ([/v1/agents/{id}/messages],
    [/v1/groups/{id}/messages], each with an optional [/stream], or
    [/v1/messages/batches], each with an optional trailing slash, [{id}]
    a non-empty segment without a slash), whatever precedes the pattern
    in the path; it returns [false] for every other input. *)
Theorem C1_tracked_iff_post_to_path_ending_in_pattern (path method : string) :
  isMessageSendRequest path method = true <->
  method = "POST" /\
  exists pre t, path = pre +:+ t /\ tracked_pattern t.
Proof.
  unfold isMessageSendRequest.
  assert (Hex : (exists pre t, path = pre +:+ t /\ tracked_pattern t) <->
                test_to_end agent_messages_re path = true \/
                test_to_end group_messages_re path = true \/
                test_to_end batch_messages_re path = true).
  { rewrite !test_to_end_lang. split.
    - intros (pre & t & -> & Ht). apply tracked_pattern_lang in Ht.
      destruct Ht as [H | [H | H]]; eauto 6.
    - intros [(pre & t & -> & H) | [(pre & t & -> & H) | (pre & t & -> & H)]];
        exists pre, t; (split; [reflexivity |]);
        apply tracked_pattern_lang; auto. }
  rewrite Hex. clear Hex.
  destruct (String.eqb_spec method "POST") as [-> | Hne].
  - rewrite !andb_true_r.
    destruct (test_to_end agent_messages_re path);
      destruct (test_to_end group_messages_re path);
      destruct (test_to_end batch_messages_re path); simpl;
      intuition discriminate.
  - rewrite !andb_false_r. split; [discriminate | tauto].
Qed.

(* ================================================================== *)
(** ** Traces *)

Lemma upstream_calls_app (a b : list event) :
  upstream_calls (a ++ b) = upstream_calls a ++ upstream_calls b.
Proof.
  induction a as [|e a IH]; [reflexivity |].
  destruct e; simpl; now rewrite IH.
Qed.

Lemma webhook_calls_app (a b : list event) :
  webhook_calls (a ++ b) = webhook_calls a ++ webhook_calls b.
Proof.
  induction a as [|e a IH]; [reflexivity |].
  destruct e; simpl; now rewrite IH.
Qed.

Lemma errors_logged_app (a b : list event) :
  errors_logged (a ++ b) = errors_logged a ++ errors_logged b.
Proof.
  induction a as [|e a IH]; [reflexivity |].
  destruct e; simpl; now rewrite IH.
Qed.

Lemma body_read_app (a b : list event) :
  body_read (a ++ b) = body_read a || body_read b.
Proof.
  induction a as [|e a IH]; [reflexivity |].
  destruct e; simpl; auto.
Qed.

(* ================================================================== *)
(** ** The blocks of the proxy, one by one *)

Section BlockFacts.

Variable rt : Runtime.
Variable cfg : Config.
Variable world : World.

(** [sendWebhook] never throws, and does one of the four. *)
Lemma sendWebhook_inv (payload : json) (st : state) :
  exists evs,
    sendWebhook rt cfg world payload st = (Normal tt, after evs st) /\
    webhook_sent rt cfg world payload evs.
Proof.
  unfold sendWebhook.
  destruct (env (WEBHOOK_URL cfg)) as [url|] eqn:Hurl.
  - unfold try_catch, bind, fetch_webhook, lift, emit, console_error, console_log.
    fold (webhook_request rt cfg url payload). cbn.
    destruct (webhook_target world (webhook_request rt cfg url payload)) as [r|e] eqn:Hw.
    + destruct (ok r) eqn:Hok; cbn.
      * exists [EvLog (WebhookSent (status r));
                EvFetchWebhook (webhook_request rt cfg url payload)].
        split; [reflexivity | now apply sent_accepted].
      * exists [EvError (WebhookFailed (status r) (resp_body r));
                EvFetchWebhook (webhook_request rt cfg url payload)].
        split; [reflexivity | now apply sent_refused].
    + exists [EvError (ErrorSendingWebhook e);
              EvFetchWebhook (webhook_request rt cfg url payload)].
      split; [reflexivity | now apply sent_unreachable].
  - exists [EvLog WebhookNotConfigured].
    split; [reflexivity | now apply sent_nowhere].
Qed.

(** The webhook block never throws and calls nobody. Either it fails,
    because the text of the request does not parse or the body of a
    response it reads does not, and then it reports to [console.error] and
    starts nothing; or it starts one [sendWebhook]. *)
Lemma forwardRequest_notify_inv (path method text : string)
    (response : Response) (st : state) :
  (exists e n,
     forwardRequest_notify rt world path method text response st =
       (Normal tt,
        {| trace := EvError (ErrorProcessingWebhookData e)
                      :: response_reads path ++ trace st;
           clock_reads := n;
           detached := detached st |}) /\
     (JSON_parse rt text = Throw e \/
      (Str.includes path "/stream" = false /\
       JSON_parse rt (resp_body response) = Throw e)))
  \/
  (exists requestBody responseBody timestamp n,
     forwardRequest_notify rt world path method text response st =
       (Normal tt,
        {| trace := response_reads path ++ trace st;
           clock_reads := n;
           detached :=
             detached st ++
             [task_sendWebhook
                (webhook_payload (Str.includes path "/stream") timestamp
                   (userMessage_of requestBody) path method
                   requestBody responseBody)] |}) /\
     JSON_parse rt text = Normal requestBody /\
     if Str.includes path "/stream"
     then responseBody = stream_started (clock world (clock_reads st)) /\
          timestamp = clock world (S (clock_reads st))
     else JSON_parse rt (resp_body response) = Normal responseBody /\
          timestamp = clock world (clock_reads st)).
Proof.
  unfold forwardRequest_notify, response_reads, try_catch, bind,
    Response_json, now, lift, emit, detach, console_error, ret.
  destruct (Str.includes path "/stream") eqn:Hstream; cbn.
  - (* a streaming request: the response is not read *)
    destruct (JSON_parse rt text) as [requestBody|e] eqn:Hreq; cbn.
    + right. eexists requestBody, _, _, _. split; [reflexivity |]. auto.
    + left. eexists e, _. split; [reflexivity |]. auto.
  - (* any other request: the response is read and parsed *)
    destruct (JSON_parse rt (resp_body response)) as [responseBody|e] eqn:Hresp;
      cbn.
    + destruct (JSON_parse rt text) as [requestBody|e] eqn:Hreq; cbn.
      * right. eexists requestBody, responseBody, _, _.
        split; [reflexivity |]. auto.
      * left. eexists e, _. split; [reflexivity |]. auto.
    + left. eexists e, _. split; [reflexivity |]. auto.
Qed.

(** The middleware, on the proxy's options. *)
Lemma cors_run (c : Context) (next : M Response) (st : state) :
  cors cors_options c next st =
  if String.eqb (c_req_method c) "OPTIONS" then (Normal preflight_response, st)
  else match next st with
       | (Normal r, st') => (Normal (with_cors r), st')
       | (Throw e, st') => (Throw e, st')
       end.
Proof.
  unfold cors, bind, ret.
  destruct (String.eqb (c_req_method c) "OPTIONS"); [reflexivity |].
  destruct (next st) as [[r|e] st']; reflexivity.
Qed.

(** [forwardRequest] never throws, and runs in one of the five ways. *)
Lemma forwardRequest_forwarded (c : Context) :
  exists r evs n ts,
    forwardRequest rt cfg world c initial_state =
      (Normal r, {| trace := evs; clock_reads := n; detached := ts |}) /\
    forwarded rt cfg world (c_req_raw c) r evs ts.
Proof.
  destruct c as [req]. cbn [c_req_raw].
  unfold forwardRequest, c_req_path, try_catch, bind, console_log,
    console_error, fetch_upstream, emit, lift, ret. cbn.
  fold (debug_logs req).
  pose proof (eq_refl (prepare rt cfg req)) as Hprep. unfold prepare at 2 in Hprep.
  destruct (new_URL rt (req_pathname req) (LETTA_API_URL cfg))
    as [targetUrl|e]; cbn.
  2: { eexists _, _, _, _. split; [reflexivity |].
       now apply forwarded_rejected. }
  destruct (forwardRequest_headers rt cfg (req_headers req)) as [headers|e]; cbn.
  2: { eexists _, _, _, _. split; [reflexivity |].
       now apply forwarded_rejected. }
  destruct (forwardRequest_body rt req headers) as [[body bodyText]|e]; cbn.
  2: { eexists _, _, _, _. split; [reflexivity |].
       now apply forwarded_rejected. }
  match type of Hprep with _ = Normal (?c, _) => set (call := c) in * end.
  destruct (upstream world call) as [response|e] eqn:Hup; cbn.
  2: { eexists _, _, _, _. split; [reflexivity |].
       now apply (forwarded_unreachable rt cfg world req call bodyText). }
  destruct bodyText as [text|]; cbn.
  2: { eexists _, _, _, _. split; [reflexivity |].
       apply (forwarded_relayed rt cfg world req call None response); auto.
       unfold notifies. now rewrite andb_false_r. }
  destruct (isMessageSendRequest (req_pathname req) (req_method req)
            && ok response && Str.truthy text) eqn:Hcond; cbn.
  2: { eexists _, _, _, _. split; [reflexivity |].
       now apply (forwarded_relayed rt cfg world req call (Some text) response). }
  match goal with
  | |- context [forwardRequest_notify rt world ?p ?m ?t ?r ?st] =>
      destruct (forwardRequest_notify_inv p m t r st)
        as [(e & n & -> & Hfail)
           | (requestBody & responseBody & timestamp & n & -> & Hreq & Hresp)]
  end; cbn.
  - eexists _, _, _, _. split; [reflexivity |].
    now apply (forwarded_unnotified rt cfg world req call text response e).
  - eexists _, _, _, _. split; [reflexivity |].
    now apply (forwarded_notifying rt cfg world req call text response requestBody
                 responseBody timestamp).
Qed.

(** Every request is served in one of the three ways. *)
Lemma serve_served (req : Request) :
  served rt cfg world req (serve rt cfg world req).
Proof.
  unfold serve, app_fetch. rewrite cors_run.
  unfold c_req_method, handler, c_req_method. cbn [c_req_raw].
  destruct (String.eqb_spec (req_method req) "OPTIONS") as [Hopt|Hopt].
  { now apply served_preflight. }
  destruct (forwardRequest_forwarded {| c_req_raw := req |})
    as (r & evs & n & ts & -> & Hfw).
  cbn [c_req_raw] in Hfw. cbn [detached].
  inversion Hfw; subst; cbn [run_detached trace];
    try (now apply served_forwarded).
  match goal with
  | |- context [run_task rt cfg world (task_sendWebhook ?p) ?st] =>
      destruct (sendWebhook_inv p st) as (sent & Hrun & Hsent)
  end.
  cbn [run_task]. rewrite Hrun. cbn.
  eapply served_notified; eauto.
Qed.

End BlockFacts.

(* ================================================================== *)
(** ** The headers of the upstream call *)

(** ** The headers of the upstream call *)

Lemma drop_if_truthy_other (name k : string) (h : gmap string string) :
  k <> name -> drop_if_truthy name h !! k = h !! k.
Proof.
  intros Hne. unfold drop_if_truthy.
  destruct (Js.truthy_opt (h !! name)); [| reflexivity].
  now apply lookup_delete_ne.
Qed.

Lemma drop_if_truthy_same (name : string) (h : gmap string string) :
  drop_if_truthy name h !! name =
  match h !! name with
  | Some "" => Some ""
  | _ => None
  end.
Proof.
  unfold drop_if_truthy.
  destruct (h !! name) as [[|c v]|] eqn:Hv; cbn.
  - exact Hv.
  - apply lookup_delete_eq.
  - exact Hv.
Qed.

Lemma drop_if_present_other (name k : string) (h : gmap string string) :
  k <> name -> drop_if_present name h !! k = h !! k.
Proof.
  intros Hne. unfold drop_if_present.
  destruct (h !! name); [| reflexivity].
  now apply lookup_delete_ne.
Qed.

Lemma drop_if_present_same (name : string) (h : gmap string string) :
  drop_if_present name h !! name = None.
Proof.
  unfold drop_if_present.
  destruct (h !! name) eqn:Hv; [apply lookup_delete_eq | exact Hv].
Qed.

Section HeaderFacts.

Variable rt : Runtime.
Variable cfg : Config.

(** The header block, step by step. *)
Lemma forwardRequest_headers_steps (h : gmap string string) :
  forwardRequest_headers rt cfg h =
  let h' :=
    drop_if_present "authorization"
      (drop_if_truthy "content-length"
         (drop_if_truthy "connection" (drop_if_truthy "host" h))) in
  match env (LETTA_API_KEY cfg) with
  | Some key =>
      let value := Headers.normalize ("Bearer " +:+ key) in
      if Headers.header_value value
      then Normal (<["authorization" := value]> h')
      else Throw (Headers_set_error rt "Authorization" ("Bearer " +:+ key))
  | None => Normal h'
  end.
Proof.
  unfold forwardRequest_headers, Headers.set. cbn zeta.
  destruct (env (LETTA_API_KEY cfg)) as [key|]; [| reflexivity].
  destruct (Headers.header_value _); reflexivity.
Qed.

(** The header block throws only for a key that no header can carry. *)
Lemma forwardRequest_headers_throws (h : gmap string string) (e : string) :
  forwardRequest_headers rt cfg h = Throw e ->
  exists key,
    env (LETTA_API_KEY cfg) = Some key /\
    Headers.header_value (Headers.normalize ("Bearer " +:+ key)) = false /\
    e = Headers_set_error rt "Authorization" ("Bearer " +:+ key).
Proof.
  rewrite forwardRequest_headers_steps. cbn zeta.
  destruct (env (LETTA_API_KEY cfg)) as [key|]; [| discriminate].
  destruct (Headers.header_value _) eqn:Hv; [discriminate |].
  intros [= <-]. now exists key.
Qed.

(** It returns headers whenever the key is one a header can carry, and
    whenever no key is set. *)
Lemma forwardRequest_headers_returns (h : gmap string string) :
  match env (LETTA_API_KEY cfg) with
  | Some key =>
      Headers.header_value (Headers.normalize ("Bearer " +:+ key)) = true
  | None => True
  end ->
  exists h', forwardRequest_headers rt cfg h = Normal h'.
Proof.
  rewrite forwardRequest_headers_steps. cbn zeta.
  destruct (env (LETTA_API_KEY cfg)) as [key|]; [| eauto].
  intros ->. eauto.
Qed.

(** A header the proxy neither removes nor sets is passed on as it came. *)
Lemma forwardRequest_headers_other (h h' : gmap string string) (name : string) :
  forwardRequest_headers rt cfg h = Normal h' ->
  name <> "host" -> name <> "connection" -> name <> "content-length" ->
  name <> "authorization" ->
  h' !! name = h !! name.
Proof.
  rewrite forwardRequest_headers_steps. cbn zeta. intros Hh H1 H2 H3 H4.
  assert (Hdrops :
    drop_if_present "authorization"
      (drop_if_truthy "content-length"
         (drop_if_truthy "connection" (drop_if_truthy "host" h))) !! name
    = h !! name).
  { rewrite drop_if_present_other, !drop_if_truthy_other by assumption.
    reflexivity. }
  destruct (env (LETTA_API_KEY cfg)) as [key|].
  - destruct (Headers.header_value _); [| discriminate].
    injection Hh as <-. rewrite lookup_insert_ne by congruence. exact Hdrops.
  - injection Hh as <-. exact Hdrops.
Qed.

(** No [Authorization] of the caller is passed on: the header is the
    proxy's key when one is configured, and absent otherwise. *)
Lemma forwardRequest_headers_authorization (h h' : gmap string string) :
  forwardRequest_headers rt cfg h = Normal h' ->
  Headers.get h' "Authorization" =
  match env (LETTA_API_KEY cfg) with
  | Some key => Some (Headers.normalize ("Bearer " +:+ key))
  | None => None
  end.
Proof.
  unfold Headers.get. change (Headers.lower "Authorization") with "authorization".
  rewrite forwardRequest_headers_steps. cbn zeta.
  destruct (env (LETTA_API_KEY cfg)) as [key|].
  - destruct (Headers.header_value _); [| discriminate].
    intros [= <-]. apply lookup_insert_eq.
  - intros [= <-]. apply drop_if_present_same.
Qed.

(** [host], [connection] and [content-length] are removed when their
    value is not empty; a header of one of these names whose value is the
    empty string stays. *)
Lemma forwardRequest_headers_framing (h h' : gmap string string) (name : string) :
  forwardRequest_headers rt cfg h = Normal h' ->
  name = "host" \/ name = "connection" \/ name = "content-length" ->
  h' !! name =
  match h !! name with
  | Some "" => Some ""
  | _ => None
  end.
Proof.
  rewrite forwardRequest_headers_steps. cbn zeta. intros Hh Hname.
  assert (Hdrops :
    drop_if_present "authorization"
      (drop_if_truthy "content-length"
         (drop_if_truthy "connection" (drop_if_truthy "host" h))) !! name
    = match h !! name with Some "" => Some "" | _ => None end).
  { destruct Hname as [-> | [-> | ->]].
    - rewrite drop_if_present_other, !drop_if_truthy_other by discriminate.
      apply drop_if_truthy_same.
    - rewrite drop_if_present_other, drop_if_truthy_other by discriminate.
      rewrite drop_if_truthy_same.
      now rewrite drop_if_truthy_other by discriminate.
    - rewrite drop_if_present_other by discriminate.
      rewrite drop_if_truthy_same.
      now rewrite !drop_if_truthy_other by discriminate. }
  destruct (env (LETTA_API_KEY cfg)) as [key|].
  - destruct (Headers.header_value _); [| discriminate].
    injection Hh as <-. rewrite lookup_insert_ne; [exact Hdrops |].
    destruct Hname as [-> | [-> | ->]]; discriminate.
  - injection Hh as <-. exact Hdrops.
Qed.

(** The content type the body block reads is the one the caller sent. *)
Lemma forwardRequest_headers_content_type (h h' : gmap string string) :
  forwardRequest_headers rt cfg h = Normal h' ->
  Headers.get h' "content-type" = Headers.get h "content-type".
Proof.
  intros Hh. unfold Headers.get.
  change (Headers.lower "content-type") with "content-type".
  apply (forwardRequest_headers_other h h'); [exact Hh | discriminate ..].
Qed.

End HeaderFacts.

(* ================================================================== *)
(** ** What the events of a run contain *)

Section RunFacts.

Variable rt : Runtime.
Variable cfg : Config.
Variable world : World.

Lemma response_reads_upstream (path : string) :
  upstream_calls (response_reads path) = [].
Proof. unfold response_reads. now destruct (Str.includes path "/stream"). Qed.

Lemma response_reads_webhook (path : string) :
  webhook_calls (response_reads path) = [].
Proof. unfold response_reads. now destruct (Str.includes path "/stream"). Qed.

Lemma response_reads_body_read (path : string) :
  body_read (response_reads path) = negb (Str.includes path "/stream").
Proof. unfold response_reads. now destruct (Str.includes path "/stream"). Qed.

(** [sendWebhook] calls the webhook target and nobody else, and does not
    touch the upstream response. *)
Lemma webhook_sent_upstream (payload : json) (evs : list event) :
  webhook_sent rt cfg world payload evs ->
  upstream_calls evs = [] /\ body_read evs = false.
Proof. intros H; destruct H; auto. Qed.

(** It makes one call when a webhook URL is configured, and none
    otherwise. *)
Lemma webhook_sent_calls (payload : json) (evs : list event) :
  webhook_sent rt cfg world payload evs ->
  webhook_calls evs =
  match env (WEBHOOK_URL cfg) with
  | Some url => [webhook_request rt cfg url payload]
  | None => []
  end.
Proof. intros H; destruct H as [-> | ? ? -> | ? ? -> | ? ? ->]; reflexivity. Qed.

(** [forwardRequest] itself calls the upstream and nobody else. *)
Lemma forwarded_webhook_calls (req : Request) (r : Response)
    (evs : list event) (ts : list task) :
  forwarded rt cfg world req r evs ts -> webhook_calls evs = [].
Proof.
  intros H; destruct H; cbn; try reflexivity;
    rewrite webhook_calls_app, response_reads_webhook; reflexivity.
Qed.

(** It calls the upstream once when the call could be prepared, and not
    at all otherwise. *)
Lemma forwarded_upstream_calls (req : Request) (r : Response)
    (evs : list event) (ts : list task) :
  forwarded rt cfg world req r evs ts ->
  upstream_calls evs =
  match prepare rt cfg req with
  | Normal (call, _) => [call]
  | Throw _ => []
  end.
Proof.
  intros H; destruct H as [e -> | call bt e -> _ | call bt response -> _ _
                          | call text response e -> _ _ _
                          | call text response requestBody responseBody ts ->];
    cbn; try reflexivity;
    rewrite upstream_calls_app, response_reads_upstream; reflexivity.
Qed.

(** It reads the body of the upstream response only in its webhook
    block, and there only when the path does not contain ["/stream"]. *)
Lemma forwarded_body_read (req : Request) (r : Response)
    (evs : list event) (ts : list task) :
  forwarded rt cfg world req r evs ts ->
  Str.includes (req_pathname req) "/stream" = true ->
  body_read evs = false.
Proof.
  intros H Hstream; destruct H; cbn; try reflexivity;
    rewrite body_read_app, response_reads_body_read, Hstream; reflexivity.
Qed.

(** What the body block kept is the text of a JSON request that parsed. *)
Lemma forwardRequest_body_kept (req : Request) (h : gmap string string)
    (body : BodyInit) (text : string) :
  forwardRequest_body rt req h = Normal (body, Some text) ->
  text = req_body req /\
  req_method req <> "GET" /\ req_method req <> "HEAD" /\
  Str.includes (default "" (Headers.get h "content-type")) "application/json"
    = true /\
  exists v, JSON_parse rt (req_body req) = Normal v /\
            body = body_text (JSON_stringify rt v).
Proof.
  unfold forwardRequest_body.
  destruct (String.eqb_spec (req_method req) "GET") as [|Hget];
    [discriminate |].
  destruct (String.eqb_spec (req_method req) "HEAD") as [|Hhead];
    [discriminate |].
  cbn.
  destruct (Str.includes _ "application/json") eqn:Hjson.
  - destruct (JSON_parse rt (req_body req)) as [v|e] eqn:Hparse;
      [| discriminate].
    intros H; injection H as <- <-. eauto 10.
  - destruct (Str.includes _ "multipart/form-data");
      [destruct (Request_formData rt h (req_body req)) |]; discriminate.
Qed.

(** A call that was prepared: its URL, its headers and its body are what
    the three blocks before [fetch] returned, none of which threw. *)
Lemma prepare_inv (req : Request) (call : FetchCall) (bodyText : option string) :
  prepare rt cfg req = Normal (call, bodyText) ->
  new_URL rt (req_pathname req) (LETTA_API_URL cfg) = Normal (call_url call) /\
  forwardRequest_headers rt cfg (req_headers req) = Normal (call_headers call) /\
  forwardRequest_body rt req (call_headers call)
    = Normal (call_body call, bodyText) /\
  call_method call = req_method req.
Proof.
  unfold prepare.
  destruct (new_URL rt (req_pathname req) (LETTA_API_URL cfg)) as [t|e];
    [| discriminate].
  destruct (forwardRequest_headers rt cfg (req_headers req)) as [h|e];
    [| discriminate].
  destruct (forwardRequest_body rt req h) as [[body bt]|e] eqn:Hbody;
    [| discriminate].
  intros H; injection H as <- <-. cbn. auto.
Qed.

(** The URL of the call that was prepared is what [new URL] made of the
    path of the request and the upstream base URL. *)
Lemma prepare_url (req : Request) (call : FetchCall) (bodyText : option string) :
  prepare rt cfg req = Normal (call, bodyText) ->
  new_URL rt (req_pathname req) (LETTA_API_URL cfg) = Normal (call_url call).
Proof. intros H. now apply prepare_inv in H. Qed.

(** The calls a served request makes to the upstream: none for [OPTIONS],
    else the one call that could be prepared. *)
Lemma serve_upstream_calls (req : Request) :
  upstream_calls (out_events (serve rt cfg world req)) =
  if String.eqb (req_method req) "OPTIONS" then []
  else match prepare rt cfg req with
       | Normal (call, _) => [call]
       | Throw _ => []
       end.
Proof.
  pose proof (serve_served rt cfg world req) as H.
  remember (serve rt cfg world req) as o eqn:Eo. clear Eo.
  destruct H as [Hopt | r evs Hopt Hfw | r evs payload sent Hopt Hfw Hsent];
    cbn [out_events].
  - rewrite Hopt. reflexivity.
  - apply String.eqb_neq in Hopt. rewrite Hopt.
    now apply forwarded_upstream_calls in Hfw.
  - apply String.eqb_neq in Hopt. rewrite Hopt.
    apply forwarded_upstream_calls in Hfw.
    apply webhook_sent_upstream in Hsent as [Hsent _].
    now rewrite upstream_calls_app, Hsent.
Qed.

End RunFacts.

(* ================================================================== *)
(** ** The claims of the specification *)

(** C1, as stated, fails: a [POST] to a path that only ends in a pattern
    is tracked although the path is not of one of the three shapes. *)
Lemma C1_prefixed_path_is_tracked :
  isMessageSendRequest "/proxy/v1/agents/a1/messages" "POST" = true /\
  ~ tracked_pattern "/proxy/v1/agents/a1/messages".
Proof.
  split; [reflexivity |].
  intros H. remember "/proxy/v1/agents/a1/messages" as p eqn:Ep.
  destruct H; rewrite !StrFacts.app_cons in Ep; discriminate Ep.
Qed.

(** C2, as stated, fails: [GET /v1/agents?limit=5] is forwarded to
    [/v1/agents] of the upstream, without its query string. *)
Lemma C2_query_string_is_dropped :
  map call_url
    (upstream_calls
       (out_events
          (serve Sample.runtime Sample.config Sample.world
             (Sample.request "GET" "/v1/agents" "?limit=5" [] ""))))
  = ["http://letta:8283/v1/agents"] /\
  spec_upstream_url Sample.config
    (Sample.request "GET" "/v1/agents" "?limit=5" [] "")
  = "http://letta:8283/v1/agents?limit=5".
Proof. split; vm_compute; reflexivity. Qed.

(** C2, as amended: for every inbound request, the URL of every call to
    the upstream is [new URL(path, base)] for the path of the request
    (as [c.req.path] gives it, without the query string) and the
    configured upstream base URL; the query string of the request is not
    forwarded: the same request with any other query string is sent to
    the same URL. *)
Theorem C2_upstream_url_is_base_and_path_without_query
    (rt : Runtime) (cfg : Config) (world : World) (req : Request) :
  Forall
    (fun call =>
       new_URL rt (req_pathname req) (LETTA_API_URL cfg)
       = Normal (call_url call))
    (upstream_calls (out_events (serve rt cfg world req))) /\
  forall search,
    upstream_calls (out_events (serve rt cfg world (with_search search req)))
    = upstream_calls (out_events (serve rt cfg world req)).
Proof.
  split.
  - rewrite serve_upstream_calls.
    destruct (String.eqb (req_method req) "OPTIONS"); [constructor |].
    destruct (prepare rt cfg req) as [[call bt]|e] eqn:Hprep; [| constructor].
    constructor; [| constructor]. now apply prepare_url in Hprep.
  - intros search. rewrite !serve_upstream_calls. reflexivity.
Qed.

(** C3: the code does not do what the claim says. A request whose
    [connection] header has the empty string as its value reaches the
    upstream with that header: [req.headers.get("connection")] is then
    falsy and the header is not deleted. *)
Theorem C3_empty_connection_header_is_forwarded :
  map (fun call => Headers.get (call_headers call) "connection")
    (upstream_calls
       (out_events
          (serve Sample.runtime Sample.config Sample.world
             (Sample.request "POST" "/v1/agents/a1/messages" ""
                [("connection", ""); ("content-type", "application/json")]
                Sample.hi_text))))
  = [Some ""].
Proof. vm_compute. reflexivity. Qed.

(** The text that was kept is the body of the request, and it parses. *)
Lemma prepare_kept (rt : Runtime) (cfg : Config) (req : Request)
    (call : FetchCall) (text : string) :
  prepare rt cfg req = Normal (call, Some text) ->
  text = req_body req /\
  req_method req <> "GET" /\ req_method req <> "HEAD" /\
  Str.includes (default "" (Headers.get (req_headers req) "content-type"))
    "application/json" = true /\
  exists v, JSON_parse rt (req_body req) = Normal v /\
            call_body call = body_text (JSON_stringify rt v).
Proof.
  intros H. apply prepare_inv in H as (_ & Hh & Hbody & _).
  apply forwardRequest_body_kept in Hbody.
  now rewrite (forwardRequest_headers_content_type rt cfg _ _ Hh) in Hbody.
Qed.

(** C4, as stated, fails: a tracked request with a captured JSON body,
    answered [200] by the upstream with a body that is not JSON, triggers
    no call to the webhook target (a webhook URL is configured). *)
Lemma C4_no_webhook_for_unparsable_response :
  let req := Sample.post_json "/v1/agents/a1/messages" Sample.hi_text in
  (tracked req /\
   answered_2xx Sample.runtime Sample.config Sample.world_text_upstream req /\
   body_captured Sample.runtime Sample.config req) /\
  webhook_calls
    (out_events
       (serve Sample.runtime Sample.config Sample.world_text_upstream req))
  = [].
Proof.
  cbv zeta. split; [split; [| split] |].
  - reflexivity.
  - eexists _, _, _. split; [vm_compute; reflexivity |].
    split; reflexivity.
  - eexists _, _. split; [vm_compute; reflexivity | reflexivity].
  - vm_compute. reflexivity.
Qed.

(** C4, as amended: a webhook notification is dispatched if and only if
    the request was classified as tracked, the upstream response status is
    in the 2xx range, a JSON request body was captured, a webhook URL is
    configured and, unless the path contains ["/stream"], the body of the
    upstream response parses as JSON. In particular, for a tracked request
    answered upstream with a non-2xx status, no webhook call is made. *)
Theorem C4_webhook_dispatched_iff
    (rt : Runtime) (cfg : Config) (world : World) (req : Request) :
  dispatched rt cfg world req <->
  req_method req <> "OPTIONS" /\
  tracked req /\
  answered_2xx rt cfg world req /\
  body_captured rt cfg req /\
  webhook_configured cfg /\
  response_usable rt cfg world req.
Proof.
  unfold dispatched, tracked, answered_2xx, body_captured, webhook_configured,
    response_usable.
  pose proof (serve_served rt cfg world req) as H.
  remember (serve rt cfg world req) as o eqn:Eo. clear Eo.
  destruct H as [Hopt | r evs Hopt Hfw | r evs payload sent Hopt Hfw Hsent];
    cbn [out_events].
  - (* OPTIONS: nothing is called *)
    split; [intros H; now contradiction H | intros [H _]; congruence].
  - (* forwardRequest started no sendWebhook *)
    rewrite (forwarded_webhook_calls _ _ _ _ _ _ _ Hfw).
    split; [intros H; now contradiction H |].
    intros (_ & Htracked & (call & bt & response & Hprep & Hup & Hok)
              & (call' & text & Hprep' & Htext) & _ & Huse).
    exfalso.
    rewrite Hprep in Hprep'. injection Hprep' as <- ->.
    inversion Hfw as [e He | c b e Hp Hu | c b resp Hp Hu Hn
                     | c t resp e Hp Hu Hn Hfail | ]; subst.
    + congruence.
    + rewrite Hprep in Hp. injection Hp as <- <-. congruence.
    + rewrite Hprep in Hp. injection Hp as <- <-.
      rewrite Hup in Hu. injection Hu as <-.
      unfold notifies in Hn. cbn in Hn.
      rewrite Htracked, Hok, Htext in Hn. discriminate.
    + rewrite Hprep in Hp. injection Hp as <- <-.
      rewrite Hup in Hu. injection Hu as <-.
      destruct Hfail as [Hreq | [Hstream Hresp]].
      * apply prepare_kept in Hprep as (-> & _ & _ & _ & v & Hv & _).
        congruence.
      * destruct Huse as [Hs | (c' & b' & resp' & v & Hp' & Hu' & Hv)];
          [congruence |].
        rewrite Hprep in Hp'. injection Hp' as <- <-.
        rewrite Hup in Hu'. injection Hu' as <-. congruence.
  - (* forwardRequest started one sendWebhook *)
    rewrite webhook_calls_app, (forwarded_webhook_calls _ _ _ _ _ _ _ Hfw),
      app_nil_r, (webhook_sent_calls _ _ _ _ _ Hsent).
    inversion Hfw as [ | | | | call text response requestBody responseBody ts
                               Hprep Hup Hn Hreq Hresp]; subst.
    unfold notifies in Hn. cbn in Hn.
    apply andb_prop in Hn as [Hn Htext]. apply andb_prop in Hn as [Htr Hok].
    split.
    + intros Hcalls. split; [exact Hopt |]. split; [exact Htr |].
      split; [eauto 10 |]. split; [eauto |].
      split.
      * destruct (env (WEBHOOK_URL cfg)) as [url|]; [eauto | congruence].
      * destruct (Str.includes (req_pathname req) "/stream");
          [now left | destruct Hresp as [Hresp _]; right; eauto 10].
    + intros (_ & _ & _ & _ & (url & ->) & _). discriminate.
Qed.

(** What the client receives, in terms of [forwardRequest]. *)
Lemma serve_response (rt : Runtime) (cfg : Config) (world : World)
    (req : Request) :
  out_response (serve rt cfg world req) =
  if String.eqb (req_method req) "OPTIONS" then Normal preflight_response
  else match fst (forwardRequest rt cfg world {| c_req_raw := req |}
                    initial_state) with
       | Normal r => Normal (with_cors r)
       | Throw e => Throw e
       end.
Proof.
  unfold serve, app_fetch. rewrite cors_run.
  unfold c_req_method, handler, c_req_method. cbn [c_req_raw].
  destruct (String.eqb (req_method req) "OPTIONS"); [reflexivity |].
  destruct (forwardRequest rt cfg world _ initial_state) as [[r|e] st];
    reflexivity.
Qed.

(** A body that is declared JSON and does not parse stops
    [forwardRequest] before it has a call to make. *)
Lemma prepare_malformed (rt : Runtime) (cfg : Config) (req : Request)
    (message : string) :
  req_method req <> "GET" -> req_method req <> "HEAD" ->
  Str.includes (default "" (Headers.get (req_headers req) "content-type"))
    "application/json" = true ->
  JSON_parse rt (req_body req) = Throw message ->
  exists e,
    prepare rt cfg req = Throw e /\
    forall url headers,
      new_URL rt (req_pathname req) (LETTA_API_URL cfg) = Normal url ->
      forwardRequest_headers rt cfg (req_headers req) = Normal headers ->
      e = message.
Proof.
  intros Hget Hhead Hct Hparse. unfold prepare.
  destruct (new_URL rt (req_pathname req) (LETTA_API_URL cfg)) as [url|e].
  2: { exists e. split; [reflexivity | discriminate]. }
  destruct (forwardRequest_headers rt cfg (req_headers req)) as [h|e] eqn:Hh.
  2: { exists e. split; [reflexivity | discriminate]. }
  unfold forwardRequest_body.
  apply String.eqb_neq in Hget, Hhead.
  rewrite Hget, Hhead, (forwardRequest_headers_content_type rt cfg _ _ Hh),
    Hct, Hparse. cbn. eauto.
Qed.

(** C5, as stated, fails: an [OPTIONS] request is neither [GET] nor
    [HEAD]; declared as JSON with a body that does not parse, it is
    answered [204], by the middleware and by the handler alike. *)
Lemma C5_options_with_malformed_body_is_answered_204 :
  let req :=
    Sample.request "OPTIONS" "/v1/agents/a1/messages" ""
      [("content-type", "application/json")] "{oops" in
  (req_method req <> "GET" /\ req_method req <> "HEAD" /\
   contains (declared_type req) "application/json" /\
   JSON_parse Sample.runtime (req_body req) = Throw "Unexpected token") /\
  status_received (serve Sample.runtime Sample.config Sample.world req)
  = Some 204 /\
  status_received (respond Sample.runtime Sample.config Sample.world req)
  = Some 204.
Proof.
  cbv zeta. split; [| split; vm_compute; reflexivity].
  split; [discriminate |]. split; [discriminate |].
  split; [exists "", ""; reflexivity | reflexivity].
Qed.

(** C5, as amended: for every request other than [GET], [HEAD] and
    [OPTIONS] whose declared content type contains [application/json]
    and whose body does not parse as JSON, the client receives status
    [500] with the JSON envelope [{ error, details }], and no call is
    issued, to the upstream or to the webhook target; the failure is
    reported to [console.error]. The details are the message of the
    parser whenever the upstream URL and the headers of the call could be
    built, which come first. *)
Theorem C5_malformed_json_body_is_rejected
    (rt : Runtime) (cfg : Config) (world : World) (req : Request)
    (message : string) :
  req_method req <> "GET" -> req_method req <> "HEAD" ->
  req_method req <> "OPTIONS" ->
  contains (declared_type req) "application/json" ->
  JSON_parse rt (req_body req) = Throw message ->
  exists details r,
    out_response (serve rt cfg world req) = Normal r /\
    status r = 500 /\
    resp_body r =
      JSON_stringify rt
        (JObj [("error", JStr "Proxy error"); ("details", JStr details)]) /\
    Headers.get (resp_headers r) "content-type" = Some "application/json" /\
    upstream_calls (out_events (serve rt cfg world req)) = [] /\
    webhook_calls (out_events (serve rt cfg world req)) = [] /\
    errors_logged (out_events (serve rt cfg world req))
      = [ProxyRequestError details] /\
    (forall url headers,
       new_URL rt (req_pathname req) (LETTA_API_URL cfg) = Normal url ->
       forwardRequest_headers rt cfg (req_headers req) = Normal headers ->
       details = message).
Proof.
  intros Hget Hhead Hopt Hct Hparse.
  apply contains_includes in Hct.
  destruct (prepare_malformed rt cfg req message Hget Hhead Hct Hparse)
    as (e & Hprep & Hdetails).
  pose proof (serve_served rt cfg world req) as H.
  remember (serve rt cfg world req) as o eqn:Eo. clear Eo.
  destruct H as [Hopt' | r evs _ Hfw | r evs payload sent _ Hfw Hsent];
    [congruence | |].
  - inversion Hfw as [e' He' | c b e' Hp | c b resp Hp | c t resp e' Hp | ];
      subst; try congruence.
    assert (e' = e) as -> by congruence.
    exists e, (with_cors (proxy_error rt e)). cbn [out_response out_events].
    split; [reflexivity |]. split; [reflexivity |]. split; [reflexivity |].
    split; [reflexivity |]. split; [reflexivity |]. split; [reflexivity |].
    split; [reflexivity | exact Hdetails].
  - inversion Hfw; subst; congruence.
Qed.

(** C5 applies to a [POST] of the text ["{oops"] declared as JSON. *)
Lemma C5_malformed_json_body_witness :
  JSON_parse Sample.runtime "{oops" = Throw "Unexpected token" /\
  exists details r,
    out_response
      (serve Sample.runtime Sample.config Sample.world
         (Sample.post_json "/v1/agents/a1/messages" "{oops"))
    = Normal r /\
    status r = 500 /\
    resp_body r =
      JSON_stringify Sample.runtime
        (JObj [("error", JStr "Proxy error"); ("details", JStr details)]) /\
    details = "Unexpected token" /\
    upstream_calls
      (out_events
         (serve Sample.runtime Sample.config Sample.world
            (Sample.post_json "/v1/agents/a1/messages" "{oops")))
    = [].
Proof.
  split; [reflexivity |].
  destruct (C5_malformed_json_body_is_rejected
              Sample.runtime Sample.config Sample.world
              (Sample.post_json "/v1/agents/a1/messages" "{oops")
              "Unexpected token")
    as (details & r & Hrun & Hstatus & Hbody & _ & Hcalls & _ & _ & Hdetails).
  - discriminate.
  - discriminate.
  - discriminate.
  - exists "", "". reflexivity.
  - reflexivity.
  - exists details, r.
    split; [exact Hrun |]. split; [exact Hstatus |]. split; [exact Hbody |].
    split; [| exact Hcalls].
    eapply Hdetails; vm_compute; reflexivity.
Defined.

(** The webhook calls of a served request, and the payload they carry. *)
Lemma serve_webhook_call (rt : Runtime) (cfg : Config) (world : World)
    (req : Request) (call : FetchCall) :
  In call (webhook_calls (out_events (serve rt cfg world req))) ->
  exists r evs payload sent url,
    req_method req <> "OPTIONS" /\
    forwarded rt cfg world req r evs [task_sendWebhook payload] /\
    webhook_sent rt cfg world payload sent /\
    out_events (serve rt cfg world req) = sent ++ evs /\
    env (WEBHOOK_URL cfg) = Some url /\
    call = webhook_request rt cfg url payload.
Proof.
  pose proof (serve_served rt cfg world req) as H.
  remember (serve rt cfg world req) as o eqn:Eo. clear Eo.
  destruct H as [Hopt | r evs Hopt Hfw | r evs payload sent Hopt Hfw Hsent];
    cbn [out_events].
  - intros [].
  - rewrite (forwarded_webhook_calls _ _ _ _ _ _ _ Hfw). intros [].
  - rewrite webhook_calls_app, (forwarded_webhook_calls _ _ _ _ _ _ _ Hfw),
      app_nil_r, (webhook_sent_calls _ _ _ _ _ Hsent).
    destruct (env (WEBHOOK_URL cfg)) as [url|]; [| intros []].
    intros [<- | []]. exists r, evs, payload, sent, url. auto 10.
Qed.

(** A segment of a path stands in it after a slash. *)
Lemma segment_at_prefix (s : string) :
  exists rest, s = segment_at s +:+ rest.
Proof.
  induction s as [|c s [rest IH]]; cbn [segment_at].
  - exists "". reflexivity.
  - destruct (Ascii.eqb c "/").
    + exists (String c s). reflexivity.
    + exists rest. rewrite StrFacts.app_cons. now rewrite <- IH.
Qed.

Lemma segments_contains (path seg : string) :
  In seg (segments path) -> contains path ("/" +:+ seg).
Proof.
  unfold contains.
  induction path as [|c path IH]; cbn [segments]; [intros [] |].
  destruct (Ascii.eqb_spec c "/") as [-> | Hc].
  - intros [<- | Hin].
    + destruct (segment_at_prefix path) as [rest Hrest].
      exists "", rest.
      rewrite StrFacts.app_nil_l, !StrFacts.app_cons, StrFacts.app_nil_l.
      now rewrite <- Hrest.
    + destruct (IH Hin) as (before & rest & ->).
      exists (String "/" before), rest. now rewrite StrFacts.app_cons.
  - intros Hin. destruct (IH Hin) as (before & rest & ->).
    exists (String c before), rest. now rewrite StrFacts.app_cons.
Qed.

(** A path with a [/stream] segment contains ["/stream"]. *)
Lemma has_stream_segment_contains (path : string) :
  has_stream_segment path = true -> contains path "/stream".
Proof.
  unfold has_stream_segment. intros H.
  apply existsb_exists in H as (seg & Hin & Heq).
  apply String.eqb_eq in Heq. subst seg.
  now apply segments_contains in Hin.
Qed.

(** C6, as stated, fails: [POST /v1/agents/streamer/messages] is a plain
    message request, none of whose segments is [stream], and it is
    reported to the webhook as a streaming request: the body of the
    upstream response is not read. *)
Lemma C6_stream_within_an_identifier_is_streaming :
  let req := Sample.post_json "/v1/agents/streamer/messages" Sample.hi_text in
  has_stream_segment (req_pathname req) = false /\
  segments (req_pathname req) = ["v1"; "agents"; "streamer"; "messages"] /\
  map (Js.member "type")
    (payloads
       (detached
          (snd (forwardRequest Sample.runtime Sample.config Sample.world
                  {| c_req_raw := req |} initial_state))))
  = [Some (JStr "stream_started")] /\
  length
    (webhook_calls
       (out_events (serve Sample.runtime Sample.config Sample.world req)))
  = 1%nat /\
  body_read (out_events (serve Sample.runtime Sample.config Sample.world req))
  = false.
Proof. cbv zeta. repeat split; vm_compute; reflexivity. Qed.

(** C6, as amended: for every request that triggers a webhook call, the
    request is tracked and it is streaming exactly when its path contains
    the text ["/stream"] anywhere, which every path with a [/stream]
    segment does. In the streaming case the [type] of the payload is
    ["stream_started"], its [response] field is exactly
    [{ type: "stream_started", timestamp }] for the time read first, and
    the body of the upstream response is never read; otherwise the [type]
    is ["message_sent"] and the [response] field is the body of the
    upstream response, parsed as JSON. *)
Theorem C6_webhook_payload_by_stream
    (rt : Runtime) (cfg : Config) (world : World) (req : Request)
    (call : FetchCall) :
  In call (webhook_calls (out_events (serve rt cfg world req))) ->
  tracked req /\
  (has_stream_segment (req_pathname req) = true ->
   contains (req_pathname req) "/stream") /\
  exists payload,
    call_body call = body_text (JSON_stringify rt payload) /\
    ((contains (req_pathname req) "/stream" /\
      Js.member "type" payload = Some (JStr "stream_started") /\
      Js.member "response" payload =
        Some (JObj [("type", JStr "stream_started");
                    ("timestamp", JStr (clock world 0))]) /\
      body_read (out_events (serve rt cfg world req)) = false)
     \/
     (~ contains (req_pathname req) "/stream" /\
      Js.member "type" payload = Some (JStr "message_sent") /\
      exists upcall response v,
        upstream_calls (out_events (serve rt cfg world req)) = [upcall] /\
        upstream world upcall = Normal response /\
        JSON_parse rt (resp_body response) = Normal v /\
        Js.member "response" payload = Some v)).
Proof.
  intros Hin.
  destruct (serve_webhook_call rt cfg world req call Hin)
    as (r & evs & payload & sent & url & Hopt & Hfw & Hsent & Hev & Hurl & ->).
  rewrite Hev.
  pose proof (forwarded_upstream_calls _ _ _ _ _ _ _ Hfw) as Hcalls.
  pose proof (forwarded_body_read _ _ _ _ _ _ _ Hfw) as Hread.
  destruct (webhook_sent_upstream _ _ _ _ _ Hsent) as [Hsent_up Hsent_read].
  inversion Hfw as [ | | | | upcall text response requestBody responseBody ts
                             Hprep Hup Hn Hreq Hresp]; subst.
  unfold notifies in Hn. cbn in Hn.
  apply andb_prop in Hn as [Hn _]. apply andb_prop in Hn as [Htr _].
  split; [exact Htr |].
  split; [apply has_stream_segment_contains |].
  eexists. split; [reflexivity |].
  destruct (Str.includes (req_pathname req) "/stream") eqn:Hstream.
  - destruct Hresp as [-> ->]. left.
    split; [now apply contains_includes |].
    split; [reflexivity |]. split; [reflexivity |].
    rewrite body_read_app, Hsent_read. now apply Hread.
  - destruct Hresp as [Hresp ->]. right.
    split; [intros Hc; apply contains_includes in Hc; congruence |].
    split; [reflexivity |].
    rewrite upstream_calls_app, Hsent_up, Hcalls, Hprep. cbn. eauto 10.
Qed.

(** C6 applies to the streaming scenario of the specification:
    [POST /v1/groups/g1/messages/stream] with a JSON body, answered
    [200], at a clock that ticks between its readings. *)
Lemma C6_webhook_payload_by_stream_witness :
  length
    (webhook_calls
       (out_events
          (serve Sample.runtime Sample.config Sample.world_ticking
             (Sample.post_json "/v1/groups/g1/messages/stream" Sample.hi_text))))
  = 1%nat /\
  tracked (Sample.post_json "/v1/groups/g1/messages/stream" Sample.hi_text) /\
  exists payload,
    Js.member "type" payload = Some (JStr "stream_started") /\
    Js.member "response" payload =
      Some (JObj [("type", JStr "stream_started");
                  ("timestamp", JStr "2024-01-01T00:00:00.000Z")]) /\
    body_read
      (out_events
         (serve Sample.runtime Sample.config Sample.world_ticking
            (Sample.post_json "/v1/groups/g1/messages/stream" Sample.hi_text)))
    = false.
Proof.
  split; [vm_compute; reflexivity |].
  assert (Hcall : exists call,
            In call
              (webhook_calls
                 (out_events
                    (serve Sample.runtime Sample.config Sample.world_ticking
                       (Sample.post_json "/v1/groups/g1/messages/stream"
                          Sample.hi_text))))).
  { vm_compute. eexists. left. reflexivity. }
  destruct Hcall as [call Hin].
  destruct (C6_webhook_payload_by_stream
              Sample.runtime Sample.config Sample.world_ticking
              (Sample.post_json "/v1/groups/g1/messages/stream" Sample.hi_text)
              call Hin)
    as (Htracked & _ & payload & _
        & [(_ & Htype & Hresponse & Hread) | (Hplain & _)]).
  - split; [exact Htracked |]. exists payload. auto.
  - exfalso. apply Hplain. exists "/v1/groups/g1/messages", "". reflexivity.
Defined.

(** C8, as stated, fails: for a message whose content is a list of parts,
    the prompt of the payload is that list, not a string. *)
Lemma C8_prompt_is_not_always_a_string :
  map (Js.member "prompt")
    (payloads
       (detached
          (snd (forwardRequest Sample.runtime Sample.config Sample.world
                  {| c_req_raw :=
                       Sample.post_json "/v1/agents/a1/messages"
                         Sample.parts_text |}
                  initial_state))))
  = [Some (JArr [JObj [("type", JStr "text"); ("text", JStr "hi")]])] /\
  Js.is_string (JArr [JObj [("type", JStr "text"); ("text", JStr "hi")]])
  = false /\
  length
    (webhook_calls
       (out_events
          (serve Sample.runtime Sample.config Sample.world
             (Sample.post_json "/v1/agents/a1/messages" Sample.parts_text))))
  = 1%nat.
Proof. repeat split; vm_compute; reflexivity. Qed.

(** The optional chain of the code walks the path of the specification. *)
Lemma userMessage_of_spec_content (requestBody : json) :
  userMessage_of requestBody = Js.or_empty (spec_content requestBody).
Proof.
  unfold userMessage_of, spec_content, Js.chain.
  destruct requestBody as [| | | |items|fields]; try reflexivity.
  cbn [Js.member].
  destruct (Js.assoc "messages" fields) as [messages|]; [| reflexivity].
  destruct messages as [| | |s|items'|fields']; try reflexivity.
  - destruct s as [|c s]; reflexivity.
  - cbn [Js.index0]. destruct (head items') as [first|]; [| reflexivity].
    destruct first; reflexivity.
  - cbn [Js.index0]. destruct (Js.assoc "0" fields') as [first|]; [| reflexivity].
    destruct first; reflexivity.
Qed.

(** C8, as amended: for every webhook call, the body of the call is the
    serialisation of a payload whose [prompt] field is
    [request.messages[0].content] of the captured JSON request body when
    that value is present and truthy, whatever its type, and the empty
    string when it is absent or falsy ([null], [false], [0], [""]);
    absence of the field is never an error. The prompt is a string
    whenever the content is a string or is absent. *)
Theorem C8_prompt_is_content_or_empty
    (rt : Runtime) (cfg : Config) (world : World) (req : Request)
    (call : FetchCall) :
  In call (webhook_calls (out_events (serve rt cfg world req))) ->
  exists payload requestBody prompt,
    call_body call = body_text (JSON_stringify rt payload) /\
    JSON_parse rt (req_body req) = Normal requestBody /\
    Js.member "prompt" payload = Some prompt /\
    prompt =
      match spec_content requestBody with
      | Some content => if Js.truthy content then content else JStr ""
      | None => JStr ""
      end /\
    (match spec_content requestBody with
     | Some content => Js.is_string content
     | None => true
     end = true -> Js.is_string prompt = true).
Proof.
  intros Hin.
  destruct (serve_webhook_call rt cfg world req call Hin)
    as (r & evs & payload & sent & url & Hopt & Hfw & Hsent & Hev & Hurl & ->).
  inversion Hfw as [ | | | | upcall text response requestBody responseBody ts
                             Hprep Hup Hn Hreq Hresp]; subst.
  apply prepare_kept in Hprep as (-> & _).
  eexists _, requestBody, (userMessage_of requestBody).
  split; [reflexivity |]. split; [exact Hreq |]. split; [reflexivity |].
  rewrite userMessage_of_spec_content. unfold Js.or_empty.
  split; [reflexivity |].
  destruct (spec_content requestBody) as [content|]; [| reflexivity].
  destruct content; try discriminate. intros _.
  now destruct (Js.truthy _).
Qed.

(** C8 applies to the first scenario of the specification:
    [POST /v1/agents/agent-123/messages] with the body
    [{"messages":[{"content":"hi"}]}]. *)
Lemma C8_prompt_is_content_or_empty_witness :
  length
    (webhook_calls
       (out_events
          (serve Sample.runtime Sample.config Sample.world
             (Sample.post_json "/v1/agents/agent-123/messages" Sample.hi_text))))
  = 1%nat /\
  spec_content Sample.hi_value = Some (JStr "hi") /\
  exists payload, Js.member "prompt" payload = Some (JStr "hi").
Proof.
  split; [vm_compute; reflexivity |]. split; [reflexivity |].
  assert (Hcall : exists call,
            In call
              (webhook_calls
                 (out_events
                    (serve Sample.runtime Sample.config Sample.world
                       (Sample.post_json "/v1/agents/agent-123/messages"
                          Sample.hi_text))))).
  { vm_compute. eexists. left. reflexivity. }
  destruct Hcall as [call Hin].
  destruct (C8_prompt_is_content_or_empty
              Sample.runtime Sample.config Sample.world
              (Sample.post_json "/v1/agents/agent-123/messages" Sample.hi_text)
              call Hin)
    as (payload & requestBody & prompt & _ & Hreq & Hprompt & -> & _).
  exists payload. rewrite Hprompt.
  vm_compute in Hreq. injection Hreq as <-. reflexivity.
Defined.

(** [forwardRequest] does not look at the webhook target. *)
Lemma forwardRequest_same_upstream (rt : Runtime) (cfg : Config)
    (w1 w2 : World) (c : Context) (st : state) :
  upstream w1 = upstream w2 -> clock w1 = clock w2 ->
  forwardRequest rt cfg w1 c st = forwardRequest rt cfg w2 c st.
Proof.
  intros Hup Hclock.
  unfold forwardRequest, forwardRequest_notify, fetch_upstream, now.
  rewrite Hup, Hclock. reflexivity.
Qed.

(** At most one call is made to the webhook target. *)
Lemma serve_webhook_calls_length (rt : Runtime) (cfg : Config) (world : World)
    (req : Request) :
  (length (webhook_calls (out_events (serve rt cfg world req))) <= 1)%nat.
Proof.
  pose proof (serve_served rt cfg world req) as H.
  remember (serve rt cfg world req) as o eqn:Eo. clear Eo.
  destruct H as [Hopt | r evs Hopt Hfw | r evs payload sent Hopt Hfw Hsent];
    cbn [out_events].
  - cbn. lia.
  - rewrite (forwarded_webhook_calls _ _ _ _ _ _ _ Hfw). cbn. lia.
  - rewrite webhook_calls_app, (forwarded_webhook_calls _ _ _ _ _ _ _ Hfw),
      app_nil_r, (webhook_sent_calls _ _ _ _ _ Hsent).
    destruct (env (WEBHOOK_URL cfg)); cbn; lia.
Qed.

(** Whenever the upstream answered, the client receives that answer:
    its status and its body. *)
Lemma serve_relays (rt : Runtime) (cfg : Config) (world : World)
    (req : Request) (call : FetchCall) (bodyText : option string)
    (response : Response) :
  req_method req <> "OPTIONS" ->
  prepare rt cfg req = Normal (call, bodyText) ->
  upstream world call = Normal response ->
  out_response (serve rt cfg world req) = Normal (with_cors response).
Proof.
  intros Hopt Hprep Hup. rewrite serve_response.
  apply String.eqb_neq in Hopt. rewrite Hopt.
  destruct (forwardRequest_forwarded rt cfg world {| c_req_raw := req |})
    as (r & evs & n & ts & -> & Hfw).
  cbn [c_req_raw fst] in *.
  inversion Hfw as [e He | c b e Hp Hu | c b resp Hp Hu Hn
                   | c t resp e Hp Hu Hn Hfail
                   | c t resp requestBody responseBody ts' Hp Hu Hn Hreq Hresp];
    subst; try congruence;
    rewrite Hprep in Hp; injection Hp as <- <-; congruence.
Qed.

(** When the payload cannot be built, because the body of the upstream
    response is read and does not parse, the failure goes to
    [console.error]. *)
Lemma serve_payload_failure_logged (rt : Runtime) (cfg : Config)
    (world : World) (req : Request) :
  req_method req <> "OPTIONS" ->
  tracked req -> answered_2xx rt cfg world req -> body_captured rt cfg req ->
  ~ response_usable rt cfg world req ->
  exists e,
    In (ErrorProcessingWebhookData e)
      (errors_logged (out_events (serve rt cfg world req))).
Proof.
  unfold tracked, answered_2xx, body_captured, response_usable.
  intros Hopt Htracked (call & bt & response & Hprep & Hup & Hok)
    (call' & text & Hprep' & Htext) Hunusable.
  rewrite Hprep in Hprep'. injection Hprep' as <- ->.
  pose proof (serve_served rt cfg world req) as H.
  remember (serve rt cfg world req) as o eqn:Eo. clear Eo.
  destruct H as [Hopt' | r evs _ Hfw | r evs payload sent _ Hfw Hsent];
    cbn [out_events]; [congruence | |].
  - inversion Hfw as [e He | c b e Hp Hu | c b resp Hp Hu Hn
                     | c t resp e Hp Hu Hn Hfail | ]; subst.
    + congruence.
    + rewrite Hprep in Hp. injection Hp as <- <-. congruence.
    + rewrite Hprep in Hp. injection Hp as <- <-.
      rewrite Hup in Hu. injection Hu as <-.
      unfold notifies in Hn. cbn in Hn.
      rewrite Htracked, Hok, Htext in Hn. discriminate.
    + exists e. cbn. now left.
  - exfalso. apply Hunusable.
    inversion Hfw as [ | | | | c t resp requestBody responseBody ts
                               Hp Hu Hn Hreq Hresp]; subst.
    destruct (Str.includes (req_pathname req) "/stream"); [now left |].
    destruct Hresp as [Hresp _]. right. eauto 10.
Qed.

(** [app.fetch] does not look at the webhook target either: what it
    returns and the state it returns in are the same whatever the target
    does. *)
Lemma app_fetch_same_upstream (rt : Runtime) (cfg : Config)
    (w1 w2 : World) (req : Request) (st : state) :
  upstream w1 = upstream w2 -> clock w1 = clock w2 ->
  app_fetch rt cfg w1 req st = app_fetch rt cfg w2 req st.
Proof.
  intros Hup Hclock. unfold app_fetch. rewrite !cors_run.
  destruct (String.eqb _ "OPTIONS"); [reflexivity |].
  unfold handler. destruct (String.eqb _ "OPTIONS"); [reflexivity |].
  now rewrite (forwardRequest_same_upstream rt cfg w1 w2 _ _ Hup Hclock).
Qed.

(** A call to the webhook target is the work of a [sendWebhook] that the
    handler started and had not waited for when it returned. *)
Lemma serve_webhook_call_detached (rt : Runtime) (cfg : Config)
    (world : World) (req : Request) (call : FetchCall) :
  In call (webhook_calls (out_events (serve rt cfg world req))) ->
  exists payload,
    detached (snd (app_fetch rt cfg world req initial_state))
      = [task_sendWebhook payload] /\
    call_body call = body_text (JSON_stringify rt payload).
Proof.
  unfold serve, app_fetch. rewrite cors_run.
  unfold c_req_method, handler, c_req_method. cbn [c_req_raw].
  destruct (String.eqb (req_method req) "OPTIONS"); [intros [] |].
  destruct (forwardRequest_forwarded rt cfg world {| c_req_raw := req |})
    as (r & evs & n & ts & -> & Hfw).
  cbn [c_req_raw] in Hfw. cbn [out_events detached snd].
  pose proof (forwarded_webhook_calls _ _ _ _ _ _ _ Hfw) as Hnone.
  inversion Hfw; subst; cbn [run_detached trace];
    try (rewrite Hnone; intros []).
  match goal with
  | |- context [run_task rt cfg world (task_sendWebhook ?p) ?st] =>
      destruct (sendWebhook_inv rt cfg world p st) as (sent & Hrun & Hsent)
  end.
  cbn [run_task]. rewrite Hrun. cbn [snd after trace].
  rewrite webhook_calls_app, Hnone, app_nil_r,
    (webhook_sent_calls _ _ _ _ _ Hsent).
  destruct (env (WEBHOOK_URL cfg)) as [url|]; [| intros []].
  intros [<- | []]. eexists. split; reflexivity.
Qed.

(** C7: a failure of the webhook dispatch is logged and discarded. The
    response the client receives and the call made to the upstream are
    the same in any two worlds that differ only in the webhook target
    (alive or dead); whenever the upstream answered, the client receives
    the status and the body of that answer, whatever happens to the
    webhook; the webhook target is called at most once (no retry); and a
    target that cannot be reached or does not answer [ok], like a payload
    that cannot be built, is reported to [console.error]. The handler
    does not wait for the webhook call: what [app.fetch] returns, and the
    state it returns in (the events so far, the calls it started and left
    running), are the same in the two worlds, and every call to the
    webhook target is the work of a [sendWebhook] it had started and was
    not waiting for when it returned. *)
Theorem C7_webhook_failure_is_invisible
    (rt : Runtime) (cfg : Config) (w1 w2 : World) (req : Request) :
  upstream w1 = upstream w2 -> clock w1 = clock w2 ->
  out_response (serve rt cfg w1 req) = out_response (serve rt cfg w2 req) /\
  upstream_calls (out_events (serve rt cfg w1 req))
    = upstream_calls (out_events (serve rt cfg w2 req)) /\
  app_fetch rt cfg w1 req initial_state
    = app_fetch rt cfg w2 req initial_state /\
  (forall call,
     In call (webhook_calls (out_events (serve rt cfg w1 req))) ->
     exists payload,
       detached (snd (app_fetch rt cfg w1 req initial_state))
         = [task_sendWebhook payload] /\
       call_body call = body_text (JSON_stringify rt payload)) /\
  (forall call bodyText response,
     req_method req <> "OPTIONS" ->
     prepare rt cfg req = Normal (call, bodyText) ->
     upstream w1 call = Normal response ->
     exists r,
       out_response (serve rt cfg w1 req) = Normal r /\
       status r = status response /\ resp_body r = resp_body response) /\
  (length (webhook_calls (out_events (serve rt cfg w1 req))) <= 1)%nat /\
  (forall call,
     In call (webhook_calls (out_events (serve rt cfg w1 req))) ->
     match webhook_target w1 call with
     | Normal r =>
         ok r = false ->
         In (WebhookFailed (status r) (resp_body r))
           (errors_logged (out_events (serve rt cfg w1 req)))
     | Throw e =>
         In (ErrorSendingWebhook e)
           (errors_logged (out_events (serve rt cfg w1 req)))
     end) /\
  (req_method req <> "OPTIONS" ->
   tracked req -> answered_2xx rt cfg w1 req -> body_captured rt cfg req ->
   ~ response_usable rt cfg w1 req ->
   exists e,
     In (ErrorProcessingWebhookData e)
       (errors_logged (out_events (serve rt cfg w1 req)))).
Proof.
  intros Hup Hclock.
  split.
  { rewrite !serve_response.
    now rewrite (forwardRequest_same_upstream rt cfg w1 w2 _ _ Hup Hclock). }
  split.
  { now rewrite !serve_upstream_calls. }
  split.
  { now apply app_fetch_same_upstream. }
  split.
  { apply serve_webhook_call_detached. }
  split.
  { intros call bodyText response Hopt Hprep Hans.
    exists (with_cors response).
    split; [now apply (serve_relays rt cfg w1 req call bodyText) | auto]. }
  split.
  { apply serve_webhook_calls_length. }
  split; [| apply serve_payload_failure_logged].
  intros call Hin.
  destruct (serve_webhook_call rt cfg w1 req call Hin)
    as (r & evs & payload & sent & url & Hopt & Hfw & Hsent & -> & Hurl & ->).
  rewrite errors_logged_app.
  destruct Hsent as [Hnone | url' r' Hurl' Hans Hok | url' r' Hurl' Hans Hok
                    | url' e Hurl' Hans];
    try congruence;
    rewrite Hurl in Hurl'; injection Hurl' as <-; rewrite Hans.
  - congruence.
  - intros _. apply in_or_app. left. now left.
  - apply in_or_app. left. now left.
Qed.

(** C7 applies to the first scenario of the specification, with its
    webhook target alive and with the same target dead: the client
    receives the same response, the handler returns in the same state,
    and the dead target is logged. *)
Lemma C7_webhook_failure_is_invisible_witness :
  upstream Sample.world = upstream Sample.world_dead_webhook /\
  clock Sample.world = clock Sample.world_dead_webhook /\
  app_fetch Sample.runtime Sample.config Sample.world
    (Sample.post_json "/v1/agents/agent-123/messages" Sample.hi_text)
    initial_state
  = app_fetch Sample.runtime Sample.config Sample.world_dead_webhook
      (Sample.post_json "/v1/agents/agent-123/messages" Sample.hi_text)
      initial_state /\
  length
    (detached
       (snd (app_fetch Sample.runtime Sample.config Sample.world_dead_webhook
               (Sample.post_json "/v1/agents/agent-123/messages" Sample.hi_text)
               initial_state)))
  = 1%nat /\
  out_response
    (serve Sample.runtime Sample.config Sample.world
       (Sample.post_json "/v1/agents/agent-123/messages" Sample.hi_text))
  = out_response
      (serve Sample.runtime Sample.config Sample.world_dead_webhook
         (Sample.post_json "/v1/agents/agent-123/messages" Sample.hi_text)) /\
  errors_logged
    (out_events
       (serve Sample.runtime Sample.config Sample.world_dead_webhook
          (Sample.post_json "/v1/agents/agent-123/messages" Sample.hi_text)))
  = [ErrorSendingWebhook "fetch failed"].
Proof.
  split; [reflexivity |]. split; [reflexivity |].
  destruct (C7_webhook_failure_is_invisible
              Sample.runtime Sample.config
              Sample.world Sample.world_dead_webhook
              (Sample.post_json "/v1/agents/agent-123/messages" Sample.hi_text)
              eq_refl eq_refl)
    as (Hsame & _ & Hstate & _).
  split; [exact Hstate |]. split; [vm_compute; reflexivity |].
  split; [exact Hsame | vm_compute; reflexivity].
Defined.

(** C9: for every path, an [OPTIONS] request is answered [204] with the
    permissive CORS headers (origin [*], the methods and headers of the
    options allowed, credentials enabled, max-age [86400]), and nothing
    else happens: no call is issued to the upstream, whatever its state.
    It is the only branch that bypasses forwarding: every other request
    is handed to [forwardRequest], and the client receives what
    [forwardRequest] returns. *)
Theorem C9_options_is_answered_without_forwarding
    (rt : Runtime) (cfg : Config) (world : World) (req : Request) :
  (req_method req = "OPTIONS" ->
   exists r,
     serve rt cfg world req = {| out_response := Normal r; out_events := [] |} /\
     status r = 204 /\
     Headers.get (resp_headers r) "Access-Control-Allow-Origin" = Some "*" /\
     Headers.get (resp_headers r) "Access-Control-Allow-Methods"
       = Some "GET,POST,PUT,DELETE,OPTIONS,PATCH" /\
     Headers.get (resp_headers r) "Access-Control-Allow-Headers" = Some "*" /\
     Headers.get (resp_headers r) "Access-Control-Expose-Headers" = Some "*" /\
     Headers.get (resp_headers r) "Access-Control-Allow-Credentials"
       = Some "true" /\
     Headers.get (resp_headers r) "Access-Control-Max-Age" = Some "86400") /\
  (req_method req <> "OPTIONS" ->
   exists r st later,
     forwardRequest rt cfg world {| c_req_raw := req |} initial_state
       = (Normal r, st) /\
     out_response (serve rt cfg world req) = Normal (with_cors r) /\
     out_events (serve rt cfg world req) = later ++ trace st).
Proof.
  split.
  - intros Hopt. exists preflight_response.
    split; [| repeat split; vm_compute; reflexivity].
    unfold serve, app_fetch. rewrite cors_run.
    unfold c_req_method. cbn [c_req_raw]. rewrite Hopt. reflexivity.
  - intros Hopt. apply String.eqb_neq in Hopt.
    destruct (forwardRequest_forwarded rt cfg world {| c_req_raw := req |})
      as (r & evs & n & ts & Hrun & Hfw).
    exists r, {| trace := evs; clock_reads := n; detached := ts |}.
    unfold serve, app_fetch. rewrite cors_run.
    unfold c_req_method, handler, c_req_method. cbn [c_req_raw].
    rewrite Hopt, Hrun. cbn [out_response out_events detached trace].
    cbn [c_req_raw] in Hfw.
    inversion Hfw; subst; cbn [run_detached].
    1-4: exists []; auto.
    match goal with
    | |- context [run_task rt cfg world (task_sendWebhook ?p) ?st] =>
        destruct (sendWebhook_inv rt cfg world p st) as (sent & Hsend & _)
    end.
    cbn [run_task]. rewrite Hsend. exists sent. auto.
Qed.

(** C9 applies to [OPTIONS /anything], and to the [GET] scenario of the
    specification. *)
Lemma C9_options_is_answered_without_forwarding_witness :
  (exists r,
     serve Sample.runtime Sample.config Sample.world
       (Sample.request "OPTIONS" "/anything" "" [] "")
     = {| out_response := Normal r; out_events := [] |} /\
     status r = 204) /\
  upstream_calls
    (out_events
       (serve Sample.runtime Sample.config Sample.world
          (Sample.request "GET" "/v1/agents/agent-123" "" [] "")))
  <> [].
Proof.
  split.
  - destruct (C9_options_is_answered_without_forwarding
                Sample.runtime Sample.config Sample.world
                (Sample.request "OPTIONS" "/anything" "" [] ""))
      as [Hoptions _].
    destruct (Hoptions eq_refl) as (r & Hserve & Hstatus & _).
    exists r. auto.
  - vm_compute. discriminate.
Defined.






(* ================================================================== *)
(** ** The scenarios of the specification, run *)

(** [POST /v1/agents/agent-123/messages] with the body
    [{"messages":[{"content":"hi"}]}], answered [200 {"id":"m1"}]: the
    caller receives [200 {"id":"m1"}], and the webhook is called once,
    for a [message_sent] payload with the prompt ["hi"], the request and
    the response. *)
Example scenario_message_sent :
  out_response
    (serve Sample.runtime Sample.config Sample.world
       (Sample.post_json "/v1/agents/agent-123/messages" Sample.hi_text))
  = Normal (with_cors (Sample.json_reply 200 Sample.m1_text)) /\
  payloads
    (detached
       (snd (forwardRequest Sample.runtime Sample.config Sample.world
               {| c_req_raw :=
                    Sample.post_json "/v1/agents/agent-123/messages"
                      Sample.hi_text |}
               initial_state)))
  = [webhook_payload false "2024-01-01T00:00:00.000Z" (JStr "hi")
       "/v1/agents/agent-123/messages" "POST" Sample.hi_value Sample.m1_value] /\
  length
    (webhook_calls
       (out_events
          (serve Sample.runtime Sample.config Sample.world
             (Sample.post_json "/v1/agents/agent-123/messages" Sample.hi_text))))
  = 1%nat.
Proof. repeat split; vm_compute; reflexivity. Qed.

(** [POST /v1/groups/g1/messages/stream] with a JSON body, answered [200]:
    the webhook receives [stream_started] and nothing of the response,
    whose body the proxy does not read. *)
Example scenario_stream_started :
  payloads
    (detached
       (snd (forwardRequest Sample.runtime Sample.config Sample.world
               {| c_req_raw :=
                    Sample.post_json "/v1/groups/g1/messages/stream"
                      Sample.hi_text |}
               initial_state)))
  = [webhook_payload true "2024-01-01T00:00:00.000Z" (JStr "hi")
       "/v1/groups/g1/messages/stream" "POST" Sample.hi_value
       (stream_started "2024-01-01T00:00:00.000Z")] /\
  body_read
    (out_events
       (serve Sample.runtime Sample.config Sample.world
          (Sample.post_json "/v1/groups/g1/messages/stream" Sample.hi_text)))
  = false.
Proof. split; vm_compute; reflexivity. Qed.

(** [GET /v1/agents/agent-123]: forwarded, not classified, no webhook
    call. *)
Example scenario_get_is_not_tracked :
  isMessageSendRequest "/v1/agents/agent-123" "GET" = false /\
  map call_url
    (upstream_calls
       (out_events
          (serve Sample.runtime Sample.config Sample.world
             (Sample.request "GET" "/v1/agents/agent-123" "" [] ""))))
  = ["http://letta:8283/v1/agents/agent-123"] /\
  webhook_calls
    (out_events
       (serve Sample.runtime Sample.config Sample.world
          (Sample.request "GET" "/v1/agents/agent-123" "" [] "")))
  = [].
Proof. repeat split; vm_compute; reflexivity. Qed.

(** A message whose content is [null]: the prompt is the empty string. *)
Example scenario_null_content :
  map (Js.member "prompt")
    (payloads
       (detached
          (snd (forwardRequest Sample.runtime Sample.config Sample.world
                  {| c_req_raw :=
                       Sample.post_json "/v1/agents/a1/messages"
                         Sample.null_text |}
                  initial_state))))
  = [Some (JStr "")].
Proof. vm_compute. reflexivity. Qed.

(** The test for a streaming request is the substring ["/stream"]: an
    agent whose id starts with it has its plain messages reported as
    [stream_started]. *)
Example scenario_id_starting_with_stream :
  map (Js.member "type")
    (payloads
       (detached
          (snd (forwardRequest Sample.runtime Sample.config Sample.world
                  {| c_req_raw :=
                       Sample.post_json "/v1/agents/streamer/messages"
                         Sample.hi_text |}
                  initial_state))))
  = [Some (JStr "stream_started")].
Proof. vm_compute. reflexivity. Qed.

(** The proxy's key replaces the caller's, and the headers the proxy
    does not name are passed on. *)
Example scenario_headers :
  map (fun call =>
         (Headers.get (call_headers call) "Authorization",
          Headers.get (call_headers call) "host",
          Headers.get (call_headers call) "x-trace"))
    (upstream_calls
       (out_events
          (serve Sample.runtime Sample.config Sample.world
             (Sample.request "GET" "/v1/agents" ""
                [("Authorization", "Bearer caller"); ("Host", "proxy:8283");
                 ("X-Trace", "t1")]
                ""))))
  = [(Some "Bearer sk-proxy", None, Some "t1")].
Proof. vm_compute. reflexivity. Qed.

(* ================================================================== *)
(** * Part III: what the code shows besides

    Properties of the code that the specification does not state: of
    the classifier and the debug log, of [sendWebhook], of the handler
    and [forwardRequest] request by request, and of the start-up of the
    module. They are stated for the handler on its own ([respond]), so
    that none depends on the middleware. *)

(* ================================================================== *)
(** ** The handler, request by request *)

Section RespondFacts.

Variable rt : Runtime.
Variable cfg : Config.
Variable world : World.

(** Every request given to the handler goes one of the three ways. *)
Lemma respond_responded (req : Request) :
  responded rt cfg world req (respond rt cfg world req).
Proof.
  unfold respond, handler, c_req_method. cbn [c_req_raw].
  destruct (String.eqb_spec (req_method req) "OPTIONS") as [Hopt|Hopt].
  { now apply responded_options. }
  destruct (forwardRequest_forwarded rt cfg world {| c_req_raw := req |})
    as (r & evs & n & ts & -> & Hfw).
  cbn [c_req_raw] in Hfw. cbn [detached].
  inversion Hfw; subst; cbn [run_detached trace];
    try (now apply responded_forwarded).
  match goal with
  | |- context [run_task rt cfg world (task_sendWebhook ?p) ?st] =>
      destruct (sendWebhook_inv rt cfg world p st) as (sent & Hrun & Hsent)
  end.
  cbn [run_task]. rewrite Hrun. cbn.
  eapply responded_notified; eauto.
Qed.

(** The middleware adds nothing to the events of a request. *)
Lemma serve_respond_events (req : Request) :
  out_events (serve rt cfg world req) = out_events (respond rt cfg world req).
Proof.
  unfold serve, respond, app_fetch. rewrite cors_run.
  unfold handler, c_req_method. cbn [c_req_raw].
  destruct (String.eqb (req_method req) "OPTIONS"); [reflexivity |].
  destruct (forwardRequest rt cfg world _ initial_state) as [[r|e] st];
    reflexivity.
Qed.

(** When [forwardRequest] has read the body of the upstream response, the
    request was one to notify of and its path has no ["/stream"]. *)
Lemma forwarded_body_was_read (req : Request) (r : Response)
    (evs : list event) (ts : list task) :
  forwarded rt cfg world req r evs ts ->
  body_read evs = true ->
  Str.includes (req_pathname req) "/stream" = false /\
  exists call text response,
    prepare rt cfg req = Normal (call, Some text) /\
    upstream world call = Normal response /\
    notifies req response (Some text) = true.
Proof.
  intros H; destruct H as [e Hp | call bt e Hp Hu | call bt response Hp Hu Hn
                          | call text response e Hp Hu Hn Hfail
                          | call text response requestBody responseBody ts Hp Hu Hn];
    cbn; try discriminate;
    rewrite body_read_app, response_reads_body_read; cbn;
    rewrite orb_false_r, negb_true_iff; intros Hs; eauto 10.
Qed.

(** The calls to the upstream of a request given to the handler: none for
    [OPTIONS], else the one call that could be prepared. *)
Lemma respond_upstream_calls (req : Request) :
  upstream_calls (out_events (respond rt cfg world req)) =
  if String.eqb (req_method req) "OPTIONS" then []
  else match prepare rt cfg req with
       | Normal (call, _) => [call]
       | Throw _ => []
       end.
Proof.
  pose proof (respond_responded req) as H.
  remember (respond rt cfg world req) as o eqn:Eo. clear Eo.
  destruct H as [Hopt | r evs Hopt Hfw | r evs payload sent Hopt Hfw Hsent];
    cbn [out_events].
  - rewrite Hopt. reflexivity.
  - apply String.eqb_neq in Hopt. rewrite Hopt.
    now apply forwarded_upstream_calls in Hfw.
  - apply String.eqb_neq in Hopt. rewrite Hopt.
    apply forwarded_upstream_calls in Hfw.
    apply webhook_sent_upstream in Hsent as [Hsent _].
    now rewrite upstream_calls_app, Hsent.
Qed.

(** The calls to the webhook target of a request given to the handler,
    and the payload they carry. *)
Lemma respond_webhook_call (req : Request) (call : FetchCall) :
  In call (webhook_calls (out_events (respond rt cfg world req))) ->
  exists r evs payload sent url,
    req_method req <> "OPTIONS" /\
    forwarded rt cfg world req r evs [task_sendWebhook payload] /\
    webhook_sent rt cfg world payload sent /\
    respond rt cfg world req
      = {| out_response := Normal r; out_events := sent ++ evs |} /\
    env (WEBHOOK_URL cfg) = Some url /\
    call = webhook_request rt cfg url payload.
Proof.
  pose proof (respond_responded req) as H.
  destruct H as [Hopt | r evs Hopt Hfw | r evs payload sent Hopt Hfw Hsent];
    cbn [out_events].
  - intros [].
  - rewrite (forwarded_webhook_calls _ _ _ _ _ _ _ Hfw). intros [].
  - rewrite webhook_calls_app, (forwarded_webhook_calls _ _ _ _ _ _ _ Hfw),
      app_nil_r, (webhook_sent_calls _ _ _ _ _ Hsent).
    destruct (env (WEBHOOK_URL cfg)) as [url|]; [| intros []].
    intros [<- | []]. exists r, evs, payload, sent, url. auto 10.
Qed.

(** The handler reads the body of the upstream response only for a request
    it notifies of, whose path has no ["/stream"]. *)
Lemma respond_body_was_read (req : Request) :
  body_read (out_events (respond rt cfg world req)) = true ->
  Str.includes (req_pathname req) "/stream" = false /\
  exists call text response,
    prepare rt cfg req = Normal (call, Some text) /\
    upstream world call = Normal response /\
    notifies req response (Some text) = true.
Proof.
  pose proof (respond_responded req) as H.
  remember (respond rt cfg world req) as o eqn:Eo. clear Eo.
  destruct H as [Hopt | r evs Hopt Hfw | r evs payload sent Hopt Hfw Hsent];
    cbn [out_events].
  - discriminate.
  - now apply (forwarded_body_was_read req r evs []).
  - rewrite body_read_app.
    apply webhook_sent_upstream in Hsent as [_ ->].
    now apply (forwarded_body_was_read req r evs [task_sendWebhook payload]).
Qed.

(** The call that was prepared has the method of the request and the
    headers of the header block. *)
Lemma prepare_call (req : Request) (call : FetchCall) (bodyText : option string) :
  prepare rt cfg req = Normal (call, bodyText) ->
  call_method call = req_method req /\
  forwardRequest_headers rt cfg (req_headers req) = Normal (call_headers call).
Proof. intros H. apply prepare_inv in H as (_ & Hh & _ & Hm). auto. Qed.

(** For [GET] and [HEAD] the body block does nothing. *)
Lemma prepare_without_body (req : Request) (url : string)
    (headers : gmap string string) :
  req_method req = "GET" \/ req_method req = "HEAD" ->
  new_URL rt (req_pathname req) (LETTA_API_URL cfg) = Normal url ->
  forwardRequest_headers rt cfg (req_headers req) = Normal headers ->
  prepare rt cfg req =
  Normal ({| call_url := url;
             call_method := req_method req;
             call_headers := headers;
             call_body := body_undefined |}, None).
Proof.
  intros Hmethod Hurl Hh. unfold prepare, forwardRequest_body.
  rewrite Hurl, Hh.
  destruct Hmethod as [-> | ->]; reflexivity.
Qed.

(** The headers of the call [sendWebhook] makes. *)
Lemma webhook_request_headers (url : string) (payload : json) (name : string) :
  Headers.get (call_headers (webhook_request rt cfg url payload)) name =
  if String.eqb (Headers.lower name) "content-type" then Some "application/json"
  else if String.eqb (Headers.lower name) "x-webhook-secret"
       then env (WEBHOOK_SECRET cfg)
       else None.
Proof.
  unfold webhook_request, Headers.get. cbn [call_headers].
  unfold Headers.of_list, Headers.put. cbn [fold_left fst snd].
  change (Headers.lower "Content-Type") with "content-type".
  change (Headers.lower "X-Webhook-Secret") with "x-webhook-secret".
  destruct (String.eqb_spec (Headers.lower name) "content-type") as [-> | Hct].
  - destruct (env (WEBHOOK_SECRET cfg)).
    + rewrite lookup_insert_ne by discriminate. apply lookup_insert_eq.
    + apply lookup_insert_eq.
  - destruct (String.eqb_spec (Headers.lower name) "x-webhook-secret")
      as [-> | Hs].
    + destruct (env (WEBHOOK_SECRET cfg)); [apply lookup_insert_eq |].
      now rewrite lookup_insert_ne by discriminate.
    + destruct (env (WEBHOOK_SECRET cfg));
        rewrite ?lookup_insert_ne by congruence; apply lookup_empty.
Qed.

End RespondFacts.

(* ================================================================== *)
(** ** The classifier and the flags of the debug log *)

(** The words of the patterns of the debug log. *)
Lemma lang_plain_re (base s : string) :
  lang (Seq (Lit base)
         (Seq (Plus (NotChr "/")) (Seq (Lit "/messages") (Opt (Chr "/"))))) s <->
  exists id sl,
    path_segment id /\ slash_part sl /\ s = base +:+ id +:+ "/messages" +:+ sl.
Proof.
  unfold path_segment, slash_part. split.
  - intros H.
    apply lang_Seq in H as (b & s1 & -> & Hb & H).
    apply lang_Seq in H as (id & s2 & -> & Hid & H).
    apply lang_Seq in H as (m & sl & -> & Hm & Hsl).
    apply lang_Lit in Hb as ->. apply lang_Lit in Hm as ->.
    apply lang_Plus_NotChr in Hid.
    apply lang_Opt in Hsl. rewrite lang_Chr in Hsl.
    exists id, sl. auto.
  - intros (id & sl & Hid & Hsl & ->).
    repeat (apply L_Seq).
    + now apply lang_Lit.
    + now apply lang_Plus_NotChr.
    + now apply lang_Lit.
    + apply lang_Opt. now rewrite lang_Chr.
Qed.

(** A word of a pattern of the classifier is a word of the pattern of the
    debug log, or has [/stream] after [/messages]. *)
Lemma lang_messages_plain_or_stream (base s : string) :
  lang (Seq (Lit base)
         (Seq (Plus (NotChr "/"))
           (Seq (Lit "/messages")
             (Seq (Opt (Lit "/stream")) (Opt (Chr "/")))))) s <->
  lang (Seq (Lit base)
         (Seq (Plus (NotChr "/")) (Seq (Lit "/messages") (Opt (Chr "/"))))) s \/
  exists id sl,
    path_segment id /\ slash_part sl /\
    s = base +:+ id +:+ "/messages" +:+ "/stream" +:+ sl.
Proof.
  rewrite lang_messages_re, lang_plain_re. split.
  - intros (id & st & sl & Hid & [-> | ->] & Hsl & ->).
    + right. eauto.
    + left. exists id, sl. auto.
  - intros [(id & sl & Hid & Hsl & ->) | (id & sl & Hid & Hsl & ->)].
    + exists id, "", sl. unfold stream_part. auto.
    + exists id, "/stream", sl. unfold stream_part. auto.
Qed.

(** A path with [/stream] in it, however it goes on before and after. *)
Lemma includes_stream (pre base id sl : string) :
  Str.includes (pre +:+ base +:+ id +:+ "/messages" +:+ "/stream" +:+ sl)
    "/stream" = true.
Proof.
  apply StrFacts.includes_app.
  exists (pre +:+ base +:+ id +:+ "/messages"), sl.
  now rewrite !StrFacts.app_assoc.
Qed.

(** What the pattern of the debug log finds, the pattern of the
    classifier finds. *)
Lemma test_plain_messages (base path : string) :
  test_to_end
    (Seq (Lit base)
       (Seq (Plus (NotChr "/")) (Seq (Lit "/messages") (Opt (Chr "/"))))) path
  = true ->
  test_to_end
    (Seq (Lit base)
       (Seq (Plus (NotChr "/"))
         (Seq (Lit "/messages")
           (Seq (Opt (Lit "/stream")) (Opt (Chr "/")))))) path
  = true.
Proof.
  rewrite !test_to_end_lang. intros (pre & suf & -> & H).
  exists pre, suf. split; [reflexivity |].
  apply lang_messages_plain_or_stream. now left.
Qed.

(** What the pattern of the classifier finds and the pattern of the debug
    log does not is a path with [/stream] in it. *)
Lemma test_messages_stream (base path : string) :
  test_to_end
    (Seq (Lit base)
       (Seq (Plus (NotChr "/"))
         (Seq (Lit "/messages")
           (Seq (Opt (Lit "/stream")) (Opt (Chr "/")))))) path
  = true ->
  test_to_end
    (Seq (Lit base)
       (Seq (Plus (NotChr "/")) (Seq (Lit "/messages") (Opt (Chr "/"))))) path
  = false ->
  Str.includes path "/stream" = true.
Proof.
  intros Hfull Hplain. apply test_to_end_lang in Hfull as (pre & suf & -> & H).
  apply lang_messages_plain_or_stream in H as [H | (id & sl & _ & _ & ->)].
  - assert (Hfound : test_to_end
              (Seq (Lit base)
                 (Seq (Plus (NotChr "/"))
                    (Seq (Lit "/messages") (Opt (Chr "/"))))) (pre +:+ suf)
            = true) by (apply test_to_end_lang; eauto).
    congruence.
  - apply includes_stream.
Qed.

(** X1: the three [matches] flags of the debug log of [forwardRequest]
    are computed with patterns that lack the [/stream] alternative of the
    classifier. Whenever one of them is [true], the request is a message
    request exactly when its method is [POST]; and a message request for
    which all three are [false] has ["/stream"] in its path, so that
    the webhook block treats it as a streaming request. *)
Theorem X1_matches_flags_miss_only_stream_paths (path method : string) :
  let agentMessage := test_to_end agent_plain_re path in
  let groupMessage := test_to_end group_plain_re path in
  let batchMessage := test_to_end batch_messages_re path in
  (agentMessage || groupMessage || batchMessage = true ->
   isMessageSendRequest path method = String.eqb method "POST") /\
  (isMessageSendRequest path method = true ->
   agentMessage || groupMessage || batchMessage = false ->
   Str.includes path "/stream" = true).
Proof.
  cbv zeta. unfold isMessageSendRequest.
  pose proof (test_plain_messages "/v1/agents/" path) as Hagent.
  pose proof (test_plain_messages "/v1/groups/" path) as Hgroup.
  pose proof (test_messages_stream "/v1/agents/" path) as Sagent.
  pose proof (test_messages_stream "/v1/groups/" path) as Sgroup.
  fold agent_messages_re agent_plain_re in Hagent, Sagent.
  fold group_messages_re group_plain_re in Hgroup, Sgroup.
  destruct (String.eqb method "POST");
    [rewrite !andb_true_r
    | rewrite !andb_false_r; split; [reflexivity | discriminate]].
  destruct (test_to_end agent_plain_re path);
    destruct (test_to_end group_plain_re path);
    destruct (test_to_end batch_messages_re path);
    destruct (test_to_end agent_messages_re path);
    destruct (test_to_end group_messages_re path);
    cbn; split; intros; try reflexivity; try discriminate; auto;
    try (discriminate Hagent; reflexivity);
    try (discriminate Hgroup; reflexivity).
Qed.

(** X1 applies to [GET /v1/agents/a1/messages], where a flag is [true]
    and the request is no message request, and to
    [POST /v1/agents/a1/messages/stream], a message request for which
    the three flags are [false]. *)
Lemma X1_matches_flags_witness :
  isMessageSendRequest "/v1/agents/a1/messages" "GET" = false /\
  test_to_end agent_plain_re "/v1/agents/a1/messages/stream"
    || test_to_end group_plain_re "/v1/agents/a1/messages/stream"
    || test_to_end batch_messages_re "/v1/agents/a1/messages/stream" = false /\
  Str.includes "/v1/agents/a1/messages/stream" "/stream" = true.
Proof.
  destruct (X1_matches_flags_miss_only_stream_paths
              "/v1/agents/a1/messages" "GET") as [Hflag _].
  destruct (X1_matches_flags_miss_only_stream_paths
              "/v1/agents/a1/messages/stream" "POST") as [_ Hstream].
  split; [apply Hflag; reflexivity |].
  split; [reflexivity | apply Hstream; reflexivity].
Defined.

(* ================================================================== *)
(** ** The handler and [forwardRequest] *)

(** X4: the payload of every call to the webhook target has the five
    fields [type], [timestamp], [prompt], [request] and [response], in
    this order. Its [request] field reports the path of the request
    (without the query string), the method, which is always ["POST"],
    and the parsed JSON body of the request: the very value whose
    serialisation was sent to the upstream as the body of the one call
    made there. *)
Theorem X4_webhook_payload_reports_the_request
    (rt : Runtime) (cfg : Config) (world : World) (req : Request)
    (call : FetchCall) :
  In call (webhook_calls (out_events (respond rt cfg world req))) ->
  exists type timestamp prompt requestBody responseBody upcall,
    call_body call =
      body_text
        (JSON_stringify rt
           (JObj [("type", JStr type);
                  ("timestamp", JStr timestamp);
                  ("prompt", prompt);
                  ("request", JObj [("path", JStr (req_pathname req));
                                    ("method", JStr "POST");
                                    ("body", requestBody)]);
                  ("response", responseBody)])) /\
    JSON_parse rt (req_body req) = Normal requestBody /\
    upstream_calls (out_events (respond rt cfg world req)) = [upcall] /\
    call_body upcall = body_text (JSON_stringify rt requestBody).
Proof.
  intros Hin. pose proof (respond_upstream_calls rt cfg world req) as Hup.
  destruct (respond_webhook_call rt cfg world req call Hin)
    as (r & evs & payload & sent & url & Hopt & Hfw & _ & _ & _ & ->).
  inversion Hfw as [ | | | | upcall text response requestBody responseBody ts
                             Hprep Hans Hn Hreq Hresp]; subst.
  apply String.eqb_neq in Hopt. rewrite Hopt, Hprep in Hup.
  unfold notifies in Hn. apply andb_prop in Hn as [Hn _].
  apply andb_prop in Hn as [Htracked _].
  assert (Hpost : req_method req = "POST").
  { unfold isMessageSendRequest in Htracked.
    destruct (String.eqb_spec (req_method req) "POST") as [|Hne]; [assumption |].
    rewrite !andb_false_r in Htracked. discriminate. }
  apply prepare_kept in Hprep as (-> & _ & _ & _ & v & Hv & Hbody).
  rewrite Hreq in Hv. injection Hv as <-.
  eexists _, _, _, requestBody, responseBody, upcall.
  split; [unfold webhook_request, webhook_payload; cbn [call_body];
          rewrite Hpost; reflexivity |].
  auto.
Qed.

(** X4 applies to the first scenario of the specification: the payload
    reports [POST /v1/agents/agent-123/messages] with the body
    [{"messages":[{"content":"hi"}]}], which is what the upstream was
    sent. *)
Lemma X4_webhook_payload_witness :
  length
    (webhook_calls
       (out_events
          (respond Sample.runtime Sample.config Sample.world
             (Sample.post_json "/v1/agents/agent-123/messages" Sample.hi_text))))
  = 1%nat /\
  exists call type timestamp prompt responseBody,
    call_body call =
      body_text
        (JSON_stringify Sample.runtime
           (JObj [("type", JStr type);
                  ("timestamp", JStr timestamp);
                  ("prompt", prompt);
                  ("request",
                   JObj [("path", JStr "/v1/agents/agent-123/messages");
                         ("method", JStr "POST");
                         ("body", Sample.hi_value)]);
                  ("response", responseBody)])).
Proof.
  split; [vm_compute; reflexivity |].
  assert (Hcall : exists call,
            In call
              (webhook_calls
                 (out_events
                    (respond Sample.runtime Sample.config Sample.world
                       (Sample.post_json "/v1/agents/agent-123/messages"
                          Sample.hi_text))))).
  { vm_compute. eexists. left. reflexivity. }
  destruct Hcall as [call Hin].
  destruct (X4_webhook_payload_reports_the_request
              Sample.runtime Sample.config Sample.world
              (Sample.post_json "/v1/agents/agent-123/messages" Sample.hi_text)
              call Hin)
    as (type & timestamp & prompt & requestBody & responseBody & upcall
        & Hbody & Hreq & _).
  vm_compute in Hreq. injection Hreq as <-.
  exists call, type, timestamp, prompt, responseBody. exact Hbody.
Defined.

(** X5: every request is answered, by the handler alone, and at most one
    call is made to the upstream for it. [OPTIONS] is answered [204]
    without a header and without a body, and nothing else happens: no
    call, no log. For any other request the handler returns the response
    of the upstream, as it is, whenever the upstream answered the call,
    whatever its status; and otherwise [500] with the content type
    [application/json] and the body [{ error: "Proxy error", details }],
    where the details are the error of the [fetch] when the call was made
    and failed. The handler never throws. *)
Theorem X5_every_request_is_answered
    (rt : Runtime) (cfg : Config) (world : World) (req : Request) :
  (req_method req = "OPTIONS" ->
   respond rt cfg world req =
     {| out_response :=
          Normal {| status := 204; resp_headers := ∅; resp_body := "" |};
        out_events := [] |}) /\
  (req_method req <> "OPTIONS" ->
   exists r,
     out_response (respond rt cfg world req) = Normal r /\
     match upstream_calls (out_events (respond rt cfg world req)) with
     | [] =>
         exists details,
           status r = 500 /\
           Headers.get (resp_headers r) "content-type"
             = Some "application/json" /\
           resp_body r =
             JSON_stringify rt
               (JObj [("error", JStr "Proxy error");
                      ("details", JStr details)])
     | [call] =>
         match upstream world call with
         | Normal response => r = response
         | Throw e =>
             status r = 500 /\
             Headers.get (resp_headers r) "content-type"
               = Some "application/json" /\
             resp_body r =
               JSON_stringify rt
                 (JObj [("error", JStr "Proxy error"); ("details", JStr e)])
         end
     | _ => False
     end).
Proof.
  split.
  - intros Hopt. unfold respond, handler, c_req_method. cbn [c_req_raw].
    rewrite Hopt. reflexivity.
  - intros Hopt.
    pose proof (respond_upstream_calls rt cfg world req) as Hcalls.
    pose proof (respond_responded rt cfg world req) as H.
    remember (respond rt cfg world req) as o eqn:Eo. clear Eo.
    rewrite Hcalls. clear Hcalls.
    assert (Hfw : forall r evs ts,
              forwarded rt cfg world req r evs ts ->
              match prepare rt cfg req with
              | Normal (call, _) =>
                  match upstream world call with
                  | Normal response => r = response
                  | Throw e => r = proxy_error rt e
                  end
              | Throw _ => exists e, r = proxy_error rt e
              end).
    { intros r evs ts Hf.
      destruct Hf as [e Hp | call bt e Hp Hu | call bt response Hp Hu Hn
                     | call text response e Hp Hu Hn Hfail
                     | call text response requestBody responseBody ts Hp Hu Hn];
        rewrite Hp; try rewrite Hu; eauto. }
    apply String.eqb_neq in Hopt as Hopt'. rewrite Hopt'.
    assert (Hr : exists r evs ts,
              out_response o = Normal r /\ forwarded rt cfg world req r evs ts).
    { destruct H as [Ho | r evs _ Hf | r evs payload sent _ Hf Hsent];
        [congruence | eauto ..]. }
    destruct Hr as (r & evs & ts & Hout & Hf).
    exists r. split; [exact Hout |]. apply Hfw in Hf.
    destruct (prepare rt cfg req) as [[call bt]|e].
    + destruct (upstream world call) as [response|e]; [exact Hf |].
      subst r. repeat split; reflexivity.
    + destruct Hf as [e' ->]. exists e'. repeat split; reflexivity.
Qed.

(** X5 applies to [OPTIONS /anything], answered [204] by the handler, and
    to the [GET] scenario of the specification, answered by the
    upstream. *)
Lemma X5_every_request_is_answered_witness :
  status_received
    (respond Sample.runtime Sample.config Sample.world
       (Sample.request "OPTIONS" "/anything" "" [] ""))
  = Some 204 /\
  exists r,
    out_response
      (respond Sample.runtime Sample.config Sample.world
         (Sample.request "GET" "/v1/agents/agent-123" "" [] ""))
    = Normal r /\
    Forall (fun call => upstream Sample.world call = Normal r)
      (upstream_calls
         (out_events
            (respond Sample.runtime Sample.config Sample.world
               (Sample.request "GET" "/v1/agents/agent-123" "" [] "")))).
Proof.
  split.
  - destruct (X5_every_request_is_answered
                Sample.runtime Sample.config Sample.world
                (Sample.request "OPTIONS" "/anything" "" [] ""))
      as [Hoptions _].
    unfold status_received. rewrite (Hoptions eq_refl). reflexivity.
  - destruct (X5_every_request_is_answered
                Sample.runtime Sample.config Sample.world
                (Sample.request "GET" "/v1/agents/agent-123" "" [] ""))
      as [_ Hother].
    destruct Hother as (r & Hr & Hcalls); [discriminate |].
    exists r. split; [exact Hr |].
    destruct (upstream_calls _) as [|call [|]] eqn:E;
      try (vm_compute in E; discriminate E).
    constructor; [| constructor].
    destruct (upstream Sample.world call) as [response|e] eqn:Hup;
      [now subst | vm_compute in Hup; discriminate Hup].
Defined.

(** X6: when the call to the upstream fails (the [fetch] rejects), the
    client receives [500] with the content type [application/json] and
    the body [{ error: "Proxy error", details }], where [details] is the
    message of the failure; the failure is the one error logged; the
    call is not made again, and no call is made to the webhook
    target. *)
Theorem X6_upstream_failure_is_a_proxy_error
    (rt : Runtime) (cfg : Config) (world : World) (req : Request)
    (call : FetchCall) (e : string) :
  In call (upstream_calls (out_events (respond rt cfg world req))) ->
  upstream world call = Throw e ->
  exists r,
    out_response (respond rt cfg world req) = Normal r /\
    status r = 500 /\
    Headers.get (resp_headers r) "content-type" = Some "application/json" /\
    resp_body r =
      JSON_stringify rt
        (JObj [("error", JStr "Proxy error"); ("details", JStr e)]) /\
    errors_logged (out_events (respond rt cfg world req))
      = [ProxyRequestError e] /\
    upstream_calls (out_events (respond rt cfg world req)) = [call] /\
    webhook_calls (out_events (respond rt cfg world req)) = [].
Proof.
  intros Hin Hdown.
  pose proof (respond_upstream_calls rt cfg world req) as Hcalls.
  pose proof (respond_responded rt cfg world req) as H.
  remember (respond rt cfg world req) as o eqn:Eo. clear Eo.
  rewrite Hcalls in Hin |- *. clear Hcalls.
  destruct (String.eqb_spec (req_method req) "OPTIONS") as [Hopt'|Hopt'];
    [destruct Hin |].
  destruct (prepare rt cfg req) as [[call' bt]|e'] eqn:Hprep; [| destruct Hin].
  destruct Hin as [<- | []].
  assert (Hfw : forall r evs ts,
            forwarded rt cfg world req r evs ts ->
            r = proxy_error rt e /\ ts = [] /\
            evs = EvError (ProxyRequestError e)
                    :: EvFetchUpstream call' :: debug_logs req).
  { intros r evs ts Hf.
    destruct Hf as [e0 Hp | c b e0 Hp Hu | c b response Hp Hu Hn
                   | c text response e0 Hp Hu Hn Hfail
                   | c text response requestBody responseBody ts Hp Hu Hn];
      rewrite Hprep in Hp; try discriminate; injection Hp as <- Hbt;
      rewrite Hdown in Hu; try discriminate.
    injection Hu as <-. auto. }
  destruct H as [Hopt | r evs Hopt Hf | r evs payload sent Hopt Hf Hsent];
    cbn [out_response out_events]; [congruence | |].
  - apply Hfw in Hf as (-> & _ & ->).
    exists (proxy_error rt e). repeat (split; [reflexivity |]). reflexivity.
  - apply Hfw in Hf as (_ & Hts & _). discriminate.
Qed.

(** X6 applies to a tracked [POST] when the upstream cannot be reached:
    the client receives [500], the failure is logged, and the webhook
    target is not called. *)
Lemma X6_upstream_failure_witness :
  exists r,
    out_response
      (respond Sample.runtime Sample.config Sample.world_dead_upstream
         (Sample.post_json "/v1/agents/agent-123/messages" Sample.hi_text))
    = Normal r /\
    status r = 500 /\
    errors_logged
      (out_events
         (respond Sample.runtime Sample.config Sample.world_dead_upstream
            (Sample.post_json "/v1/agents/agent-123/messages" Sample.hi_text)))
    = [ProxyRequestError "fetch failed"] /\
    webhook_calls
      (out_events
         (respond Sample.runtime Sample.config Sample.world_dead_upstream
            (Sample.post_json "/v1/agents/agent-123/messages" Sample.hi_text)))
    = [].
Proof.
  assert (Hcall : exists call,
            In call
              (upstream_calls
                 (out_events
                    (respond Sample.runtime Sample.config
                       Sample.world_dead_upstream
                       (Sample.post_json "/v1/agents/agent-123/messages"
                          Sample.hi_text))))).
  { vm_compute. eexists. left. reflexivity. }
  destruct Hcall as [call Hin].
  destruct (X6_upstream_failure_is_a_proxy_error
              Sample.runtime Sample.config Sample.world_dead_upstream
              (Sample.post_json "/v1/agents/agent-123/messages" Sample.hi_text)
              call "fetch failed" Hin eq_refl)
    as (r & Hr & Hstatus & _ & _ & Herr & _ & Hweb).
  exists r.
  split; [exact Hr |]. split; [exact Hstatus |]. split; [exact Herr | exact Hweb].
Defined.

(** X7: a [GET] or [HEAD] request is forwarded without a body, whatever
    its content type and whatever it carries as a body, which is never
    read or parsed: every call made to the upstream for it has the
    method of the request and no body; no call is made to the webhook
    target, and the body of the upstream response is not read. Once the
    target URL and the headers of the header block are built, exactly one
    call is made to the upstream, with these. *)
Theorem X7_GET_and_HEAD_carry_no_body
    (rt : Runtime) (cfg : Config) (world : World) (req : Request) :
  req_method req = "GET" \/ req_method req = "HEAD" ->
  Forall
    (fun call =>
       call_method call = req_method req /\ call_body call = body_undefined)
    (upstream_calls (out_events (respond rt cfg world req))) /\
  (forall url headers,
     new_URL rt (req_pathname req) (LETTA_API_URL cfg) = Normal url ->
     forwardRequest_headers rt cfg (req_headers req) = Normal headers ->
     upstream_calls (out_events (respond rt cfg world req)) =
       [{| call_url := url;
           call_method := req_method req;
           call_headers := headers;
           call_body := body_undefined |}]) /\
  webhook_calls (out_events (respond rt cfg world req)) = [] /\
  body_read (out_events (respond rt cfg world req)) = false.
Proof.
  intros Hmethod.
  assert (Hnone : forall call text,
            prepare rt cfg req <> Normal (call, Some text)).
  { intros call text Hprep.
    apply prepare_kept in Hprep as (_ & Hget & Hhead & _).
    destruct Hmethod; contradiction. }
  split; [| split; [| split]].
  - rewrite respond_upstream_calls.
    destruct (String.eqb (req_method req) "OPTIONS"); [constructor |].
    destruct (prepare rt cfg req) as [[call bt]|e] eqn:Hprep; [| constructor].
    constructor; [| constructor].
    apply prepare_inv in Hprep as (_ & _ & Hbody & Hm).
    split; [exact Hm |].
    unfold forwardRequest_body in Hbody.
    destruct Hmethod as [Hg | Hh]; rewrite ?Hg, ?Hh in Hbody; cbn in Hbody;
      congruence.
  - intros url headers Hurl Hh.
    rewrite respond_upstream_calls,
      (prepare_without_body rt cfg req url headers Hmethod Hurl Hh).
    destruct Hmethod as [-> | ->]; reflexivity.
  - destruct (webhook_calls (out_events (respond rt cfg world req)))
      as [|call rest] eqn:Hcalls; [reflexivity |].
    destruct (respond_webhook_call rt cfg world req call)
      as (r & evs & payload & sent & u & _ & Hfw & _).
    { rewrite Hcalls. now left. }
    inversion Hfw as [ | | | | c t resp rb pb ts Hp]; subst.
    now apply Hnone in Hp.
  - destruct (body_read (out_events (respond rt cfg world req))) eqn:Hread;
      [| reflexivity].
    apply respond_body_was_read in Hread as (_ & c & text & response & Hp & _).
    now apply Hnone in Hp.
Qed.

(** X7 applies to a [GET] that declares JSON and carries the text
    ["{oops"]: it is forwarded, without a body. *)
Lemma X7_GET_and_HEAD_witness :
  JSON_parse Sample.runtime "{oops" = Throw "Unexpected token" /\
  map (fun call => (call_url call, call_body call))
    (upstream_calls
       (out_events
          (respond Sample.runtime Sample.config Sample.world
             (Sample.request "GET" "/v1/agents" ""
                [("content-type", "application/json")] "{oops"))))
  = [("http://letta:8283/v1/agents", body_undefined)].
Proof.
  split; [reflexivity |].
  destruct (X7_GET_and_HEAD_carry_no_body
              Sample.runtime Sample.config Sample.world
              (Sample.request "GET" "/v1/agents" ""
                 [("content-type", "application/json")] "{oops"))
    as (_ & Hup & _).
  - left. reflexivity.
  - erewrite Hup; [reflexivity | vm_compute; reflexivity ..].
Defined.

(** What [set] strips around a value. *)
Lemma strip_end_app (a b : string) :
  Headers.strip_end b <> "" ->
  Headers.strip_end (a +:+ b) = a +:+ Headers.strip_end b.
Proof.
  intros Hb. induction a as [|c a IH].
  - now rewrite !StrFacts.app_nil_l.
  - rewrite !StrFacts.app_cons. cbn [Headers.strip_end]. rewrite IH.
    destruct (a +:+ Headers.strip_end b) as [|c' rest] eqn:E; [| reflexivity].
    destruct a; [| rewrite StrFacts.app_cons in E; discriminate E].
    rewrite StrFacts.app_nil_l in E. contradiction.
Qed.

(** A key that does not end in white space is set as it is. *)
Lemma normalize_bearer (key : string) :
  key <> "" -> Headers.strip_end key = key ->
  Headers.normalize ("Bearer " +:+ key) = "Bearer " +:+ key.
Proof.
  intros Hne Hkey. unfold Headers.normalize.
  change (Headers.strip_start ("Bearer " +:+ key)) with ("Bearer " +:+ key).
  rewrite strip_end_app; rewrite Hkey; auto.
Qed.

(** X8: no call to the upstream carries the [Authorization] header of
    the caller. Its [Authorization] header is [Bearer <key>], without
    the white space [set] strips around a value, when [LETTA_API_KEY] is
    set and not empty, and it has none otherwise, whatever the caller
    sent; the value is [Bearer <key>] itself when the key does not end in
    white space. When the key is one that no header can carry (it has a
    line break, a NUL or a character above U+00FF), [set] throws: no
    call is made to the upstream, and the request is answered [500]. *)
Theorem X8_upstream_authorization_is_the_proxys
    (rt : Runtime) (cfg : Config) (world : World) (req : Request) :
  Forall
    (fun call =>
       Headers.get (call_headers call) "Authorization" =
       match env (LETTA_API_KEY cfg) with
       | Some key => Some (Headers.normalize ("Bearer " +:+ key))
       | None => None
       end)
    (upstream_calls (out_events (respond rt cfg world req))) /\
  (forall key,
     env (LETTA_API_KEY cfg) = Some key ->
     Headers.strip_end key = key ->
     Headers.normalize ("Bearer " +:+ key) = "Bearer " +:+ key) /\
  (forall key,
     env (LETTA_API_KEY cfg) = Some key ->
     Headers.header_value (Headers.normalize ("Bearer " +:+ key)) = false ->
     upstream_calls (out_events (respond rt cfg world req)) = [] /\
     (req_method req <> "OPTIONS" ->
      exists r details,
        out_response (respond rt cfg world req) = Normal r /\
        status r = 500 /\
        resp_body r =
          JSON_stringify rt
            (JObj [("error", JStr "Proxy error"); ("details", JStr details)]) /\
        (forall url,
           new_URL rt (req_pathname req) (LETTA_API_URL cfg) = Normal url ->
           details =
             Headers_set_error rt "Authorization" ("Bearer " +:+ key)))).
Proof.
  split; [| split].
  - rewrite respond_upstream_calls.
    destruct (String.eqb (req_method req) "OPTIONS"); [constructor |].
    destruct (prepare rt cfg req) as [[call bt]|e] eqn:Hprep; [| constructor].
    constructor; [| constructor].
    apply prepare_call in Hprep as [_ Hh].
    now apply (forwardRequest_headers_authorization rt cfg _ _ Hh).
  - intros key Hkey Hstrip. apply normalize_bearer; [| exact Hstrip].
    intros ->. unfold env in Hkey.
    destruct (LETTA_API_KEY cfg) as [[|a k]|]; discriminate.
  - intros key Hkey Hvalue.
    assert (Hh : forwardRequest_headers rt cfg (req_headers req) =
                 Throw (Headers_set_error rt "Authorization"
                          ("Bearer " +:+ key))).
    { rewrite forwardRequest_headers_steps. cbn zeta.
      now rewrite Hkey, Hvalue. }
    assert (Hprep : exists e,
              prepare rt cfg req = Throw e /\
              forall url,
                new_URL rt (req_pathname req) (LETTA_API_URL cfg) = Normal url ->
                e = Headers_set_error rt "Authorization" ("Bearer " +:+ key)).
    { unfold prepare. rewrite Hh.
      destruct (new_URL rt (req_pathname req) (LETTA_API_URL cfg)) as [url|e].
      - eexists. split; [reflexivity | reflexivity].
      - exists e. split; [reflexivity | discriminate]. }
    destruct Hprep as (e & Hprep & Hdetails).
    split.
    + rewrite respond_upstream_calls, Hprep.
      now destruct (String.eqb (req_method req) "OPTIONS").
    + intros Hopt.
      pose proof (respond_responded rt cfg world req) as H.
      remember (respond rt cfg world req) as o eqn:Eo. clear Eo.
      destruct H as [Ho | r evs _ Hf | r evs payload sent _ Hf Hsent];
        [congruence | |];
        inversion Hf; subst; try congruence.
      match goal with
      | He : prepare rt cfg req = Throw ?e' |- _ =>
          assert (e' = e) as -> by congruence
      end.
      exists (proxy_error rt e), e. cbn [out_response].
      split; [reflexivity |]. split; [reflexivity |].
      split; [reflexivity | exact Hdetails].
Qed.

(** X8 applies to a [GET] that carries a key of the caller: when no key
    is configured, the call to the upstream has no [Authorization]
    header; when the key of the proxy ends in a space, the header is set
    without it; and when the key has a line break, no call is made. *)
Lemma X8_upstream_authorization_witness :
  map (fun call => Headers.get (call_headers call) "Authorization")
    (upstream_calls
       (out_events
          (respond Sample.runtime Sample.config_without_key Sample.world
             (Sample.request "GET" "/v1/agents" ""
                [("Authorization", "Bearer caller")] ""))))
  = [None] /\
  map (fun call => Headers.get (call_headers call) "Authorization")
    (upstream_calls
       (out_events
          (respond Sample.runtime (Sample.config_with_key "sk-proxy ")
             Sample.world
             (Sample.request "GET" "/v1/agents" ""
                [("Authorization", "Bearer caller")] ""))))
  = [Some "Bearer sk-proxy"] /\
  upstream_calls
    (out_events
       (respond Sample.runtime
          (Sample.config_with_key (String "010" "sk-proxy")) Sample.world
          (Sample.request "GET" "/v1/agents" ""
             [("Authorization", "Bearer caller")] "")))
  = [].
Proof.
  split; [| split].
  - destruct (X8_upstream_authorization_is_the_proxys
                Sample.runtime Sample.config_without_key Sample.world
                (Sample.request "GET" "/v1/agents" ""
                   [("Authorization", "Bearer caller")] "")) as [H _].
    destruct (upstream_calls _) as [|call [|]] eqn:E;
      try (vm_compute in E; discriminate E).
    inversion H as [|? ? Hauth _]; subst.
    cbn [map]. rewrite Hauth. reflexivity.
  - destruct (X8_upstream_authorization_is_the_proxys
                Sample.runtime (Sample.config_with_key "sk-proxy ")
                Sample.world
                (Sample.request "GET" "/v1/agents" ""
                   [("Authorization", "Bearer caller")] "")) as [H _].
    destruct (upstream_calls _) as [|call [|]] eqn:E;
      try (vm_compute in E; discriminate E).
    inversion H as [|? ? Hauth _]; subst.
    cbn [map]. rewrite Hauth. vm_compute. reflexivity.
  - destruct (X8_upstream_authorization_is_the_proxys
                Sample.runtime
                (Sample.config_with_key (String "010" "sk-proxy"))
                Sample.world
                (Sample.request "GET" "/v1/agents" ""
                   [("Authorization", "Bearer caller")] ""))
      as (_ & _ & H).
    destruct (H (String "010" "sk-proxy")) as [Hnone _];
      [vm_compute; reflexivity .. | exact Hnone].
Defined.

(** X9: every call to the upstream has the method of the request, and
    its headers are those of the request but for four names. A header
    other than [host], [connection], [content-length] and
    [authorization] is passed on as it came; [host], [connection] and
    [content-length] are passed on only when the request carries them
    with the empty string as their value, and are absent otherwise. *)
Theorem X9_upstream_call_mirrors_the_request
    (rt : Runtime) (cfg : Config) (world : World) (req : Request) :
  Forall
    (fun call =>
       call_method call = req_method req /\
       (forall name,
          Headers.lower name <> "host" ->
          Headers.lower name <> "connection" ->
          Headers.lower name <> "content-length" ->
          Headers.lower name <> "authorization" ->
          Headers.get (call_headers call) name
          = Headers.get (req_headers req) name) /\
       (forall name,
          Headers.lower name = "host" \/
          Headers.lower name = "connection" \/
          Headers.lower name = "content-length" ->
          Headers.get (call_headers call) name =
          match Headers.get (req_headers req) name with
          | Some "" => Some ""
          | _ => None
          end))
    (upstream_calls (out_events (respond rt cfg world req))).
Proof.
  rewrite respond_upstream_calls.
  destruct (String.eqb (req_method req) "OPTIONS"); [constructor |].
  destruct (prepare rt cfg req) as [[call bt]|e] eqn:Hprep; [| constructor].
  constructor; [| constructor].
  apply prepare_call in Hprep as [-> Hh].
  split; [reflexivity |]. unfold Headers.get. split.
  - intros name H1 H2 H3 H4.
    now apply (forwardRequest_headers_other rt cfg _ _ _ Hh).
  - intros name Hname.
    now apply (forwardRequest_headers_framing rt cfg _ _ _ Hh).
Qed.

(** X9 applies to a [DELETE] with a [Host] and an [X-Trace] header: the
    call to the upstream is a [DELETE] with the [X-Trace] header and
    without the [Host] header. *)
Lemma X9_upstream_call_witness :
  map (fun call =>
         (call_method call,
          Headers.get (call_headers call) "X-Trace",
          Headers.get (call_headers call) "Host"))
    (upstream_calls
       (out_events
          (respond Sample.runtime Sample.config Sample.world
             (Sample.request "DELETE" "/v1/agents/a1" ""
                [("Host", "proxy:8283"); ("X-Trace", "t1")] ""))))
  = [("DELETE", Some "t1", None)].
Proof.
  pose proof (X9_upstream_call_mirrors_the_request
                Sample.runtime Sample.config Sample.world
                (Sample.request "DELETE" "/v1/agents/a1" ""
                   [("Host", "proxy:8283"); ("X-Trace", "t1")] "")) as H.
  destruct (upstream_calls _) as [|call [|]] eqn:E;
    try (vm_compute in E; discriminate E).
  inversion H as [|? ? (Hmethod & Hother & Hframing) _]; subst.
  cbn [map]. rewrite Hmethod, (Hother "X-Trace"), (Hframing "Host").
  - reflexivity.
  - left. reflexivity.
  - intros Hname; vm_compute in Hname; discriminate Hname.
  - intros Hname; vm_compute in Hname; discriminate Hname.
  - intros Hname; vm_compute in Hname; discriminate Hname.
  - intros Hname; vm_compute in Hname; discriminate Hname.
Defined.

(** X10: the handler reads the body of the upstream response only to
    build a webhook payload. When it has read it, the request is a
    message request whose path has no ["/stream"], and the upstream
    answered the one call made to it with a status from [200] to [299];
    any other response is passed on unread. *)
Theorem X10_response_body_is_read_only_to_notify
    (rt : Runtime) (cfg : Config) (world : World) (req : Request) :
  body_read (out_events (respond rt cfg world req)) = true ->
  isMessageSendRequest (req_pathname req) (req_method req) = true /\
  Str.includes (req_pathname req) "/stream" = false /\
  exists call response,
    upstream_calls (out_events (respond rt cfg world req)) = [call] /\
    upstream world call = Normal response /\
    ok response = true.
Proof.
  intros Hread.
  apply respond_body_was_read in Hread
    as (Hstream & call & text & response & Hprep & Hup & Hn).
  unfold notifies in Hn. apply andb_prop in Hn as [Hn _].
  apply andb_prop in Hn as [Htracked Hok].
  split; [exact Htracked |]. split; [exact Hstream |].
  exists call, response. rewrite respond_upstream_calls, Hprep.
  destruct (String.eqb_spec (req_method req) "OPTIONS") as [Hopt|]; [| auto].
  exfalso. unfold isMessageSendRequest in Htracked. rewrite Hopt in Htracked.
  change (String.eqb "OPTIONS" "POST") with false in Htracked.
  rewrite !andb_false_r in Htracked. discriminate.
Qed.

(** X10 applies to the first scenario of the specification, where the
    body of the upstream response is read. *)
Lemma X10_response_body_witness :
  body_read
    (out_events
       (respond Sample.runtime Sample.config Sample.world
          (Sample.post_json "/v1/agents/agent-123/messages" Sample.hi_text)))
  = true /\
  Str.includes "/v1/agents/agent-123/messages" "/stream" = false /\
  exists call response,
    upstream Sample.world call = Normal response /\ ok response = true.
Proof.
  split; [vm_compute; reflexivity |].
  destruct (X10_response_body_is_read_only_to_notify
              Sample.runtime Sample.config Sample.world
              (Sample.post_json "/v1/agents/agent-123/messages" Sample.hi_text))
    as (_ & Hstream & call & response & _ & Hup & Hok).
  - vm_compute. reflexivity.
  - split; [exact Hstream |]. exists call, response. auto.
Defined.

(** X11: what goes wrong in the proxy is logged. When a request other
    than [OPTIONS] has been handled and nothing was given to
    [console.error], the upstream answered the one call made to it
    (whatever the status of its answer), the client received that
    answer, and every call made to the webhook target was answered with
    a status from [200] to [299]. *)
Theorem X11_without_error_log_the_calls_were_answered
    (rt : Runtime) (cfg : Config) (world : World) (req : Request) :
  req_method req <> "OPTIONS" ->
  errors_logged (out_events (respond rt cfg world req)) = [] ->
  exists call response,
    upstream_calls (out_events (respond rt cfg world req)) = [call] /\
    upstream world call = Normal response /\
    out_response (respond rt cfg world req) = Normal response /\
    Forall
      (fun wcall =>
         exists r, webhook_target world wcall = Normal r /\ ok r = true)
      (webhook_calls (out_events (respond rt cfg world req))).
Proof.
  intros Hopt.
  pose proof (respond_upstream_calls rt cfg world req) as Hcalls.
  pose proof (respond_responded rt cfg world req) as H.
  remember (respond rt cfg world req) as o eqn:Eo. clear Eo.
  rewrite Hcalls. clear Hcalls.
  apply String.eqb_neq in Hopt. rewrite Hopt. apply String.eqb_neq in Hopt.
  destruct H as [Hopt' | r evs _ Hfw | r evs payload sent _ Hfw Hsent];
    cbn [out_response out_events]; [congruence | |].
  - rewrite (forwarded_webhook_calls _ _ _ _ _ _ _ Hfw).
    inversion Hfw as [e Hp | c b e Hp Hu | c b response Hp Hu Hn
                     | c t response e Hp Hu Hn Hfail | ]; subst;
      cbn; try discriminate.
    intros _. rewrite Hp. eauto 10.
  - rewrite errors_logged_app, webhook_calls_app,
      (forwarded_webhook_calls _ _ _ _ _ _ _ Hfw), app_nil_r.
    inversion Hfw as [ | | | | c t response requestBody responseBody ts
                               Hp Hu Hn Hreq Hresp]; subst.
    rewrite Hp.
    destruct Hsent as [Hnone | url r' Hurl Hans Hok | url r' Hurl Hans Hok
                      | url e Hurl Hans]; cbn; try discriminate; intros _;
      eexists _, _; repeat (split; [reflexivity || eassumption |]);
      repeat constructor; eauto.
Qed.

(** X11 applies to the first scenario of the specification, where
    nothing fails. *)
Lemma X11_without_error_log_witness :
  errors_logged
    (out_events
       (respond Sample.runtime Sample.config Sample.world
          (Sample.post_json "/v1/agents/agent-123/messages" Sample.hi_text)))
  = [] /\
  out_response
    (respond Sample.runtime Sample.config Sample.world
       (Sample.post_json "/v1/agents/agent-123/messages" Sample.hi_text))
  = Normal (Sample.json_reply 200 Sample.m1_text).
Proof.
  split; [vm_compute; reflexivity |].
  destruct (X11_without_error_log_the_calls_were_answered
              Sample.runtime Sample.config Sample.world
              (Sample.post_json "/v1/agents/agent-123/messages" Sample.hi_text))
    as (call & response & _ & Hup & Hr & _).
  - discriminate.
  - vm_compute. reflexivity.
  - rewrite Hr. cbn in Hup. now rewrite <- Hup.
Defined.

(* ================================================================== *)
(** ** Numbers in decimal notation *)

Module NumberFacts.

Import Number.

(** What does not start with a digit is not read. *)
Lemma digits_value_stop (acc : Z) (rest : string) :
  starts_with_digit rest = false -> digits_value acc rest = acc.
Proof. destruct rest as [|a rest]; cbn; [reflexivity | now intros ->]. Qed.

(** Reading the digits of [d] is what the conversion of the library
    computes. *)
Lemma digits_value_uint_acc (d : Decimal.uint) (acc : positive) (rest : string) :
  starts_with_digit rest = false ->
  digits_value (Z.pos acc) (NilEmpty.string_of_uint d +:+ rest)
  = Z.pos (Pos.of_uint_acc d acc).
Proof.
  intros Hrest. revert acc.
  induction d as [|d IH|d IH|d IH|d IH|d IH|d IH|d IH|d IH|d IH|d IH];
    intros acc; cbn [NilEmpty.string_of_uint Pos.of_uint_acc];
    rewrite ?StrFacts.app_cons, ?StrFacts.app_nil_l;
    [now apply digits_value_stop | ..];
    cbn [digits_value]; change (is_digit _) with true; cbn match;
    rewrite <- IH; f_equal;
    match goal with
    | |- context [digit_value ?a] =>
        let v := eval vm_compute in (digit_value a) in
        change (digit_value a) with v
    end; lia.
Qed.

Lemma digits_value_uint (d : Decimal.uint) (rest : string) :
  starts_with_digit rest = false ->
  digits_value 0 (NilEmpty.string_of_uint d +:+ rest) = Z.of_N (Pos.of_uint d).
Proof.
  intros Hrest.
  induction d as [|d IH|d IH|d IH|d IH|d IH|d IH|d IH|d IH|d IH|d IH];
    cbn [NilEmpty.string_of_uint Pos.of_uint];
    rewrite ?StrFacts.app_cons, ?StrFacts.app_nil_l;
    [now apply digits_value_stop | exact IH | ..];
    cbn [digits_value]; change (is_digit _) with true; cbn match;
    cbn [Z.of_N]; rewrite <- (digits_value_uint_acc d _ rest Hrest);
    reflexivity.
Qed.

(** A visible character of ASCII is not white space. *)
Lemma trim_start_visible (a : ascii) (rest : string) :
  (33 <= nat_of_ascii a <= 126)%nat ->
  trim_start (String a rest) = String a rest.
Proof.
  intros Hvisible. cbn [trim_start]. cbv zeta.
  assert (H1 : white_space1 (nat_of_ascii a) = false).
  { unfold white_space1.
    destruct (Nat.leb_spec 9 (nat_of_ascii a));
      destruct (Nat.leb_spec (nat_of_ascii a) 13);
      destruct (Nat.eqb_spec (nat_of_ascii a) 32); cbn; try reflexivity; lia. }
  rewrite H1.
  repeat match goal with
         | |- context [(nat_of_ascii a =? ?k)%nat] =>
             destruct (Nat.eqb_spec (nat_of_ascii a) k); [lia |]
         end.
  reflexivity.
Qed.

(** A digit is a visible character, and no sign. *)
Lemma is_digit_visible (a : ascii) :
  is_digit a = true ->
  (33 <= nat_of_ascii a <= 126)%nat /\ a <> "+"%char /\ a <> "-"%char.
Proof.
  unfold is_digit. rewrite andb_true_iff, !Nat.leb_le. intros [H1 H2].
  split; [lia |].
  split; intros ->;
    [change (nat_of_ascii "+") with 43%nat in * |
     change (nat_of_ascii "-") with 45%nat in *]; lia.
Qed.

(** A string that starts with a digit is read from its first character. *)
Lemma parseInt10_digits (s : string) :
  starts_with_digit s = true -> parseInt10 s = Some (digits_value 0 s).
Proof.
  destruct s as [|a s]; [discriminate |]. cbn [starts_with_digit]. intros Hd.
  destruct (is_digit_visible a Hd) as (Hvisible & Hplus & Hminus).
  unfold parseInt10. rewrite trim_start_visible by assumption.
  apply Ascii.eqb_neq in Hplus, Hminus. rewrite Hplus, Hminus.
  cbn [orb starts_with_digit]. rewrite Hd. f_equal; lia.
Qed.

(** A minus sign before the digits changes the sign of what is read. *)
Lemma parseInt10_minus (s : string) :
  starts_with_digit s = true ->
  parseInt10 (String "-" s) = Some (- digits_value 0 s).
Proof.
  intros Hd. unfold parseInt10.
  rewrite trim_start_visible
    by (change (nat_of_ascii "-") with 45%nat; lia).
  change (Ascii.eqb "-" "-") with true. change (Ascii.eqb "-" "+") with false.
  cbn [orb]. rewrite Hd. f_equal; lia.
Qed.

(** Reading the decimal notation of an integer gives the integer, whatever
    follows the notation, a digit apart. *)
Lemma parseInt10_toString (n : Z) (rest : string) :
  starts_with_digit rest = false ->
  parseInt10 (Z_toString n +:+ rest) = Some n.
Proof.
  intros Hrest. unfold Z_toString.
  destruct n as [|p|p]; cbn [Z.to_int NilZero.string_of_int].
  - change (NilZero.string_of_uint (Decimal.D0 Decimal.Nil) +:+ rest)
      with (String "0" rest).
    rewrite parseInt10_digits by reflexivity.
    change (digits_value 0 (String "0" rest)) with (digits_value 0 rest).
    now rewrite digits_value_stop.
  - pose proof (DecimalPos.Unsigned.to_uint_nonnil p) as Hnil.
    pose proof (DecimalPos.Unsigned.of_to p) as Hp.
    unfold NilZero.string_of_uint.
    destruct (Pos.to_uint p) eqn:E; [congruence | ..];
      rewrite parseInt10_digits by reflexivity;
      rewrite digits_value_uint, Hp by assumption; reflexivity.
  - pose proof (DecimalPos.Unsigned.to_uint_nonnil p) as Hnil.
    pose proof (DecimalPos.Unsigned.of_to p) as Hp.
    unfold NilZero.string_of_uint. rewrite StrFacts.app_cons.
    destruct (Pos.to_uint p) eqn:E; [congruence | ..];
      rewrite parseInt10_minus by reflexivity;
      rewrite digits_value_uint, Hp by assumption; reflexivity.
Qed.

(** A string that starts with a visible character other than a sign and
    a digit is not a number. *)
Lemma parseInt10_NaN (a : ascii) (rest : string) :
  (33 <= nat_of_ascii a <= 126)%nat ->
  a <> "+"%char -> a <> "-"%char -> is_digit a = false ->
  parseInt10 (String a rest) = None.
Proof.
  intros Hvisible Hplus Hminus Hdigit. unfold parseInt10.
  rewrite trim_start_visible by assumption.
  apply Ascii.eqb_neq in Hplus, Hminus. rewrite Hplus, Hminus.
  cbn [orb starts_with_digit]. now rewrite Hdigit.
Qed.

End NumberFacts.

(* ================================================================== *)
(** ** Start-up *)

(** A variable set to the empty string reads as one that is not set. *)
Lemma env_empty_unset (process_env : gmap string string) (name key : string) :
  env (<[name := ""]> process_env !! key) = env (delete name process_env !! key).
Proof.
  destruct (decide (key = name)) as [-> | Hne].
  - now rewrite lookup_insert_eq, lookup_delete_eq.
  - now rewrite lookup_insert_ne, lookup_delete_ne by congruence.
Qed.

(** The proxy reads its settings through their truth value only. *)
Lemma forwardRequest_settings (rt : Runtime) (cfg1 cfg2 : Config)
    (world : World) (c : Context) (st : state) :
  LETTA_API_URL cfg1 = LETTA_API_URL cfg2 ->
  env (LETTA_API_KEY cfg1) = env (LETTA_API_KEY cfg2) ->
  forwardRequest rt cfg1 world c st = forwardRequest rt cfg2 world c st.
Proof.
  intros Hurl Hkey. unfold forwardRequest, forwardRequest_headers.
  rewrite Hurl, Hkey. reflexivity.
Qed.

Lemma sendWebhook_settings (rt : Runtime) (cfg1 cfg2 : Config)
    (world : World) (payload : json) (st : state) :
  env (WEBHOOK_URL cfg1) = env (WEBHOOK_URL cfg2) ->
  env (WEBHOOK_SECRET cfg1) = env (WEBHOOK_SECRET cfg2) ->
  sendWebhook rt cfg1 world payload st = sendWebhook rt cfg2 world payload st.
Proof.
  intros Hurl Hsecret. unfold sendWebhook. rewrite Hurl, Hsecret. reflexivity.
Qed.

Lemma run_detached_settings (rt : Runtime) (cfg1 cfg2 : Config)
    (world : World) (ts : list task) (st : state) :
  env (WEBHOOK_URL cfg1) = env (WEBHOOK_URL cfg2) ->
  env (WEBHOOK_SECRET cfg1) = env (WEBHOOK_SECRET cfg2) ->
  run_detached rt cfg1 world ts st = run_detached rt cfg2 world ts st.
Proof.
  intros Hurl Hsecret. revert st.
  induction ts as [|[payload] ts IH]; intros st; [reflexivity |].
  cbn [run_detached run_task].
  now rewrite (sendWebhook_settings rt cfg1 cfg2 world payload st Hurl Hsecret).
Qed.

Lemma respond_settings (rt : Runtime) (cfg1 cfg2 : Config)
    (world : World) (req : Request) :
  LETTA_API_URL cfg1 = LETTA_API_URL cfg2 ->
  env (LETTA_API_KEY cfg1) = env (LETTA_API_KEY cfg2) ->
  env (WEBHOOK_URL cfg1) = env (WEBHOOK_URL cfg2) ->
  env (WEBHOOK_SECRET cfg1) = env (WEBHOOK_SECRET cfg2) ->
  respond rt cfg1 world req = respond rt cfg2 world req.
Proof.
  intros Hurl Hkey Hwurl Hsecret. unfold respond, handler.
  destruct (String.eqb (c_req_method {| c_req_raw := req |}) "OPTIONS");
    [reflexivity |].
  rewrite (forwardRequest_settings rt cfg1 cfg2 world _ _ Hurl Hkey).
  destruct (forwardRequest rt cfg2 world _ initial_state) as [r st].
  now rewrite (run_detached_settings rt cfg1 cfg2 world _ _ Hwurl Hsecret).
Qed.

(** X12: the port of the proxy. [PORT] is [8283] when [LETTA_PROXY_PORT]
    is not set or is empty. When the variable holds the decimal notation
    of a safe integer [n], followed or not by text that does not start
    with a digit, [PORT] is [n]: reading undoes [toString], and what
    follows the digits is ignored. When it starts with a visible
    character that is neither a sign nor a digit, [PORT] is [NaN]. *)
Theorem X12_PORT_of_environment (process_env : gmap string string) :
  (env (process_env !! "LETTA_PROXY_PORT") = None ->
   PORT process_env = Some 8283) /\
  (forall n rest,
     - 2 ^ 53 < n < 2 ^ 53 ->
     Number.starts_with_digit rest = false ->
     process_env !! "LETTA_PROXY_PORT" = Some (Z_toString n +:+ rest) ->
     PORT process_env = Some n) /\
  (forall a rest,
     (33 <= nat_of_ascii a <= 126)%nat ->
     a <> "+"%char -> a <> "-"%char -> Number.is_digit a = false ->
     process_env !! "LETTA_PROXY_PORT" = Some (String a rest) ->
     PORT process_env = None).
Proof.
  unfold PORT. split; [| split].
  - intros ->. reflexivity.
  - intros n rest _ Hrest ->.
    pose proof (NumberFacts.parseInt10_toString n rest Hrest) as Hparse.
    destruct (Z_toString n +:+ rest) as [|a s]; [discriminate |].
    exact Hparse.
  - intros a rest Hvisible Hplus Hminus Hdigit ->.
    now apply NumberFacts.parseInt10_NaN.
Qed.

(** X12 applies to an environment without the variable, to one where it
    is ["8080"] and to one where it is ["http"]. *)
Lemma X12_PORT_witness :
  PORT Sample.process_env = Some 8283 /\
  PORT (<["LETTA_PROXY_PORT" := "8080"]> Sample.process_env) = Some 8080 /\
  PORT (<["LETTA_PROXY_PORT" := "http"]> Sample.process_env) = None.
Proof.
  split; [| split].
  - apply (X12_PORT_of_environment Sample.process_env). reflexivity.
  - destruct (X12_PORT_of_environment
                (<["LETTA_PROXY_PORT" := "8080"]> Sample.process_env))
      as (_ & Hdigits & _).
    apply (Hdigits 8080 ""); [lia | reflexivity | vm_compute; reflexivity].
  - destruct (X12_PORT_of_environment
                (<["LETTA_PROXY_PORT" := "http"]> Sample.process_env))
      as (_ & _ & HNaN).
    apply (HNaN "h"%char "ttp");
      [vm_compute; lia | discriminate | discriminate | reflexivity
      | vm_compute; reflexivity].
Defined.

(** X14: a variable of the environment that is set to the empty string
    is one that is not set. Whatever the variable, the port is the same
    in both environments; the module fails to start in both, with the
    same error, or starts in both, and then the handler does the same
    for every request and the start-up messages are the same. *)
Theorem X14_empty_variable_is_unset
    (process_env : gmap string string) (name : string)
    (rt : Runtime) (world : World) (req : Request) (info_port : Z) :
  PORT (<[name := ""]> process_env) = PORT (delete name process_env) /\
  match configuration (<[name := ""]> process_env),
        configuration (delete name process_env) with
  | Normal cfg1, Normal cfg2 =>
      respond rt cfg1 world req = respond rt cfg2 world req /\
      serve_callback cfg1 info_port = serve_callback cfg2 info_port
  | Throw e1, Throw e2 => e1 = e2
  | _, _ => False
  end.
Proof.
  split.
  - unfold PORT. now rewrite env_empty_unset.
  - unfold configuration. rewrite (env_empty_unset _ _ "LETTA_API_URL").
    destruct (env (delete name process_env !! "LETTA_API_URL")) as [url|];
      [| reflexivity].
    split.
    + apply respond_settings; cbn; auto using env_empty_unset.
    + unfold serve_callback. cbn. now rewrite env_empty_unset.
Qed.

(** X15: the settings of the proxy are the variables of the environment
    of these names. The module throws ["LETTA_API_URL is not set"] when
    that variable is not set or is empty, and starts otherwise. Then
    every call to the upstream goes to [new URL(path, LETTA_API_URL)]
    and has [Bearer <LETTA_API_KEY>], without the white space [set]
    strips around a value, as its [Authorization] header, or none when
    that variable is not set or is empty; and every call to the
    webhook target goes to [WEBHOOK_URL] and carries [WEBHOOK_SECRET] as
    its [X-Webhook-Secret] header, or none. *)
Theorem X15_settings_come_from_the_environment
    (process_env : gmap string string)
    (rt : Runtime) (world : World) (req : Request) :
  match configuration process_env with
  | Throw e =>
      e = "LETTA_API_URL is not set" /\
      (process_env !! "LETTA_API_URL" = None \/
       process_env !! "LETTA_API_URL" = Some "")
  | Normal cfg =>
      exists base,
        process_env !! "LETTA_API_URL" = Some base /\ base <> "" /\
        Forall
          (fun call =>
             new_URL rt (req_pathname req) base = Normal (call_url call) /\
             Headers.get (call_headers call) "Authorization" =
             match env (process_env !! "LETTA_API_KEY") with
             | Some key => Some (Headers.normalize ("Bearer " +:+ key))
             | None => None
             end)
          (upstream_calls (out_events (respond rt cfg world req))) /\
        Forall
          (fun call =>
             env (process_env !! "WEBHOOK_URL") = Some (call_url call) /\
             Headers.get (call_headers call) "X-Webhook-Secret"
             = env (process_env !! "WEBHOOK_SECRET"))
          (webhook_calls (out_events (respond rt cfg world req)))
  end.
Proof.
  unfold configuration.
  destruct (process_env !! "LETTA_API_URL") as [[|a base]|] eqn:Hbase;
    cbn [env Str.truthy]; [auto | | auto].
  exists (String a base). split; [reflexivity |]. split; [discriminate |].
  split.
  - rewrite respond_upstream_calls.
    destruct (String.eqb (req_method req) "OPTIONS"); [constructor |].
    match goal with
    | |- context [prepare rt ?c req] =>
        destruct (prepare rt c req) as [[call bt]|e] eqn:Hprep; [| constructor]
    end.
    constructor; [| constructor]. split.
    + now apply prepare_url in Hprep.
    + apply prepare_call in Hprep as [_ Hh].
      now apply (forwardRequest_headers_authorization rt _ _ _ Hh).
  - apply List.Forall_forall. intros call Hin.
    apply respond_webhook_call in Hin
      as (r & evs & payload & sent & url & _ & _ & _ & _ & Hurl & ->).
    split; [exact Hurl |]. now rewrite webhook_request_headers.
Qed.

(** X15 applies to an environment that sets [LETTA_API_URL] and nothing
    else: the module starts, and a [GET] is forwarded to that URL. *)
Lemma X15_settings_witness :
  exists cfg,
    configuration Sample.process_env = Normal cfg /\
    map (fun call =>
           (call_url call, Headers.get (call_headers call) "Authorization"))
      (upstream_calls
         (out_events
            (respond Sample.runtime cfg Sample.world
               (Sample.request "GET" "/v1/agents" "" [] ""))))
    = [("http://letta:8283/v1/agents", None)].
Proof.
  pose proof (X15_settings_come_from_the_environment
                Sample.process_env Sample.runtime Sample.world
                (Sample.request "GET" "/v1/agents" "" [] "")) as H.
  destruct (configuration Sample.process_env) as [cfg|e] eqn:E;
    [| vm_compute in E; discriminate E].
  destruct H as (base & Hbase & _ & Hup & _).
  vm_compute in Hbase. injection Hbase as <-.
  exists cfg. split; [reflexivity |].
  vm_compute in E. injection E as <-.
  destruct (upstream_calls _) as [|call [|]] eqn:Ec;
    try (vm_compute in Ec; discriminate Ec).
  inversion Hup as [|? ? (Hurl & Hauth) _]; subst.
  assert (Hcall : call_url call = "http://letta:8283/v1/agents")
    by (vm_compute in Hurl |- *; congruence).
  cbn [map]. rewrite Hauth, Hcall. reflexivity.
Defined.

(* ================================================================== *)
(** ** What the query string of a request reaches *)

Section Frames.

Variable rt : Runtime.
Variable cfg : Config.
Variable world : World.

(** What [sendWebhook] adds to the events does not depend on the events
    before. *)
Lemma sendWebhook_frame (payload : json) :
  exists evs, forall st,
    sendWebhook rt cfg world payload st = (Normal tt, after evs st).
Proof.
  unfold sendWebhook.
  destruct (env (WEBHOOK_URL cfg)) as [url|].
  - unfold try_catch, bind, fetch_webhook, lift, emit, console_error, console_log.
    fold (webhook_request rt cfg url payload). cbn.
    destruct (webhook_target world (webhook_request rt cfg url payload)) as [r|e].
    + destruct (ok r); cbn.
      * exists [EvLog (WebhookSent (status r));
                EvFetchWebhook (webhook_request rt cfg url payload)].
        reflexivity.
      * exists [EvError (WebhookFailed (status r) (resp_body r));
                EvFetchWebhook (webhook_request rt cfg url payload)].
        reflexivity.
    + exists [EvError (ErrorSendingWebhook e);
              EvFetchWebhook (webhook_request rt cfg url payload)].
      reflexivity.
  - exists [EvLog WebhookNotConfigured]. reflexivity.
Qed.

Lemma run_detached_frame (ts : list task) (n : nat) (ds : list task) :
  exists evs, forall t,
    trace (run_detached rt cfg world ts
             {| trace := t; clock_reads := n; detached := ds |})
    = evs ++ t.
Proof.
  induction ts as [|[payload] ts IH].
  - exists []. reflexivity.
  - destruct IH as [evs IH]. destruct (sendWebhook_frame payload) as [sent Hsent].
    exists (evs ++ sent). intros t. cbn [run_detached run_task].
    rewrite Hsent. unfold after. cbn [snd trace clock_reads detached].
    rewrite IH. now rewrite <- app_assoc.
Qed.

(** Nor does what the webhook block adds. *)
Lemma forwardRequest_notify_frame (path method text : string)
    (response : Response) (n : nat) (ds : list task) :
  exists evs n' ds', forall t,
    forwardRequest_notify rt world path method text response
      {| trace := t; clock_reads := n; detached := ds |}
    = (Normal tt, {| trace := evs ++ t; clock_reads := n'; detached := ds' |}).
Proof.
  unfold forwardRequest_notify, try_catch, bind,
    Response_json, now, lift, detach, console_error, emit, ret.
  destruct (Str.includes path "/stream"); cbn.
  - destruct (JSON_parse rt text) as [requestBody|e]; cbn.
    + eexists [], _, _. intros t. cbn. reflexivity.
    + eexists [_], _, _. intros t. cbn. reflexivity.
  - destruct (JSON_parse rt (resp_body response)) as [responseBody|e]; cbn.
    + destruct (JSON_parse rt text) as [requestBody|e]; cbn.
      * eexists [_], _, _. intros t. cbn. reflexivity.
      * eexists [_; _], _, _. intros t. cbn. reflexivity.
    + eexists [_; _], _, _. intros t. cbn. reflexivity.
Qed.

(** The query string of a request reaches the first debug log and
    nothing else of what [forwardRequest] does. *)
Lemma forwardRequest_search (req : Request) (search : string) :
  exists r evs n ts,
    forwardRequest rt cfg world {| c_req_raw := req |} initial_state
    = (r, {| trace := evs ++ debug_logs req;
             clock_reads := n; detached := ts |}) /\
    forwardRequest rt cfg world {| c_req_raw := with_search search req |}
      initial_state
    = (r, {| trace := evs ++ debug_logs (with_search search req);
             clock_reads := n; detached := ts |}).
Proof.
  unfold forwardRequest, c_req_path, try_catch, bind, console_log,
    console_error, fetch_upstream, emit, lift, ret. cbn.
  fold (debug_logs req). fold (debug_logs (with_search search req)).
  destruct (new_URL rt (req_pathname req) (LETTA_API_URL cfg))
    as [targetUrl|e]; cbn.
  2: { eexists _, [_], _, _. split; reflexivity. }
  destruct (forwardRequest_headers rt cfg (req_headers req)) as [headers|e];
    cbn.
  2: { eexists _, [_], _, _. split; reflexivity. }
  change (forwardRequest_body rt (with_search search req))
    with (forwardRequest_body rt req).
  destruct (forwardRequest_body rt req headers) as [[body bodyText]|e]; cbn.
  2: { eexists _, [_], _, _. split; reflexivity. }
  match goal with
  | |- context [upstream world ?c] => destruct (upstream world c) as [response|e]
  end; cbn.
  2: { eexists _, [_; _], _, _. split; reflexivity. }
  destruct bodyText as [text|]; cbn.
  2: { eexists _, [_], _, _. split; reflexivity. }
  destruct (isMessageSendRequest (req_pathname req) (req_method req)
            && ok response && Str.truthy text); cbn.
  2: { eexists _, [_], _, _. split; reflexivity. }
  destruct (forwardRequest_notify_frame (req_pathname req) (req_method req)
              text response 0 []) as (evs & n' & ds' & Hnotify).
  rewrite !Hnotify. cbn.
  eexists _, (evs ++ [_]), _, _. rewrite <- !app_assoc. split; reflexivity.
Qed.

End Frames.

(** X16: the query string of a request reaches the first debug log and
    nothing else. The same request with any other query string is given
    the same response; the same calls are made to the upstream and to the
    webhook target, the same errors are logged, and the body of the
    upstream response is read or not alike. *)
Theorem X16_query_string_reaches_only_the_log
    (rt : Runtime) (cfg : Config) (world : World) (req : Request)
    (search : string) :
  out_response (respond rt cfg world (with_search search req))
    = out_response (respond rt cfg world req) /\
  upstream_calls (out_events (respond rt cfg world (with_search search req)))
    = upstream_calls (out_events (respond rt cfg world req)) /\
  webhook_calls (out_events (respond rt cfg world (with_search search req)))
    = webhook_calls (out_events (respond rt cfg world req)) /\
  errors_logged (out_events (respond rt cfg world (with_search search req)))
    = errors_logged (out_events (respond rt cfg world req)) /\
  body_read (out_events (respond rt cfg world (with_search search req)))
    = body_read (out_events (respond rt cfg world req)).
Proof.
  unfold respond, handler, c_req_method. cbn [c_req_raw].
  change (req_method (with_search search req)) with (req_method req).
  destruct (String.eqb (req_method req) "OPTIONS"); [repeat split |].
  destruct (forwardRequest_search rt cfg world req search)
    as (r & evs & n & ts & -> & ->).
  cbn [out_response out_events detached].
  destruct (run_detached_frame rt cfg world ts n ts) as [sent Hsent].
  rewrite !Hsent.
  rewrite !upstream_calls_app, !webhook_calls_app, !errors_logged_app,
    !body_read_app.
  repeat split.
Qed.
